(** * Swap plugins: quote generation of the Swapuz and Thorchain DEX
    aggregator plugins.

    A shallow embedding of [src/swap/swapuz.ts] and
    [src/swap/defi/thorchainDa.ts].  Asynchronous code is written in a
    state-and-error monad: the state carries the trace of the calls made
    to the outside world (network fetches, wallet spends, log lines), a
    thrown exception is an [Err] result, and the answers of the outside
    world come from an oracle that may look at everything done so far. *)

From Stdlib Require Import ZArith QArith List String Ascii Bool Lia Lqa.
From Stdlib Require Import Floats Uint63 DecimalString.
Import ListNotations.
Local Open Scope string_scope.
Local Open Scope list_scope.
Local Open Scope Z_scope.

Set Implicit Arguments.

(** ** Results and the state-and-error monad *)

Inductive Result (E A : Type) : Type :=
| Ok (a : A)
| Err (e : E).
Arguments Ok {E A} a.
Arguments Err {E A} e.

Definition isOk {E A} (r : Result E A) : bool :=
  match r with Ok _ => true | Err _ => false end.

Section Monad.
Variables S E : Type.

Definition M (A : Type) : Type := S -> Result E A * S.

Definition ret {A} (a : A) : M A := fun s => (Ok a, s).

Definition throw {A} (e : E) : M A := fun s => (Err e, s).

Definition bind {A B} (m : M A) (k : A -> M B) : M B :=
  fun s =>
    match m s with
    | (Ok a, s') => k a s'
    | (Err e, s') => (Err e, s')
    end.

(** [try { m } catch (e) { h e }] *)
Definition tryCatch {A} (m : M A) (h : E -> M A) : M A :=
  fun s =>
    match m s with
    | (Ok a, s') => (Ok a, s')
    | (Err e, s') => h e s'
    end.

Definition gets {A} (f : S -> A) : M A := fun s => (Ok (f s), s).

Definition modify (f : S -> S) : M unit := fun s => (Ok tt, f s).

(** Lift a pure, possibly failing, computation. *)
Definition liftR {A} (r : Result E A) : M A := fun s => (r, s).
End Monad.

Arguments ret {S E A} a.
Arguments throw {S E A} e.
Arguments bind {S E A B} m k.
Arguments tryCatch {S E A} m h.
Arguments gets {S E A} f.
Arguments modify {S E} f.
Arguments liftR {S E A} r.

Declare Scope io_scope.
Delimit Scope io_scope with io.
Notation "x <- m ;; k" := (bind m (fun x => k))
  (at level 61, m at next level, right associativity) : io_scope.
Notation "m ;;; k" := (bind m (fun _ => k))
  (at level 61, right associativity) : io_scope.

(** ** Decimal strings ([biggystring])

    The amounts of the plugins are decimal strings handled by the
    [biggystring] package.  A decimal string is modelled by its value:
    a mantissa and the number of digits after the point. *)

Module Biggystring.

Record Decimal : Type := mkDec { dmant : Z; dscale : nat }.

Definition pow10 (n : nat) : Z := 10 ^ Z.of_nat n.

Definition ofZ (z : Z) : Decimal := mkDec z 0.

(** The rational a decimal string denotes. *)
Definition dval (d : Decimal) : Q := Qmake (dmant d) (Z.to_pos (pow10 (dscale d))).

Definition dcompare (a b : Decimal) : comparison :=
  (dmant a * pow10 (dscale b)) ?= (dmant b * pow10 (dscale a)).

Definition gt (a b : Decimal) : bool :=
  match dcompare a b with Gt => true | _ => false end.

Definition gte (a b : Decimal) : bool :=
  match dcompare a b with Lt => false | _ => true end.

Definition add (a b : Decimal) : Decimal :=
  mkDec (dmant a * pow10 (dscale b) + dmant b * pow10 (dscale a))
        (dscale a + dscale b).

Definition sub (a b : Decimal) : Decimal :=
  mkDec (dmant a * pow10 (dscale b) - dmant b * pow10 (dscale a))
        (dscale a + dscale b).

Definition mul (a b : Decimal) : Decimal :=
  mkDec (dmant a * dmant b) (dscale a + dscale b).

(** [div(x, y, precision)]: both operands are shifted to integers, the
    dividend is scaled by [10^precision] and divided with the big-number
    division, which truncates; a zero divisor throws ([None]). *)
Definition div (a b : Decimal) (precision : nat) : option Decimal :=
  if dmant b =? 0 then None
  else Some (mkDec (Z.quot (dmant a * pow10 (dscale b) * pow10 precision)
                           (dmant b * pow10 (dscale a)))
                   precision).

(** How the package reads an argument: a decimal number in plain
    notation, an optional sign, digits, and optionally a point and more
    digits.  A string of another form (a number written with an exponent,
    [Infinity], [NaN]) is not a decimal string; what the package does with
    it is not modelled. *)
Definition digitOf (c : ascii) : option Z :=
  let n := Z.of_nat (nat_of_ascii c) in
  if (48 <=? n) && (n <=? 57) then Some (n - 48) else None.

Fixpoint readDigits (s : string) (afterPoint : bool) (seen : bool) (acc : Decimal)
  : option Decimal :=
  match s with
  | EmptyString => if seen then Some acc else None
  | String c rest =>
      if Ascii.eqb c "." then
        if afterPoint || negb seen then None
        else readDigits rest true false acc
      else
        match digitOf c with
        | Some d =>
            readDigits rest afterPoint true
              (mkDec (10 * dmant acc + d)
                     (if afterPoint then S (dscale acc) else dscale acc))
        | None => None
        end
  end.

Definition ofString (s : string) : option Decimal :=
  match s with
  | String c rest =>
      if Ascii.eqb c "-"
      then match readDigits rest false false (mkDec 0 0) with
           | Some d => Some (mkDec (- dmant d) (dscale d))
           | None => None
           end
      else readDigits s false false (mkDec 0 0)
  | EmptyString => None
  end.

End Biggystring.

Import Biggystring.

(** Modelled from the spec: [div18] of [src/util/biggystringplus], which is
    not among the sources.  The solver computes with it "the relative
    shortfall (targetOutputUnits - realizedOutputUnits) / targetOutputUnits";
    the helper is the [biggystring] division keeping 18 digits after the
    point, as its name says. *)
Definition div18 (a b : Decimal) : option Decimal := div a b 18.

(** ** Numbers of JavaScript

    A number of a JSON document, once parsed, is a double.  The plugins
    turn such numbers into strings with [toString()] before they hand
    them to [biggystring] or to a wallet: the shortest decimal that reads
    back as the double, written with an exponent when the number is below
    [1e-6] or from [1e21] on. *)

Module JsNumber.

(** A number of JavaScript: a double. *)
Definition Number : Set := float.

(** [x * 2^a] compared with [s * 10^p], for integers [x], [s] that are
    not negative. *)
Definition compareScaled (x a s p : Z) : comparison :=
  (x * 2 ^ Z.max a 0 * 10 ^ Z.max (- p) 0)
  ?= (s * 10 ^ Z.max p 0 * 2 ^ Z.max (- a) 0).

(** The greatest [s] with [s * 10^p <= x * 2^a]. *)
Definition floorScaled (x a p : Z) : Z :=
  (x * 2 ^ Z.max a 0 * 10 ^ Z.max (- p) 0)
  / (10 ^ Z.max p 0 * 2 ^ Z.max (- a) 0).

Definition leScaled (x a s p : Z) : bool :=
  match compareScaled x a s p with Gt => false | _ => true end.
Definition ltScaled (x a s p : Z) : bool :=
  match compareScaled x a s p with Lt => true | _ => false end.

(** The position of the leading digit of [x * 2^a]: the [n] with
    [10^(n-1) <= x * 2^a < 10^n], looked for around the estimate [n]. *)
Fixpoint leadingPosition (fuel : nat) (x a n : Z) : Z :=
  match fuel with
  | O => n
  | S fuel' =>
      if ltScaled x a 1 n
      then if ltScaled x a 1 (n - 1) then leadingPosition fuel' x a (n - 1) else n
      else leadingPosition fuel' x a (n + 1)
  end.

(** The double [m * 2^e], [m] of at most 53 bits, in units of [2^(e-2)]:
    itself and the two ends of the interval of the reals that round to
    it.  The interval is closed when [m] is even. *)
Definition lowEnd (m e : Z) : Z :=
  if (m =? 2 ^ 52) && (-1074 <? e) then 4 * m - 1 else 4 * m - 2.
Definition highEnd (m : Z) : Z := 4 * m + 2.

Definition inside (m e s p : Z) : bool :=
  let a := e - 2 in
  if Z.even m
  then leScaled (lowEnd m e) a s p && negb (ltScaled (highEnd m) a s p)
  else ltScaled (lowEnd m e) a s p && negb (leScaled (highEnd m) a s p).

(** Which of [s * 10^p] and [(s + 1) * 10^p] is closer to [m * 2^e]. *)
Definition closer (m e s p : Z) : Z :=
  (* compare 2 * v with (2 s + 1) * 10^p *)
  match compareScaled (8 * m) (e - 2) (2 * s + 1) p with
  | Lt => s
  | Gt => s + 1
  | Eq => if Z.even s then s else s + 1
  end.

(** The step of Number::toString that chooses [n], [k] and [s]: the
    least number [k] of digits for which some [s * 10^(n-k)] reads back as
    the double, and the [s] closest to it.  The result is [s] and the
    exponent [n - k]. *)
Fixpoint shortest (fuel : nat) (m e n k : Z) : Z * Z :=
  let p := n - k in
  let s := floorScaled (4 * m) (e - 2) p in
  let found :=
    match inside m e s p, inside m e (s + 1) p with
    | true, true => Some (closer m e s p)
    | true, false => Some s
    | false, true => Some (s + 1)
    | false, false => None
    end in
  match found, fuel with
  | Some d, _ => (d, p)
  | None, S fuel' => shortest fuel' m e n (k + 1)
  | None, O => (s, p)
  end.

Fixpoint stripZeros (fuel : nat) (s p : Z) : Z * Z :=
  match fuel with
  | O => (s, p)
  | S fuel' =>
      if (s mod 10 =? 0) && negb (s =? 0) then stripZeros fuel' (s / 10) (p + 1)
      else (s, p)
  end.

Definition digitsOf (s : Z) : string :=
  NilZero.string_of_uint (N.to_uint (Z.to_N s)).

Fixpoint zeros (n : nat) : string :=
  match n with O => "" | S n' => String "0" (zeros n') end.

Definition take (n : nat) (s : string) : string := substring 0 n s.
Definition drop (n : nat) (s : string) : string := substring n (String.length s - n) s.

(** The digits [s] (there are [k]) with the point after the [n]th, as
    Number::toString writes them. *)
Definition layout (ds : string) (n : Z) : string :=
  let k := Z.of_nat (String.length ds) in
  if (k <=? n) && (n <=? 21)
  then String.concat "" [ds; zeros (Z.to_nat (n - k))]
  else if (0 <? n) && (n <=? 21)
  then String.concat "" [take (Z.to_nat n) ds; "."; drop (Z.to_nat n) ds]
  else if (-6 <? n) && (n <=? 0)
  then String.concat "" ["0."; zeros (Z.to_nat (- n)); ds]
  else
    let e := n - 1 in
    let exponent :=
      String.append (if e <? 0 then "-" else "+") (digitsOf (Z.abs e)) in
    if k =? 1 then String.concat "" [ds; "e"; exponent]
    else String.concat "" [take 1 ds; "."; drop 1 ds; "e"; exponent].

(** [Number.prototype.toString()] *)
Definition toString (x : Number) : string :=
  match Prim2SF x with
  | S754_nan => "NaN"
  | S754_zero _ => "0"
  | S754_infinity s => if s then "-Infinity" else "Infinity"
  | S754_finite sign m e =>
      let m := Z.pos m in
      let estimate := (Z.log2 m + e) * 1233 / 4096 + 1 in
      let n := leadingPosition 8 (4 * m) (e - 2) estimate in
      let (s, p) := shortest 17 m e n 1 in
      let (s, p) := stripZeros 17 s p in
      let ds := digitsOf s in
      String.append (if sign then "-" else "")
        (layout ds (p + Z.of_nat (String.length ds)))
  end.

(** The double nearest to [n / d], ties going to the even mantissa: what
    reading a decimal literal gives. *)
Definition nearest (n d : Z) : Number :=
  if n =? 0 then PrimFloat.zero
  else
    let e0 := Z.log2 n - Z.log2 d - 52 in
    let q0 := (n * 2 ^ Z.max (- e0) 0) / (d * 2 ^ Z.max e0 0) in
    let e1 := if q0 <? 2 ^ 52 then e0 - 1 else if 2 ^ 53 <=? q0 then e0 + 1 else e0 in
    let e := Z.max e1 (-1074) in
    let num := n * 2 ^ Z.max (- e) 0 in
    let den := d * 2 ^ Z.max e 0 in
    let q := num / den in
    let r := num mod den in
    let q' :=
      match 2 * r ?= den with
      | Lt => q
      | Gt => q + 1
      | Eq => if Z.even q then q else q + 1
      end in
    Z.ldexp (PrimFloat.of_uint63 (Uint63.of_Z q')) e.

(** [parseFloat] of a decimal string, and the reading of a number of a
    JSON text. *)
Definition parseFloat (d : Decimal) : Number :=
  let x := nearest (Z.abs (dmant d)) (pow10 (dscale d)) in
  if dmant d <? 0 then PrimFloat.opp x else x.

End JsNumber.

(** ** JSON documents and the [cleaners] package *)

#[warnings="-register-all"]
Inductive Json : Type :=
| JNull
| JBool (b : bool)
| JNum (x : JsNumber.Number)
| JStr (s : string)
| JArr (items : list Json)
| JObj (fields : list (string * Json)).

Module Cleaners.

(** A cleaner returns the cleaned value or throws ([None]).  A cleaner
    applied to the field of an object sees [None] when the field is
    absent ([undefined]). *)
Definition Cleaner (A : Type) : Type := option Json -> option A.

Fixpoint field (k : string) (fs : list (string * Json)) : option Json :=
  match fs with
  | [] => None
  | (k', v) :: fs' => if String.eqb k k' then Some v else field k fs'
  end.

Definition asString : Cleaner string :=
  fun raw => match raw with Some (JStr s) => Some s | _ => None end.

Definition asNumber : Cleaner JsNumber.Number :=
  fun raw => match raw with Some (JNum x) => Some x | _ => None end.

Definition asBoolean : Cleaner bool :=
  fun raw => match raw with Some (JBool b) => Some b | _ => None end.

Definition asNull : Cleaner unit :=
  fun raw => match raw with Some JNull => Some tt | _ => None end.

Definition asUnknown : Cleaner (option Json) := fun raw => Some raw.

(** [asOptional(c)]: [null] and [undefined] clean to [undefined]. *)
Definition asOptional {A} (c : Cleaner A) : Cleaner (option A) :=
  fun raw =>
    match raw with
    | None | Some JNull => Some None
    | _ => option_map Some (c raw)
    end.

(** [asMaybe(c)]: whatever [c] rejects cleans to [undefined]. *)
Definition asMaybe {A} (c : Cleaner A) : Cleaner (option A) :=
  fun raw => Some (c raw).

(** [asEither(a, b)]: [a], and [b] if [a] throws. *)
Definition asEither {A B} (a : Cleaner A) (b : Cleaner B) : Cleaner (A + B) :=
  fun raw =>
    match a raw with
    | Some x => Some (inl x)
    | None => option_map inr (b raw)
    end.

Fixpoint cleanAll {A} (c : Cleaner A) (l : list Json) : option (list A) :=
  match l with
  | [] => Some []
  | x :: l' =>
      match c (Some x), cleanAll c l' with
      | Some y, Some ys => Some (y :: ys)
      | _, _ => None
      end
  end.

Definition asArray {A} (c : Cleaner A) : Cleaner (list A) :=
  fun raw => match raw with Some (JArr l) => cleanAll c l | _ => None end.

(** The first step of [asObject]: the fields of an object, or a throw when
    the value is no object.  An array is an object too; it has none of the
    named fields the cleaners below read. *)
Definition asFields : Cleaner (list (string * Json)) :=
  fun raw =>
    match raw with
    | Some (JObj fs) => Some fs
    | Some (JArr _) => Some []
    | _ => None
    end.

End Cleaners.

Import Cleaners.

(** The number written [d] in the text of a JSON document. *)
Definition jsonNumber (d : Decimal) : Json := JNum (JsNumber.parseFloat d).

(** ** The types of [edge-core-js] the plugins use *)

Inductive QuoteFor : Type := QFrom | QTo | QMax.

Record EdgeSwapInfo : Type := {
  pluginId : string;
  isDex : option bool;
  displayName : string;
  supportEmail : string
}.

(** A wallet: its id and [currencyInfo.pluginId]. *)
Record EdgeCurrencyWallet : Type := {
  walletId : string;
  currencyPluginId : string
}.

Record AddressInfo : Type := {
  publicAddress : string;
  legacyAddress : option string;
  segwitAddress : option string
}.

Record EdgeTransaction : Type := { txid : string }.

(** An HTTP response: [ok], [status], the document [json()] resolves to
    ([None] when it rejects) and the body [text()] resolves to. *)
Record Response : Type := {
  ok : bool;
  status : Z;
  json : option Json;
  text : string
}.

(** ** Helpers of [swap-helpers] *)

(** [InvalidCurrencyCodes]: per direction, the currency codes refused on a
    chain. *)
Record InvalidCurrencyCodes : Type := {
  icFrom : list (string * list string);
  icTo : list (string * list string)
}.

Fixpoint assoc {A} (k : string) (l : list (string * A)) : option A :=
  match l with
  | [] => None
  | (k', v) :: l' => if String.eqb k k' then Some v else assoc k l'
  end.

Definition codeListed (table : list (string * list string))
    (chain code : string) : bool :=
  match assoc chain table with
  | Some codes => existsb (String.eqb code) codes
  | None => false
  end.

(** [checkInvalidCodes] of [swap-helpers] is not among the sources.  The
    plugins call it with their table, the request and their [swapInfo];
    it returns, or throws the [SwapCurrencyError] of the request.  Which
    requests it refuses is left open: the models take the helper from the
    outside world, as a function that answers [true] when it throws.

    For examples: a helper that refuses the codes of the table and
    nothing else. *)
Definition refusesListedCodes (codes : InvalidCurrencyCodes)
    (fromPluginId fromCode toPluginId toCode : string) : bool :=
  codeListed (icFrom codes) fromPluginId fromCode
  || codeListed (icTo codes) toPluginId toCode.

(** * [src/swap/swapuz.ts] *)

Module Swapuz.

Definition swapInfo : EdgeSwapInfo :=
  {| pluginId := "swapuz"; isDex := None; displayName := "Swapuz";
     supportEmail := "support@swapuz.com" |}.

Definition orderUri : string := "https://swapuz.com/order/".

Definition dontUseLegacy (cc : string) : bool := String.eqb cc "DGB".

Definition INVALID_CURRENCY_CODES : InvalidCurrencyCodes :=
  {| icFrom := []; icTo := [("zcash", ["ZEC"])] |}.

(** Network names that don't match parent network currency code *)
Definition MAINNET_CODE_TRANSCRIPTION : list (string * string) :=
  [("binancesmartchain", "BSC")].

Inductive Mode : Type := ModeFix | ModeFloat.

Definition isFloat (m : Mode) : bool :=
  match m with ModeFloat => true | ModeFix => false end.

(** What the plugin throws. *)
Inductive Error : Type :=
| SwapCurrencyError (info : EdgeSwapInfo) (fromCurrencyCode toCurrencyCode : string)
| SwapBelowLimitError (info : EdgeSwapInfo) (nativeMin : Decimal)
| HttpError (code : Z)          (* Swapuz call returned error code ... *)
| CleanerError                  (* a cleaner rejected the document *)
| JsonRejected                  (* response.json() rejected *)
| DivisionByZero                (* thrown by the division of biggystring *)
| Rejected (reason : string).   (* a promise of the outside world rejected *)

Record EdgeSwapRequest : Type := {
  fromWallet : EdgeCurrencyWallet;
  toWallet : EdgeCurrencyWallet;
  fromCurrencyCode : string;
  toCurrencyCode : string;
  nativeAmount : Decimal;
  quoteFor : QuoteFor
}.

Definition setQuoteFor (r : EdgeSwapRequest) (q : QuoteFor) : EdgeSwapRequest :=
  {| fromWallet := fromWallet r; toWallet := toWallet r;
     fromCurrencyCode := fromCurrencyCode r;
     toCurrencyCode := toCurrencyCode r;
     nativeAmount := nativeAmount r; quoteFor := q |}.

Definition setNativeAmount (r : EdgeSwapRequest) (a : Decimal) : EdgeSwapRequest :=
  {| fromWallet := fromWallet r; toWallet := toWallet r;
     fromCurrencyCode := fromCurrencyCode r;
     toCurrencyCode := toCurrencyCode r;
     nativeAmount := a; quoteFor := quoteFor r |}.

Record Codes : Type := {
  cFromCurrencyCode : string;
  cToCurrencyCode : string;
  cFromMainnetCode : string;
  cToMainnetCode : string
}.

Record OrderBody : Type := {
  obFrom : string;
  obFromNetwork : string;
  obTo : string;
  obToNetwork : string;
  obAddress : string;
  obAmount : JsNumber.Number;
  obMode : Mode;
  obAddressUserFrom : string;
  obAddressRefound : string
}.

(** The two calls of the wire protocol: [GET rate/?mode=..&amount=..] and
    [POST order]. *)
Inductive HttpRequest : Type :=
| GetRate (mode : Mode) (amount : Decimal)
          (from to fromNetwork toNetwork : string)
| PostOrder (body : OrderBody).

Record SwapData : Type := {
  sdOrderId : string;
  sdOrderUri : string;
  sdIsEstimate : bool;
  sdPayoutAddress : string;
  sdPayoutCurrencyCode : string;
  sdPayoutNativeAmount : Decimal;
  sdPayoutWalletId : string;
  sdPlugin : EdgeSwapInfo;
  sdRefundAddress : string
}.

Record SpendTarget : Type := {
  stNativeAmount : Decimal;
  stPublicAddress : string;
  stUniqueIdentifier : option string
}.

Record EdgeSpendInfo : Type := {
  siCurrencyCode : string;
  siSpendTargets : list SpendTarget;
  siNetworkFeeOption : string;
  siSwapData : SwapData
}.

(** What the plugin does to the outside world. *)
Inductive Event : Type :=
| EvFetch (r : HttpRequest)
| EvMakeSpend (w : EdgeCurrencyWallet) (s : EdgeSpendInfo).

(** The pricing mode a call belongs to: the [mode] of a rate query or of an
    order, and for a spend the mode its [isEstimate] flag stands for. *)
Definition eventMode (e : Event) : Mode :=
  match e with
  | EvFetch (GetRate mode _ _ _ _ _) => mode
  | EvFetch (PostOrder body) => obMode body
  | EvMakeSpend _ s => if sdIsEstimate (siSwapData s) then ModeFloat else ModeFix
  end.

Definition isFixRateQuery (e : Event) : bool :=
  match e with
  | EvFetch (GetRate ModeFix _ _ _ _ _) => true
  | _ => false
  end.

Definition isOrderPost (e : Event) : bool :=
  match e with
  | EvFetch (PostOrder _) => true
  | _ => false
  end.

(** The outside world: the network, the wallets and the helpers that are
    not among the sources.  The network and [makeSpend] answer from the
    history of the calls made so far.

    The wallets answer with decimal strings.  [denominationToNative] is
    only ever called with a number turned into a string by [toString()],
    so it takes that string, whatever its form.  [gtOther] is the answer
    of [gt] of [biggystring] when its first argument is no decimal
    string. *)
Record World : Type := {
  fetch : list Event -> HttpRequest -> Result string Response;
  makeSpend : list Event -> EdgeCurrencyWallet -> EdgeSpendInfo ->
              Result string EdgeTransaction;
  getReceiveAddress : EdgeCurrencyWallet -> string -> AddressInfo;
  nativeToDenomination : EdgeCurrencyWallet -> Decimal -> string -> Decimal;
  denominationToNative : EdgeCurrencyWallet -> string -> string -> Decimal;
  getCodesWithMainnetTranscription :
    EdgeSwapRequest -> list (string * string) -> Codes;
  checkInvalidCodes : InvalidCurrencyCodes -> string -> string -> string -> string
                      -> bool;
  gtOther : string -> Decimal -> bool;
  parseDate : string -> option Z;
  ensureInFuture : Z -> Z
}.

(** [EdgeSwapQuote], as [makeSwapPluginQuote] is called. *)
Record EdgeSwapQuote : Type := {
  qRequest : EdgeSwapRequest;
  fromNativeAmount : Decimal;
  toNativeAmount : Decimal;
  qTx : EdgeTransaction;
  qDestinationAddress : string;
  qPluginId : string;
  qIsEstimate : bool;
  qExpirationDate : Z;
  qQuoteId : string
}.

(** Modelled from the spec: [makeSwapPluginQuote] of [swap-helpers], which
    is not among the sources: the Quote Builder "packages the above into a
    single immutable result object". *)
Definition makeSwapPluginQuote (request : EdgeSwapRequest)
    (fromNative toNative : Decimal) (tx : EdgeTransaction)
    (destinationAddress pluginId : string) (isEstimate : bool)
    (expirationDate : Z) (quoteId : string) : EdgeSwapQuote :=
  {| qRequest := request; fromNativeAmount := fromNative;
     toNativeAmount := toNative; qTx := tx;
     qDestinationAddress := destinationAddress; qPluginId := pluginId;
     qIsEstimate := isEstimate; qExpirationDate := expirationDate;
     qQuoteId := quoteId |}.

Record GetRate_t : Type := { minAmount : JsNumber.Number }.

Record CreateOrder : Type := {
  uid : string;
  amount : JsNumber.Number;
  amountResult : JsNumber.Number;
  addressFrom : string;
  addressTo : string;
  memoFrom : option string;
  finishPayment : Z
}.

Record ApiResponse (T : Type) : Type := {
  result : option T;
  apiStatus : JsNumber.Number
}.

(** *** Cleaners of the wire documents *)

Definition asApiResponse {T} (cleaner : Cleaner T) : Cleaner (ApiResponse T) :=
  fun raw =>
    match asFields raw with
    | None => None
    | Some fs =>
        match asMaybe cleaner (field "result" fs), asNumber (field "status" fs) with
        | Some r, Some st => Some {| result := r; apiStatus := st |}
        | _, _ => None
        end
    end.

Definition asGetRate : Cleaner GetRate_t :=
  fun raw =>
    match asFields raw with
    | None => None
    | Some fs =>
        match asNumber (field "minAmount" fs) with
        | Some m => Some {| minAmount := m |}
        | None => None
        end
    end.

Section WithWorld.
Variable W : World.

(** [asDate]: a string that parses to a valid date. *)
Definition asDate : Cleaner Z :=
  fun raw => match asString raw with
             | Some s => parseDate W s
             | None => None
             end.

Definition asCreateOrder : Cleaner CreateOrder :=
  fun raw =>
    match asFields raw with
    | None => None
    | Some fs =>
        match asString (field "uid" fs), asNumber (field "amount" fs),
              asNumber (field "amountResult" fs),
              asString (field "addressFrom" fs),
              asString (field "addressTo" fs),
              asMaybe asString (field "memoFrom" fs),
              asDate (field "finishPayment" fs) with
        | Some u, Some a, Some ar, Some af, Some at_, Some mf, Some fp =>
            Some {| uid := u; amount := a; amountResult := ar;
                    addressFrom := af; addressTo := at_; memoFrom := mf;
                    finishPayment := fp |}
        | _, _, _, _, _, _, _ => None
        end
    end.

(** *** The calls to the outside world *)

Definition IO : Type -> Type := M (list Event) Error.

Definition doFetch (r : HttpRequest) : IO Response :=
  fun tr =>
    match fetch W tr r with
    | Ok resp => (Ok resp, tr ++ [EvFetch r])
    | Err why => (Err (Rejected why), tr ++ [EvFetch r])
    end.

Definition doMakeSpend (w : EdgeCurrencyWallet) (s : EdgeSpendInfo)
  : IO EdgeTransaction :=
  fun tr =>
    match makeSpend W tr w s with
    | Ok tx => (Ok tx, tr ++ [EvMakeSpend w s])
    | Err why => (Err (Rejected why), tr ++ [EvMakeSpend w s])
    end.

(** [cleaner(await response.json())] *)
Definition readJson {T} (cleaner : Cleaner T) (resp : Response) : IO T :=
  match json resp with
  | None => throw JsonRejected
  | Some doc =>
      match cleaner (Some doc) with
      | Some v => ret v
      | None => throw CleanerError
      end
  end.

(** [gt(x, y)] of [biggystring] with a first argument that comes from
    [toString()]. *)
Definition gtString (x : string) (y : Decimal) : bool :=
  match ofString x with
  | Some d => gt d y
  | None => gtOther W x y
  end.

Definition getAddress (wallet : EdgeCurrencyWallet) (currencyCode : string)
  : string :=
  let addressInfo := getReceiveAddress W wallet currencyCode in
  match legacyAddress addressInfo with
  | Some legacy =>
      if negb (dontUseLegacy currencyCode) then legacy
      else publicAddress addressInfo
  | None => publicAddress addressInfo
  end.

Local Open Scope io_scope.

(** *** [getQuote], the closure of [fetchSwapQuoteInner] *)
Section GetQuote.
Variable request : EdgeSwapRequest.
Variables fromAddress toAddress : string.
Variable codes : Codes.
Variable largeDenomAmount : Decimal.

Let fromCode := cFromCurrencyCode codes.
Let toCode := cToCurrencyCode codes.
Let fromMainnetCode := cFromMainnetCode codes.
Let toMainnetCode := cToMainnetCode codes.

Definition rateRequest (mode : Mode) : HttpRequest :=
  GetRate mode largeDenomAmount fromCode toCode fromMainnetCode toMainnetCode.

Definition orderBody (mode : Mode) : OrderBody :=
  {| obFrom := fromCode; obFromNetwork := fromMainnetCode;
     obTo := toCode; obToNetwork := toMainnetCode;
     obAddress := toAddress; obAmount := JsNumber.parseFloat largeDenomAmount;
     obMode := mode; obAddressUserFrom := fromAddress;
     obAddressRefound := fromAddress |}.

Definition spendInfoOf (mode : Mode) (order : CreateOrder)
    (toNative : Decimal) : EdgeSpendInfo :=
  {| siCurrencyCode := fromCode;
     siSpendTargets :=
       [ {| stNativeAmount := nativeAmount request;
            stPublicAddress := addressFrom order;
            stUniqueIdentifier := memoFrom order |} ];
     siNetworkFeeOption :=
       if String.eqb fromCode "BTC" then "high" else "standard";
     siSwapData :=
       {| sdOrderId := uid order;
          sdOrderUri := String.append orderUri (uid order);
          sdIsEstimate := isFloat mode;
          sdPayoutAddress := toAddress;
          sdPayoutCurrencyCode := toCode;
          sdPayoutNativeAmount := toNative;
          sdPayoutWalletId := walletId (toWallet request);
          sdPlugin := swapInfo;
          sdRefundAddress := fromAddress |} |}.

(** The second half of [getQuote]: create the order and build the
    spend. *)
Definition createOrder (mode : Mode) : IO EdgeSwapQuote :=
  createOrderResponse <- doFetch (PostOrder (orderBody mode)) ;;
  if negb (ok createOrderResponse)
  then throw (HttpError (status createOrderResponse))
  else
    createOrderJson <- readJson (asApiResponse asCreateOrder) createOrderResponse ;;
    match result createOrderJson with
    | None => throw (SwapCurrencyError swapInfo fromCode toCode)
    | Some order =>
        let toNative :=
          denominationToNative W (toWallet request)
            (JsNumber.toString (amountResult order)) toCode in
        tx <- doMakeSpend (fromWallet request) (spendInfoOf mode order toNative) ;;
        ret (makeSwapPluginQuote request (nativeAmount request) toNative tx
               toAddress (pluginId swapInfo) (isFloat mode)
               (ensureInFuture W (finishPayment order)) (uid order))
    end.

Definition getQuote (mode : Mode) : IO EdgeSwapQuote :=
  getRateResponse <- doFetch (rateRequest mode) ;;
  if negb (ok getRateResponse)
  then throw (HttpError (status getRateResponse))
  else
    getRateJson <- readJson (asApiResponse asGetRate) getRateResponse ;;
    match result getRateJson with
    | None => throw (SwapCurrencyError swapInfo fromCode toCode)
    | Some rate =>
        let minText := JsNumber.toString (minAmount rate) in
        if gtString minText largeDenomAmount
        then
          let nativeMinAmount :=
            denominationToNative W (fromWallet request) minText fromCode in
          throw (SwapBelowLimitError swapInfo nativeMinAmount)
        else createOrder mode
    end.

(** [try { getQuote('fix') } catch (e) { try { getQuote('float') }
    catch (e2) { throw e } }] *)
Definition tryThemAll : IO EdgeSwapQuote :=
  tryCatch (getQuote ModeFix)
    (fun e => tryCatch (getQuote ModeFloat) (fun e2 => throw e)).
End GetQuote.

Definition fetchSwapQuoteInner (request : EdgeSwapRequest) : IO EdgeSwapQuote :=
  match quoteFor request with
  | QTo =>
      throw (SwapCurrencyError swapInfo (fromCurrencyCode request)
               (toCurrencyCode request))
  | _ =>
      if checkInvalidCodes W INVALID_CURRENCY_CODES
           (currencyPluginId (fromWallet request)) (fromCurrencyCode request)
           (currencyPluginId (toWallet request)) (toCurrencyCode request)
      then throw (SwapCurrencyError swapInfo (fromCurrencyCode request)
                    (toCurrencyCode request))
      else
        let fromAddress := getAddress (fromWallet request) (fromCurrencyCode request) in
        let toAddress := getAddress (toWallet request) (toCurrencyCode request) in
        let codes :=
          getCodesWithMainnetTranscription W request MAINNET_CODE_TRANSCRIPTION in
        let largeDenomAmount :=
          nativeToDenomination W (fromWallet request) (nativeAmount request)
            (cFromCurrencyCode codes) in
        tryThemAll request fromAddress toAddress codes largeDenomAmount
  end.

(** *** [fetchSwapQuote] and its amount-convergence loop

    The state of the top-level call is the trace of the outside world
    together with [attempts], a ghost list of the amounts with which
    the loop has called [fetchSwapQuoteInner], in order. *)

Record SolverState : Type := {
  trace : list Event;
  attempts : list Decimal
}.

Definition Solver : Type -> Type := M SolverState Error.

Definition liftInner {A} (m : IO A) : Solver A :=
  fun s =>
    let (r, tr') := m (trace s) in
    (r, {| trace := tr'; attempts := attempts s |}).

Definition noteAttempt (a : Decimal) : Solver unit :=
  modify (fun s => {| trace := trace s; attempts := attempts s ++ [a] |}).

Section Converge.
(** [requestTop], [toWallet], [fromCurrencyCode], [toCurrencyCode] and
    [requestToExchangeAmount] as they stand when the loop starts. *)
Variable requestTop : EdgeSwapRequest.
Variable requestToExchangeAmount : Decimal.

(** The [else] branch of the loop body: the next amount to ask for.
    The division throws on a zero divisor. *)
Definition increasedAmount (toExchangeAmount fromQuoteNativeAmount : Decimal)
  : option Decimal :=
  let diff := sub requestToExchangeAmount toExchangeAmount in
  match div18 diff requestToExchangeAmount with
  | Some percentDiff =>
      let diffMultiplier := add (mkDec 1001 3) percentDiff in
      Some (mul diffMultiplier fromQuoteNativeAmount)
  | None => None
  end.

(** [while (--retries !== 0) { ... } throw new SwapCurrencyError(..)];
    [retries] is the value of the variable before the decrement.  The
    variable starts at 5, so the case 0 (where the decrement would
    pass below zero) is never entered. *)
Fixpoint whileRetries (retries : nat) (fromQuoteNativeAmount : Decimal)
  : Solver EdgeSwapQuote :=
  match retries with
  | S (S _ as retries') =>
      (noteAttempt fromQuoteNativeAmount ;;;
       quote <- liftInner (fetchSwapQuoteInner
                             (setNativeAmount requestTop fromQuoteNativeAmount)) ;;
       let toExchangeAmount :=
         nativeToDenomination W (toWallet requestTop) (toNativeAmount quote)
           (toCurrencyCode requestTop) in
       if gte toExchangeAmount requestToExchangeAmount
       then ret quote
       else
         match increasedAmount toExchangeAmount fromQuoteNativeAmount with
         | Some a => whileRetries retries' a
         | None => throw DivisionByZero
         end)%io
  | _ =>
      throw (SwapCurrencyError swapInfo (fromCurrencyCode requestTop)
               (toCurrencyCode requestTop))
  end.

(** The run of the loop from [retries] in which every quote asked for is
    obtained and its realized output stays below the target. *)
Fixpoint neverReaches (retries : nat) (fromQuoteNativeAmount : Decimal)
    (s : SolverState) : Prop :=
  match retries with
  | S (S _ as retries') =>
      match fetchSwapQuoteInner (setNativeAmount requestTop fromQuoteNativeAmount)
              (trace s) with
      | (Ok quote, tr) =>
          let toExchangeAmount :=
            nativeToDenomination W (toWallet requestTop) (toNativeAmount quote)
              (toCurrencyCode requestTop) in
          gte toExchangeAmount requestToExchangeAmount = false
          /\ match increasedAmount toExchangeAmount fromQuoteNativeAmount with
             | Some a =>
                 neverReaches retries' a
                   {| trace := tr; attempts := attempts s ++ [fromQuoteNativeAmount] |}
             | None => False
             end
      | (Err _, _) => False
      end
  | _ => True
  end.
End Converge.

Definition fetchSwapQuote (requestTop : EdgeSwapRequest) : Solver EdgeSwapQuote :=
  match quoteFor requestTop with
  | QFrom => liftInner (fetchSwapQuoteInner requestTop)
  | _ =>
      let requestTop' := setQuoteFor requestTop QFrom in
      let requestToExchangeAmount :=
        nativeToDenomination W (fromWallet requestTop) (nativeAmount requestTop)
          (fromCurrencyCode requestTop) in
      whileRetries requestTop' requestToExchangeAmount 5 (nativeAmount requestTop)
  end.

End WithWorld.

(** *** A provider stub: every rate query and order succeeds; the rate
    query reports the minimum [minimum] and the order always pays out
    [payout]. *)
(** A wallet whose native unit is its exchange unit reads the amount it
    is given (a string that is no decimal number reads as 0 here). *)
Definition readAmount (a : string) : Decimal :=
  match ofString a with Some d => d | None => ofZ 0 end.

Section Stub.
Variables minimum payout : Decimal.

Definition stubRate : Json :=
  JObj [("result", JObj [("minAmount", jsonNumber minimum)]);
        ("status", jsonNumber (ofZ 200))].

Definition stubOrder : Json :=
  JObj [("result",
         JObj [("uid", JStr "order-1"); ("amount", jsonNumber (ofZ 1));
               ("amountResult", jsonNumber payout);
               ("addressFrom", JStr "deposit-address");
               ("addressTo", JStr "payout-address");
               ("finishPayment", JStr "2030-01-01T00:00:00.000Z")]);
        ("status", jsonNumber (ofZ 200))].

Definition stubWorldWith : World :=
  {| fetch := fun _ r =>
       match r with
       | GetRate _ _ _ _ _ _ =>
           Ok {| ok := true; status := 200; json := Some stubRate; text := "" |}
       | PostOrder _ =>
           Ok {| ok := true; status := 200; json := Some stubOrder; text := "" |}
       end;
     makeSpend := fun _ _ _ => Ok {| txid := "tx" |};
     getReceiveAddress := fun w _ =>
       {| publicAddress := String.append "addr-" (walletId w);
          legacyAddress := None; segwitAddress := None |};
     nativeToDenomination := fun _ a _ => a;
     denominationToNative := fun _ a _ => readAmount a;
     getCodesWithMainnetTranscription := fun r _ =>
       {| cFromCurrencyCode := fromCurrencyCode r;
          cToCurrencyCode := toCurrencyCode r;
          cFromMainnetCode := fromCurrencyCode r;
          cToMainnetCode := toCurrencyCode r |};
     checkInvalidCodes := refusesListedCodes;
     gtOther := fun _ _ => false;
     parseDate := fun _ => Some 1893456000000;
     ensureInFuture := fun d => d |}.
End Stub.

Definition stubWorld (payout : Decimal) : World := stubWorldWith (ofZ 0) payout.

(** A provider that pays out [rate] times the amount of the order. *)
Definition orderAt (rate : Decimal) (body : OrderBody) : Json :=
  JObj [("result",
         JObj [("uid", JStr "order-1"); ("amount", JNum (obAmount body));
               ("amountResult",
                JNum (PrimFloat.mul (JsNumber.parseFloat rate) (obAmount body)));
               ("addressFrom", JStr "deposit-address");
               ("addressTo", JStr "payout-address");
               ("finishPayment", JStr "2030-01-01T00:00:00.000Z")]);
        ("status", jsonNumber (ofZ 200))].

Definition rateWorld (rate : Decimal) : World :=
  let W := stubWorld (ofZ 0) in
  {| fetch := fun tr r =>
       match r with
       | PostOrder body =>
           Ok {| ok := true; status := 200; json := Some (orderAt rate body);
                 text := "" |}
       | _ => fetch W tr r
       end;
     makeSpend := makeSpend W;
     getReceiveAddress := getReceiveAddress W;
     nativeToDenomination := nativeToDenomination W;
     denominationToNative := denominationToNative W;
     getCodesWithMainnetTranscription := getCodesWithMainnetTranscription W;
     checkInvalidCodes := checkInvalidCodes W;
     gtOther := gtOther W;
     parseDate := parseDate W;
     ensureInFuture := ensureInFuture W |}.

Definition btcWallet : EdgeCurrencyWallet :=
  {| walletId := "w-btc"; currencyPluginId := "bitcoin" |}.
Definition ethWallet : EdgeCurrencyWallet :=
  {| walletId := "w-eth"; currencyPluginId := "ethereum" |}.

(** "Quote the input needed to receive [amount]" of ETH for BTC. *)
Definition reverseRequest (amount : Z) : EdgeSwapRequest :=
  {| fromWallet := btcWallet; toWallet := ethWallet;
     fromCurrencyCode := "BTC"; toCurrencyCode := "ETH";
     nativeAmount := ofZ amount; quoteFor := QTo |}.

Definition start : SolverState := {| trace := []; attempts := [] |}.

(** The next amount in the words of the specification: the previous
    amount times [1.001 + (target - realized) / target], as a rational
    number. *)
Definition specIncreasedAmount (target realized previous : Decimal) : Q :=
  (dval previous * ((1001 # 1000) + (dval target - dval realized) / dval target))%Q.

(** One unit in the eighteenth place after the point. *)
Definition ulp18 : Decimal := mkDec 1 18.

Definition three : Decimal := ofZ 3.
Definition two : Decimal := ofZ 2.

(** A provider that has no rate for the pair: the rate query is answered
    with a null result. *)
Definition noRateDoc : Json :=
  JObj [("result", JNull); ("status", jsonNumber (ofZ 200))].

Definition noRateWorld : World :=
  let W := stubWorld (ofZ 0) in
  {| fetch := fun tr r =>
       match r with
       | GetRate _ _ _ _ _ _ =>
           Ok {| ok := true; status := 200; json := Some noRateDoc; text := "" |}
       | _ => fetch W tr r
       end;
     makeSpend := makeSpend W;
     getReceiveAddress := getReceiveAddress W;
     nativeToDenomination := nativeToDenomination W;
     denominationToNative := denominationToNative W;
     getCodesWithMainnetTranscription := getCodesWithMainnetTranscription W;
     checkInvalidCodes := checkInvalidCodes W;
     gtOther := gtOther W;
     parseDate := parseDate W;
     ensureInFuture := ensureInFuture W |}.

Definition btcToEth : Codes :=
  {| cFromCurrencyCode := "BTC"; cToCurrencyCode := "ETH";
     cFromMainnetCode := "BTC"; cToMainnetCode := "ETH" |}.

(** A provider whose fixed-rate offer has the minimum [minimum] and whose
    floating-rate offer has none; every order pays out [payout]. *)
Definition fixMinimumWorld (minimum payout : Decimal) : World :=
  let W := stubWorldWith minimum payout in
  {| fetch := fun tr r =>
       match r with
       | GetRate ModeFloat _ _ _ _ _ =>
           Ok {| ok := true; status := 200; json := Some (stubRate (ofZ 0));
                 text := "" |}
       | _ => fetch W tr r
       end;
     makeSpend := makeSpend W;
     getReceiveAddress := getReceiveAddress W;
     nativeToDenomination := nativeToDenomination W;
     denominationToNative := denominationToNative W;
     getCodesWithMainnetTranscription := getCodesWithMainnetTranscription W;
     checkInvalidCodes := checkInvalidCodes W;
     gtOther := gtOther W;
     parseDate := parseDate W;
     ensureInFuture := ensureInFuture W |}.



(** Sell BTC for ETH, asked in the direction 'from'. *)
Definition forwardRequest (amount : Z) : EdgeSwapRequest :=
  {| fromWallet := btcWallet; toWallet := ethWallet;
     fromCurrencyCode := "BTC"; toCurrencyCode := "ETH";
     nativeAmount := ofZ amount; quoteFor := QFrom |}.

End Swapuz.

(** ** Strings of JavaScript *)

Definition lowerAscii (c : Ascii.ascii) : Ascii.ascii :=
  let n := Ascii.nat_of_ascii c in
  if (Nat.leb 65 n && Nat.leb n 90)%bool then Ascii.ascii_of_nat (n + 32) else c.

Fixpoint toLowerCase (s : string) : string :=
  match s with
  | EmptyString => EmptyString
  | String c s' => String (lowerAscii c) (toLowerCase s')
  end.

Definition hexDigit (n : nat) : Ascii.ascii :=
  Ascii.ascii_of_nat (if Nat.ltb n 10 then 48 + n else 87 + n).

(** [Buffer.from(s).toString('hex')] *)
Fixpoint toHex (s : string) : string :=
  match s with
  | EmptyString => EmptyString
  | String c s' =>
      let n := Ascii.nat_of_ascii c in
      String (hexDigit (Nat.div n 16)) (String (hexDigit (Nat.modulo n 16)) (toHex s'))
  end.

(** [parts.join(sep)] *)
Fixpoint join (sep : string) (parts : list string) : string :=
  match parts with
  | [] => ""
  | [p] => p
  | p :: rest => String.append p (String.append sep (join sep rest))
  end.

(** * [src/swap/defi/thorchainDa.ts] *)

Module ThorchainDa.

Definition swapInfo : EdgeSwapInfo :=
  {| pluginId := "thorchainda"; isDex := Some true;
     displayName := "Thorchain DEX Aggregator";
     supportEmail := "support@edge.app" |}.

Inductive Error : Type :=
| SwapCurrencyError (info : EdgeSwapInfo) (fromCurrencyCode toCurrencyCode : string)
| JsError (message : string)    (* new Error(message) *)
| TypeError                     (* raised by the language itself *)
| CleanerError                  (* a cleaner rejected the document *)
| JsonRejected                  (* response.json() rejected *)
| Rejected (reason : string).   (* a promise of the outside world rejected *)

Record EdgeSwapRequestPlugin : Type := {
  fromWallet : EdgeCurrencyWallet;
  toWallet : EdgeCurrencyWallet;
  fromCurrencyCode : string;
  toCurrencyCode : string;
  nativeAmount : string;
  quoteFor : QuoteFor
}.

Record ThorSwapQuoteParams : Type := {
  sellAsset : string;
  buyAsset : string;
  sellAmount : string;
  slippage : string;
  recipientAddress : string;
  senderAddress : string;
  affiliateAddress : string;
  affiliateBasisPoints : string
}.

Record Calldata : Type := {
  tcMemo : option string;
  cdMemo : option string
}.

Record ThorSwapRoute : Type := {
  contract : option string;
  contractMethod : option string;
  contractInfo : option string;
  complete : bool;
  path : string;
  providers : list string;
  calldata : option Json;
  expectedOutput : string;
  expectedOutputMaxSlippage : string;
  expectedOutputUSD : string;
  expectedOutputMaxSlippageUSD : string;
  deadline : option string
}.

Record ThorSwapQuoteResponse : Type := { routes : list ThorSwapRoute }.

(** An entry of [asInboundAddresses]. *)
Record InboundAddress : Type := {
  address : string;
  chain : string;
  halted : bool;
  router : option string
}.

(** [exchangeInfo.swap.plugins.thorchain], the part of [ExchangeInfo] the
    plugin reads. *)
Record ExchangeInfo : Type := {
  daVolatilitySpread : JsNumber.Number;
  thorSwapServers : option (list string);
  thornodeServers : option (list string)
}.

(** An entry of [abiMap]: the router-type tag and the contract
    interface. *)
Record AbiEntry : Type := { abiType : string; abiData : Json }.

(** What [./thorchain], [./abi/abiMap] and the init options provide, and
    [checkInvalidCodes] of [swap-helpers], which answers [true] when it
    throws. *)
Record Config : Type := {
  appId : string;
  affiliateFeeBasis : string;
  thorname : string;
  EVM_CURRENCY_CODES : string -> bool;
  EXCHANGE_INFO_UPDATE_FREQ_MS : Z;
  EXPIRATION_MS : Z;
  getGasLimit : string -> string -> option string;
  INVALID_CURRENCY_CODES : InvalidCurrencyCodes;
  checkInvalidCodes : InvalidCurrencyCodes -> string -> string -> string -> string
                      -> bool;
  MAINNET_CODE_TRANSCRIPTION : list (string * string);
  THORNODE_SERVERS_DEFAULT : list string;
  asInboundAddresses : Cleaner (list InboundAddress);
  asExchangeInfo : Cleaner ExchangeInfo;
  abiMap : list (string * list (string * AbiEntry))
}.

Definition DA_VOLATILITY_SPREAD_DEFAULT : JsNumber.Number :=
  JsNumber.parseFloat (mkDec 3 2).

Definition THORSWAP_DEFAULT_SERVERS : list string :=
  ["https://aggregator-prod-aulilvmdlq-uc.a.run.app"].

Definition tokenProxyMap : list (string * string) :=
  [("ethereum", "0xf892fef9da200d9e84c9b0647ecff0f34633abe8");
   ("avalanche", "0x69ba883af416ff5501d54d5e27a1f497fbd97156")].

Definition calldataOrder : list (string * list string) :=
  [("TC_ROUTER_GENERIC",
    ["tcRouter"; "tcVault"; "tcMemo"; "token"; "amount"; "router"; "data";
     "deadline"]);
   ("TC_ROUTER_UNISWAP",
    ["tcRouter"; "tcVault"; "tcMemo"; "token"; "amount"; "amountOutMin";
     "deadline"]);
   ("TC_ROUTER_PANGOLIN",
    ["tcRouter"; "tcVault"; "tcMemo"; "token"; "amount"; "amountOutMin";
     "deadline"])].

(** *** Cleaners *)

Definition asCalldata : Cleaner Calldata :=
  fun raw =>
    match asFields raw with
    | None => None
    | Some fs =>
        match asOptional asString (field "tcMemo" fs),
              asOptional asString (field "memo" fs) with
        | Some t, Some m => Some {| tcMemo := t; cdMemo := m |}
        | _, _ => None
        end
    end.

(** [asEither(asString, asNull)] *)
Definition asStringOrNull : Cleaner (option string) :=
  fun raw =>
    match asEither asString asNull raw with
    | Some (inl s) => Some (Some s)
    | Some (inr _) => Some None
    | None => None
    end.

Definition asThorSwapRoute : Cleaner ThorSwapRoute :=
  fun raw =>
    match asFields raw with
    | None => None
    | Some fs =>
        match asStringOrNull (field "contract" fs),
              asStringOrNull (field "contractMethod" fs),
              asOptional asString (field "contractInfo" fs),
              asBoolean (field "complete" fs),
              asString (field "path" fs),
              asArray asString (field "providers" fs),
              asUnknown (field "calldata" fs) with
        | Some c, Some cm, Some ci, Some co, Some p, Some ps, Some cd =>
            match asString (field "expectedOutput" fs),
                  asString (field "expectedOutputMaxSlippage" fs),
                  asString (field "expectedOutputUSD" fs),
                  asString (field "expectedOutputMaxSlippageUSD" fs),
                  asOptional asString (field "deadline" fs) with
            | Some eo, Some eos, Some eou, Some eosu, Some dl =>
                Some {| contract := c; contractMethod := cm; contractInfo := ci;
                        complete := co; path := p; providers := ps;
                        calldata := cd; expectedOutput := eo;
                        expectedOutputMaxSlippage := eos;
                        expectedOutputUSD := eou;
                        expectedOutputMaxSlippageUSD := eosu; deadline := dl |}
            | _, _, _, _, _ => None
            end
        | _, _, _, _, _, _, _ => None
        end
    end.

Definition asThorSwapQuoteResponse : Cleaner ThorSwapQuoteResponse :=
  fun raw =>
    match asFields raw with
    | None => None
    | Some fs =>
        match asArray asThorSwapRoute (field "routes" fs) with
        | Some rs => Some {| routes := rs |}
        | None => None
        end
    end.

(** *** Spends and the swap order *)

Record SwapData : Type := {
  sdIsEstimate : bool;
  sdPayoutAddress : string;
  sdPayoutCurrencyCode : string;
  sdPayoutNativeAmount : string;
  sdPayoutWalletId : string;
  sdPlugin : EdgeSwapInfo
}.

Record SpendTarget : Type := {
  stMemo : string;
  stNativeAmount : string;
  stPublicAddress : string
}.

Record Metadata : Type := { mdName : string; mdCategory : string }.

Record EdgeSpendInfo : Type := {
  siCurrencyCode : string;
  siSpendTargets : list SpendTarget;
  siMetadata : option Metadata;
  siSwapData : option SwapData;
  siOutputSort : option string;          (* otherParams.outputSort *)
  siGasLimit : option string             (* customNetworkFee.gasLimit *)
}.

Record SwapOrder : Type := {
  soRequest : EdgeSwapRequestPlugin;
  spendInfo : EdgeSpendInfo;
  soSwapInfo : EdgeSwapInfo;
  fromNativeAmount : string;
  expirationDate : Z;
  preTx : option EdgeTransaction;
  metadataNotes : string
}.

(** *** The outside world *)

Inductive Path : Type :=
| InboundAddressesPath                       (* thorchain/inbound_addresses *)
| TokensQuotePath (p : ThorSwapQuoteParams). (* tokens/quote?... *)

(** The argument of [getEvmTokenData]; [amountToSwapWei] is
    [Number(nativeAmount)], kept as the string the number is made from. *)
Record EvmTokenParams : Type := {
  tpAssetAddress : string;
  tpAmountToSwapWei : string;
  tpContractAddress : string;
  tpVaultAddress : string;
  tpMemo : string
}.

Record EvmApprovalParams : Type := {
  apContractAddress : option string;
  apAssetAddress : string;
  apNativeAmount : string
}.

Inductive LogArg : Type :=
| LogText (s : string)
| LogUri (p : Path)
| LogMessageOf (e : Error).   (* e.message *)

Inductive Event : Type :=
| EvFetchInfo (path : string)
| EvFetchWaterfall (servers : list string) (path : Path)
| EvLogWarn (args : list LogArg)
| EvGetEvmTokenData (p : EvmTokenParams)
| EvGetEvmApprovalData (p : EvmApprovalParams)
| EvPopulateTransaction (contractAddress : string) (abi : Json)
    (method : string) (params : list (option Json))
| EvMakeSpend (w : EdgeCurrencyWallet) (s : EdgeSpendInfo).

(** The network, the wallets, the clock and the helpers of [defiUtils],
    [util/utils] and [ethers].  What talks to the network answers from
    the history of the calls made so far and may reject.  When the two
    fetches of the quote both reject, [inboundRejectsFirst] tells which
    rejection came first. *)
Record World : Type := {
  fetchInfo : list Event -> string -> Result string Response;
  fetchWaterfall : list Event -> list string -> Path -> Result string Response;
  inboundRejectsFirst : list Event -> bool;
  getEvmTokenData : list Event -> EvmTokenParams -> Result string string;
  getEvmApprovalData : list Event -> EvmApprovalParams ->
                       Result string (option string);
  populateTransaction : list Event -> string -> Json -> string ->
                        list (option Json) -> Result string (option string);
  makeSpend : list Event -> EdgeCurrencyWallet -> EdgeSpendInfo ->
              Result string EdgeTransaction;
  now : list Event -> Z;
  getAddress : EdgeCurrencyWallet -> string;
  getTokenId : EdgeCurrencyWallet -> string -> option string;
  nativeToDenomination : EdgeCurrencyWallet -> string -> string -> string;
  denominationToNative : EdgeCurrencyWallet -> string -> string -> string;
  toFixed : string -> nat -> nat -> string;
  stringify : string -> string
}.

(** The trace and the two module-level variables [exchangeInfo] and
    [exchangeInfoLastUpdate]. *)
Record State : Type := {
  trace : list Event;
  exchangeInfo : option ExchangeInfo;
  exchangeInfoLastUpdate : Z
}.

Definition initialState : State :=
  {| trace := []; exchangeInfo := None; exchangeInfoLastUpdate := 0 |}.

Definition IO : Type -> Type := M State Error.

Definition emit (e : Event) (s : State) : State :=
  {| trace := trace s ++ [e]; exchangeInfo := exchangeInfo s;
     exchangeInfoLastUpdate := exchangeInfoLastUpdate s |}.

(** A call to the outside world: it is recorded, and a rejection is
    thrown. *)
Definition call {A} (e : Event) (answer : list Event -> Result string A) : IO A :=
  fun s =>
    match answer (trace s) with
    | Ok a => (Ok a, emit e s)
    | Err why => (Err (Rejected why), emit e s)
    end.

Definition logWarn (args : list LogArg) : IO unit :=
  fun s => (Ok tt, emit (EvLogWarn args) s).

(** [cleaner(await response.json())] *)
Definition readJson {T} (cleaner : Cleaner T) (resp : Response) : IO T :=
  match json resp with
  | None => throw JsonRejected
  | Some doc =>
      match cleaner (Some doc) with
      | Some v => ret v
      | None => throw CleanerError
      end
  end.

Definition setExchangeInfo (info : ExchangeInfo) (at_ : Z) : IO unit :=
  modify (fun s => {| trace := trace s; exchangeInfo := Some info;
                      exchangeInfoLastUpdate := at_ |}).

Local Open Scope io_scope.

(** *** [getCalldataData] *)
Section GetCalldataData.
Variable W : World.
Variable C : Config.

(** [abiMap[currencyPluginId][contractAddress.toLowerCase()]] *)
Definition lookupAbi (currencyPluginId contractAddress : string)
  : option AbiEntry :=
  match assoc currencyPluginId (abiMap C) with
  | Some contracts => assoc (toLowerCase contractAddress) contracts
  | None => None
  end.

(** The [try] block: the destructuring throws when nothing is
    registered, and the tag [INVALID] throws. *)
Definition readAbi (currencyPluginId contractAddress : string)
  : IO (Json * string) :=
  match lookupAbi currencyPluginId contractAddress with
  | None => throw TypeError
  | Some entry =>
      if String.eqb (abiType entry) "INVALID"
      then throw (JsError "Unsupported contract")
      else ret (abiData entry, abiType entry)
  end.

Definition missingAbi (currencyPluginId contractAddress : string) : Error :=
  JsError (String.append "Could not find ABI for contract "
             (String.append currencyPluginId
                (String.append "-" contractAddress))).

Definition getCalldataData (currencyPluginId contractAddress contractMethod : string)
    (calldata : list (string * Json)) : IO string :=
  abi_type <- tryCatch (readAbi currencyPluginId contractAddress)
                (fun e => throw (missingAbi currencyPluginId contractAddress)) ;;
  let (abi, contractType) := abi_type in
  match assoc contractType calldataOrder with
  | None => throw TypeError
  | Some keys =>
      let contractParams := map (fun key => field key calldata) keys in
      tx <- call (EvPopulateTransaction contractAddress abi contractMethod contractParams)
              (fun tr => populateTransaction W tr contractAddress abi
                           contractMethod contractParams) ;;
      match tx with
      | None => throw (JsError "No data in tx object")
      | Some data => ret data
      end
  end.
End GetCalldataData.

(** *** [fetchSwapQuoteInner] *)
Section FetchSwapQuoteInner.
Variable W : World.
Variable C : Config.

Record Tuning : Type := {
  tnDaVolatilitySpread : JsNumber.Number;
  tnThornodeServers : list string;
  tnThorswapServers : list string
}.

(** The three [let]s with their defaults, and their update from
    [exchangeInfo] when there is one. *)
Definition tuningOf (info : option ExchangeInfo) : Tuning :=
  match info with
  | Some thorchain =>
      {| tnDaVolatilitySpread := daVolatilitySpread thorchain;
         tnThornodeServers :=
           match thornodeServers thorchain with
           | Some l => l
           | None => THORNODE_SERVERS_DEFAULT C
           end;
         tnThorswapServers :=
           match thorSwapServers thorchain with
           | Some l => l
           | None => THORSWAP_DEFAULT_SERVERS
           end |}
  | None =>
      {| tnDaVolatilitySpread := DA_VOLATILITY_SPREAD_DEFAULT;
         tnThornodeServers := THORNODE_SERVERS_DEFAULT C;
         tnThorswapServers := THORSWAP_DEFAULT_SERVERS |}
  end.

Definition infoWarning : LogArg :=
  LogText "Error getting info server exchangeInfo. Using defaults...".

Definition infoPath : string := String.append "v1/exchangeInfo/" (appId C).

Definition isStale (now_ : Z) (s : State) : bool :=
  (EXCHANGE_INFO_UPDATE_FREQ_MS C <? now_ - exchangeInfoLastUpdate s)
  || match exchangeInfo s with None => true | Some _ => false end.

(** The refresh of [exchangeInfo]: the [if] around the [try]. *)
Definition refreshExchangeInfo : IO unit :=
  now_ <- gets (fun s => now W (trace s)) ;;
  stale <- gets (isStale now_) ;;
  if stale
  then
    tryCatch
      (exchangeInfoResponse <- call (EvFetchInfo infoPath)
                                 (fun tr => fetchInfo W tr infoPath) ;;
       if ok exchangeInfoResponse
       then
         info <- readJson (asExchangeInfo C) exchangeInfoResponse ;;
         setExchangeInfo info now_
       else logWarn [infoWarning])
      (fun e => logWarn [infoWarning; LogMessageOf e])
  else ret tt.

(** What the refresh leaves behind when the info server cannot be used:
    the fetch and the warning in the trace, the cache as it was. *)
Definition afterFailedRefresh (s : State) (detail : list LogArg) : State :=
  emit (EvLogWarn (infoWarning :: detail)) (emit (EvFetchInfo infoPath) s).

Record Codes : Type := {
  fromMainnetCode : string;
  toMainnetCode : string
}.

Definition currencyError (request : EdgeSwapRequestPlugin) : Error :=
  SwapCurrencyError swapInfo (fromCurrencyCode request) (toCurrencyCode request).

(** The checks made before anything is sent: same asset, refused codes,
    unknown chains. *)
Definition checkRequest (request : EdgeSwapRequestPlugin) : Result Error Codes :=
  if String.eqb (currencyPluginId (fromWallet request))
                (currencyPluginId (toWallet request))
     && String.eqb (fromCurrencyCode request) (toCurrencyCode request)
  then Err (currencyError request)
  else
    if checkInvalidCodes C (INVALID_CURRENCY_CODES C)
         (currencyPluginId (fromWallet request)) (fromCurrencyCode request)
         (currencyPluginId (toWallet request)) (toCurrencyCode request)
    then Err (currencyError request)
    else
      match assoc (currencyPluginId (fromWallet request)) (MAINNET_CODE_TRANSCRIPTION C),
            assoc (currencyPluginId (toWallet request)) (MAINNET_CODE_TRANSCRIPTION C) with
      | Some f, Some t => Ok {| fromMainnetCode := f; toMainnetCode := t |}
      | _, _ => Err (currencyError request)
      end.

Definition tokenId (wallet : EdgeCurrencyWallet) (code : string) : string :=
  match getTokenId W wallet code with Some t => t | None => "" end.

(** [`${mainnet}.${code}` + (tokenId ?? '')], with
    [tokenId = `-0x${getTokenId(wallet, code) ?? ''}`] for a token. *)
Definition assetName (wallet : EdgeCurrencyWallet) (mainnet code : string) : string :=
  String.append mainnet
    (String.append "."
       (String.append code
          (if String.eqb mainnet code then ""
           else String.append "-0x" (tokenId wallet code)))).

(** [fromTokenId?.replace('-0x', '0x')] *)
Definition sourceTokenContractAddressOf (request : EdgeSwapRequestPlugin)
    (codes : Codes) : option string :=
  if String.eqb (fromMainnetCode codes) (fromCurrencyCode request) then None
  else Some (String.append "0x"
               (tokenId (fromWallet request) (fromCurrencyCode request))).

Definition quoteParamsOf (request : EdgeSwapRequestPlugin) (codes : Codes)
    (tuning : Tuning) : ThorSwapQuoteParams :=
  {| sellAsset := assetName (fromWallet request) (fromMainnetCode codes)
                    (fromCurrencyCode request);
     buyAsset := assetName (toWallet request) (toMainnetCode codes)
                   (toCurrencyCode request);
     sellAmount := nativeToDenomination W (fromWallet request)
                     (nativeAmount request) (fromCurrencyCode request);
     slippage := JsNumber.toString
                   (PrimFloat.mul (tnDaVolatilitySpread tuning) 100%float);
     recipientAddress := getAddress W (toWallet request);
     senderAddress := getAddress W (fromWallet request);
     affiliateAddress := thorname C;
     affiliateBasisPoints := affiliateFeeBasis C |}.

(** [Promise.all] of the two waterfall fetches: both are sent; when one
    rejects its rejection is reported, and when both reject, the one that
    came first. *)
Definition fetchBoth (tuning : Tuning) (uri : Path) : IO (Response * Response) :=
  fun s =>
    let e1 := EvFetchWaterfall (tnThornodeServers tuning) InboundAddressesPath in
    let e2 := EvFetchWaterfall (tnThorswapServers tuning) uri in
    let r1 := fetchWaterfall W (trace s) (tnThornodeServers tuning)
                InboundAddressesPath in
    let s1 := emit e1 s in
    let r2 := fetchWaterfall W (trace s1) (tnThorswapServers tuning) uri in
    let s2 := emit e2 s1 in
    match r1, r2 with
    | Ok ia, Ok ts => (Ok (ia, ts), s2)
    | Err why, Ok _ => (Err (Rejected why), s2)
    | Ok _, Err why => (Err (Rejected why), s2)
    | Err why1, Err why2 =>
        (Err (Rejected (if inboundRejectsFirst W (trace s) then why1 else why2)), s2)
    end.

(** What the function holds once both documents are read. *)
Record Answers : Type := {
  anCodes : Codes;
  anInboundAddresses : list InboundAddress;
  anThorSwapQuote : ThorSwapQuoteResponse
}.

(** The quote query, after the request is checked and the tuning
    chosen. *)
Definition queryProvider (request : EdgeSwapRequestPlugin) (codes : Codes)
    (tuning : Tuning) : IO Answers :=
  match quoteFor request with
  | QTo => throw (currencyError request)
  | _ =>
      let uri := TokensQuotePath (quoteParamsOf request codes tuning) in
      logWarn [LogUri uri] ;;;
      responses <- fetchBoth tuning uri ;;
      let (iaResponse, thorSwapResponse) := responses in
      if negb (ok iaResponse)
      then throw (JsError (String.append
                             "Thorchain could not fetch inbound_addresses: "
                             (stringify W (text iaResponse))))
      else
        if negb (ok thorSwapResponse)
        then throw (JsError (String.append
                               "Thorchain could not get thorswap quote: "
                               (stringify W (text thorSwapResponse))))
        else
          inboundAddresses <- readJson (asInboundAddresses C) iaResponse ;;
          thorSwapQuote <- readJson asThorSwapQuoteResponse thorSwapResponse ;;
          ret {| anCodes := codes; anInboundAddresses := inboundAddresses;
                 anThorSwapQuote := thorSwapQuote |}
  end.

(** Everything up to the two cleaned documents (lines 135 to 275). *)
Definition obtainAnswers (request : EdgeSwapRequestPlugin) : IO Answers :=
  codes <- liftR (checkRequest request) ;;
  refreshExchangeInfo ;;;
  info <- gets exchangeInfo ;;
  queryProvider request codes (tuningOf info).

(** [inboundAddresses.find(addrObj => !addrObj.halted &&
    addrObj.chain === fromMainnetCode)] *)
Definition findInbound (l : list InboundAddress) (mainnet : string)
  : option InboundAddress :=
  find (fun addrObj => negb (halted addrObj) && String.eqb (chain addrObj) mainnet) l.

(** [providers[0] === 'THORCHAIN'] *)
Definition tcDirectOf (thorSwap : ThorSwapRoute) : bool :=
  match providers thorSwap with
  | p :: _ => String.eqb p "THORCHAIN"
  | [] => false
  end.

(** [tcDirect ? router : thorSwap.contract] *)
Definition contractAddressOf (inAddressObject : InboundAddress)
    (thorSwap : ThorSwapRoute) : option string :=
  if tcDirectOf thorSwap then router inAddressObject else contract thorSwap.

(** [thorSwap.calldata] seen as the [JsonObject] that [getCalldataData]
    takes; [asCalldata] has accepted it, so it is an object. *)
Definition calldataAnyOf (thorSwap : ThorSwapRoute) : list (string * Json) :=
  match calldata thorSwap with
  | Some (JObj fs) => fs
  | _ => []
  end.

(** What the branch on the source chain (lines 344 to 399) leaves in
    [memo], [ethNativeAmount], [publicAddress] and [approvalData]; the
    approval keeps the token contract address it is sent to. *)
Record Plan : Type := {
  plMemo : string;
  plEthNativeAmount : string;
  plPublicAddress : string;
  plApproval : option (string * string)
}.

Definition planSpend (request : EdgeSwapRequestPlugin) (codes : Codes)
    (inAddressObject : InboundAddress) (thorSwap : ThorSwapRoute)
    (memo : string) : IO Plan :=
  let thorAddress := address inAddressObject in
  let isToken := negb (String.eqb (fromMainnetCode codes) (fromCurrencyCode request)) in
  if EVM_CURRENCY_CODES C (fromMainnetCode codes)
  then
    if isToken
    then
      match contractAddressOf inAddressObject thorSwap with
      | None => throw (JsError (String.append "Missing router address for "
                                  (fromMainnetCode codes)))
      | Some contractAddress =>
          match sourceTokenContractAddressOf request codes with
          | None =>
              throw (JsError (String.append
                                "Missing sourceTokenContractAddress for "
                                (fromMainnetCode codes)))
          | Some sourceTokenContractAddress =>
              memo' <-
                (if tcDirectOf thorSwap
                 then
                   let p := {| tpAssetAddress := sourceTokenContractAddress;
                               tpAmountToSwapWei := nativeAmount request;
                               tpContractAddress := contractAddress;
                               tpVaultAddress := thorAddress;
                               tpMemo := memo |} in
                   call (EvGetEvmTokenData p) (fun tr => getEvmTokenData W tr p)
                 else
                   match contractMethod thorSwap with
                   | None => throw (JsError "Invalid null contractMethod")
                   | Some method =>
                       getCalldataData W C
                         (currencyPluginId (fromWallet request))
                         contractAddress method (calldataAnyOf thorSwap)
                   end) ;;
              let a := {| apContractAddress :=
                            assoc (currencyPluginId (fromWallet request)) tokenProxyMap;
                          apAssetAddress := sourceTokenContractAddress;
                          apNativeAmount := nativeAmount request |} in
              approvalData <- call (EvGetEvmApprovalData a)
                                (fun tr => getEvmApprovalData W tr a) ;;
              ret {| plMemo := memo';
                     plEthNativeAmount := "0";
                     plPublicAddress := contractAddress;
                     plApproval :=
                       option_map (fun d => (d, sourceTokenContractAddress))
                         approvalData |}
          end
      end
    else
      ret {| plMemo := String.append "0x" (toHex memo);
             plEthNativeAmount := nativeAmount request;
             plPublicAddress := thorAddress;
             plApproval := None |}
  else
    (* Cannot yet do tokens on non-EVM chains *)
    if isToken
    then throw (currencyError request)
    else ret {| plMemo := memo;
                plEthNativeAmount := nativeAmount request;
                plPublicAddress := thorAddress;
                plApproval := None |}.

Definition approvalSpend (codes : Codes) (approvalData address_ : string)
  : EdgeSpendInfo :=
  {| siCurrencyCode := fromMainnetCode codes;
     siSpendTargets := [ {| stMemo := approvalData; stNativeAmount := "0";
                            stPublicAddress := address_ |} ];
     siMetadata := Some {| mdName := "Thorchain DEX Aggregator";
                           mdCategory := "expense:Token Approval" |};
     siSwapData := None; siOutputSort := None; siGasLimit := None |}.

Definition swapSpend (request : EdgeSwapRequestPlugin) (codes : Codes)
    (plan : Plan) (toNativeAmount : string) : EdgeSpendInfo :=
  {| siCurrencyCode := fromCurrencyCode request;
     siSpendTargets := [ {| stMemo := plMemo plan;
                            stNativeAmount := plEthNativeAmount plan;
                            stPublicAddress := plPublicAddress plan |} ];
     siMetadata := None;
     siSwapData :=
       Some {| sdIsEstimate := false;
               sdPayoutAddress := getAddress W (toWallet request);
               sdPayoutCurrencyCode := toCurrencyCode request;
               sdPayoutNativeAmount := toNativeAmount;
               sdPayoutWalletId := walletId (toWallet request);
               sdPlugin := swapInfo |};
     siOutputSort := Some "targets";
     siGasLimit :=
       if EVM_CURRENCY_CODES C (fromMainnetCode codes)
          && String.eqb (fromMainnetCode codes) (fromCurrencyCode request)
       then getGasLimit C (fromMainnetCode codes) (fromCurrencyCode request)
       else None |}.

(** The order, once the route has passed the checks (lines 304 to
    469). *)
Definition assembleOrder (request : EdgeSwapRequestPlugin) (codes : Codes)
    (inAddressObject : InboundAddress) (thorSwap : ThorSwapRoute)
    (calldata_ : Calldata) : IO SwapOrder :=
  let toNativeAmount :=
    toFixed W (denominationToNative W (toWallet request)
                 (expectedOutputMaxSlippage thorSwap)
                 (toCurrencyCode request)) 0 0 in
  let memo :=
    match tcMemo calldata_, cdMemo calldata_ with
    | Some m, _ => m
    | None, Some m => m
    | None, None => ""
    end in
  logWarn [LogText memo] ;;;
  plan <- planSpend request codes inAddressObject thorSwap memo ;;
  preTx_ <-
    match plApproval plan with
    | Some (approvalData, address_) =>
        let si := approvalSpend codes approvalData address_ in
        tx <- call (EvMakeSpend (fromWallet request) si)
                (fun tr => makeSpend W tr (fromWallet request) si) ;;
        ret (Some tx)
    | None => ret None
    end ;;
  now_ <- gets (fun s => now W (trace s)) ;;
  ret {| soRequest := request;
         spendInfo := swapSpend request codes plan toNativeAmount;
         soSwapInfo := swapInfo;
         fromNativeAmount := nativeAmount request;
         expirationDate := now_ + EXPIRATION_MS C;
         preTx := preTx_;
         metadataNotes :=
           String.append "DEX Providers: "
             (String.append (join " -> " (providers thorSwap))
                (String.append (String (Ascii.ascii_of_nat 10) "Path: ")
                   (path thorSwap))) |}.

(** From the choice of the inbound address to the returned order
    (lines 277 to 469). *)
Definition buildOrder (request : EdgeSwapRequestPlugin) (answers : Answers)
  : IO SwapOrder :=
  let codes := anCodes answers in
  match findInbound (anInboundAddresses answers) (fromMainnetCode codes) with
  | None => throw (currencyError request)
  | Some inAddressObject =>
      match routes (anThorSwapQuote answers) with
      | [] => throw (currencyError request)
      | thorSwap :: _ =>
          match asCalldata (calldata thorSwap) with
          | None => throw CleanerError
          | Some calldata_ =>
              if Nat.leb (List.length (providers thorSwap)) 1
              then throw (currencyError request)
              else assembleOrder request codes inAddressObject thorSwap calldata_
          end
      end
  end.

Definition fetchSwapQuoteInner (request : EdgeSwapRequestPlugin) : IO SwapOrder :=
  answers <- obtainAnswers request ;;
  buildOrder request answers.

End FetchSwapQuoteInner.

(** *** Fixtures: a configuration and an outside world for examples *)

Definition asInboundAddress : Cleaner InboundAddress :=
  fun raw =>
    match asFields raw with
    | None => None
    | Some fs =>
        match asString (field "address" fs), asString (field "chain" fs),
              asBoolean (field "halted" fs),
              asOptional asString (field "router" fs) with
        | Some a, Some c, Some h, Some r =>
            Some {| address := a; chain := c; halted := h; router := r |}
        | _, _, _, _ => None
        end
    end.

Definition asDemoExchangeInfo : Cleaner ExchangeInfo :=
  fun raw =>
    match asFields raw with
    | None => None
    | Some fs =>
        match asNumber (field "daVolatilitySpread" fs),
              asOptional (asArray asString) (field "thorSwapServers" fs),
              asOptional (asArray asString) (field "thornodeServers" fs) with
        | Some d, Some ts, Some tn =>
            Some {| daVolatilitySpread := d; thorSwapServers := ts;
                    thornodeServers := tn |}
        | _, _, _ => None
        end
    end.

Definition demoConfig : Config :=
  {| appId := "edge"; affiliateFeeBasis := "50"; thorname := "ej";
     EVM_CURRENCY_CODES := fun c => existsb (String.eqb c) ["ETH"; "AVAX"];
     EXCHANGE_INFO_UPDATE_FREQ_MS := 60000;
     EXPIRATION_MS := 60000;
     getGasLimit := fun _ _ => Some "80000";
     INVALID_CURRENCY_CODES := {| icFrom := []; icTo := [] |};
     checkInvalidCodes := refusesListedCodes;
     MAINNET_CODE_TRANSCRIPTION :=
       [("bitcoin", "BTC"); ("ethereum", "ETH"); ("avalanche", "AVAX")];
     THORNODE_SERVERS_DEFAULT := ["https://thornode.example"];
     asInboundAddresses := asArray asInboundAddress;
     asExchangeInfo := asDemoExchangeInfo;
     abiMap :=
       [("ethereum",
         [("0xaggregator", {| abiType := "TC_ROUTER_UNISWAP"; abiData := JArr [] |});
          ("0xretired", {| abiType := "INVALID"; abiData := JArr [] |});
        ("0xsushi", {| abiType := "TC_ROUTER_SUSHI"; abiData := JArr [] |})])] |}.

Definition inboundDoc : Json :=
  JArr [ JObj [("address", JStr "bc1vault"); ("chain", JStr "BTC");
               ("halted", JBool false)];
         JObj [("address", JStr "0xvault"); ("chain", JStr "ETH");
               ("halted", JBool false); ("router", JStr "0xthorrouter")] ].

Definition routeDoc (hops : list string) : Json :=
  JObj [("contract", JStr "0xAggregator"); ("contractMethod", JStr "swapIn");
        ("complete", JBool true); ("path", JStr "ETH.USDT -> ETH.ETH -> BTC.BTC");
        ("providers", JArr (map JStr hops));
        ("calldata",
         JObj [("tcRouter", JStr "0xthorrouter"); ("tcVault", JStr "0xvault");
               ("tcMemo", JStr "=:BTC.BTC:bc1dest"); ("token", JStr "0xtoken");
               ("amount", JStr "1000000"); ("amountOutMin", JStr "1");
               ("deadline", JStr "1700000600")]);
        ("expectedOutput", JStr "0.05"); ("expectedOutputMaxSlippage", JStr "0.049");
        ("expectedOutputUSD", JStr "1000"); ("expectedOutputMaxSlippageUSD", JStr "990")].

(** The same route with call data whose [tcMemo] is no string. *)
Definition malformedCalldataRouteDoc (hops : list string) : Json :=
  JObj [("contract", JStr "0xAggregator"); ("contractMethod", JStr "swapIn");
        ("complete", JBool true); ("path", JStr "ETH.USDT -> ETH.ETH -> BTC.BTC");
        ("providers", JArr (map JStr hops));
        ("calldata", JObj [("tcMemo", JBool true)]);
        ("expectedOutput", JStr "0.05"); ("expectedOutputMaxSlippage", JStr "0.049");
        ("expectedOutputUSD", JStr "1000"); ("expectedOutputMaxSlippageUSD", JStr "990")].

Definition quoteDoc (routeDocs : list Json) : Json :=
  JObj [("routes", JArr routeDocs)].

(** The info server answers [info]; the provider answers with the routes
    [routeDocs]. *)
Definition demoWorld (info : Result string Response) (routeDocs : list Json) : World :=
  {| fetchInfo := fun _ _ => info;
     inboundRejectsFirst := fun _ => true;
     fetchWaterfall := fun _ _ p =>
       match p with
       | InboundAddressesPath =>
           Ok {| ok := true; status := 200; json := Some inboundDoc; text := "" |}
       | TokensQuotePath _ =>
           Ok {| ok := true; status := 200; json := Some (quoteDoc routeDocs);
                 text := "" |}
       end;
     getEvmTokenData := fun _ _ => Ok "0xdeposit";
     getEvmApprovalData := fun _ _ => Ok (Some "0xapprove");
     populateTransaction := fun _ _ _ _ _ => Ok (Some "0xswapin");
     makeSpend := fun _ _ _ => Ok {| txid := "tx" |};
     now := fun _ => 1700000000000;
     getAddress := fun w => String.append "addr-" (walletId w);
     getTokenId := fun _ code =>
       if String.eqb code "USDT" then Some "dac17f958d2ee523a2206206994597c13d831ec7"
       else None;
     nativeToDenomination := fun _ a _ => a;
     denominationToNative := fun _ a _ => a;
     toFixed := fun a _ _ => a;
     stringify := fun t => t |}.

Definition btcWallet : EdgeCurrencyWallet :=
  {| walletId := "w-btc"; currencyPluginId := "bitcoin" |}.
Definition ethWallet : EdgeCurrencyWallet :=
  {| walletId := "w-eth"; currencyPluginId := "ethereum" |}.

(** Sell USDT held on Ethereum for BTC. *)
Definition usdtToBtc (q : QuoteFor) : EdgeSwapRequestPlugin :=
  {| fromWallet := ethWallet; toWallet := btcWallet;
     fromCurrencyCode := "USDT"; toCurrencyCode := "BTC";
     nativeAmount := "1000000"; quoteFor := q |}.

Definition ethToEth : EdgeSwapRequestPlugin :=
  {| fromWallet := ethWallet; toWallet := ethWallet;
     fromCurrencyCode := "ETH"; toCurrencyCode := "ETH";
     nativeAmount := "5"; quoteFor := QFrom |}.

Definition timedOut : Result string Response := Err "timeout".

(** A spend that moves no coin: every target has the native amount ['0']. *)
Definition spendsNothing (e : Event) : bool :=
  match e with
  | EvMakeSpend _ si =>
      forallb (fun t => String.eqb (stNativeAmount t) "0") (siSpendTargets si)
  | _ => true
  end.

(** More fixtures. *)

Definition infoDoc : Json :=
  JObj [("daVolatilitySpread", jsonNumber (mkDec 5 2));
        ("thorSwapServers", JArr [JStr "https://thorswap.example"])].

Definition answered : Result string Response :=
  Ok {| ok := true; status := 200; json := Some infoDoc; text := "" |}.

Definition cachedInfo : ExchangeInfo :=
  {| daVolatilitySpread := JsNumber.parseFloat (mkDec 5 2);
     thorSwapServers := Some ["https://thorswap.example"];
     thornodeServers := None |}.

(** The state of a plugin that has refreshed its info at [at_]. *)
Definition refreshedAt (at_ : Z) : State :=
  {| trace := []; exchangeInfo := Some cachedInfo; exchangeInfoLastUpdate := at_ |}.

Definition haltedInboundDoc : Json :=
  JArr [ JObj [("address", JStr "bc1vault"); ("chain", JStr "BTC");
               ("halted", JBool false)];
         JObj [("address", JStr "0xvault"); ("chain", JStr "ETH");
               ("halted", JBool true); ("router", JStr "0xthorrouter")] ].

(** [W] with another answer to the inbound addresses query. *)
Definition withInbound (doc : Json) (W : World) : World :=
  {| fetchInfo := fetchInfo W;
     inboundRejectsFirst := inboundRejectsFirst W;
     fetchWaterfall := fun tr servers p =>
       match p with
       | InboundAddressesPath =>
           Ok {| ok := true; status := 200; json := Some doc; text := "" |}
       | TokensQuotePath _ => fetchWaterfall W tr servers p
       end;
     getEvmTokenData := getEvmTokenData W;
     getEvmApprovalData := getEvmApprovalData W;
     populateTransaction := populateTransaction W;
     makeSpend := makeSpend W;
     now := now W;
     getAddress := getAddress W;
     getTokenId := getTokenId W;
     nativeToDenomination := nativeToDenomination W;
     denominationToNative := denominationToNative W;
     toFixed := toFixed W;
     stringify := stringify W |}.

Definition dogeWallet : EdgeCurrencyWallet :=
  {| walletId := "w-doge"; currencyPluginId := "dogecoin" |}.

(** Sell DOGE, a chain the configuration does not know, for BTC. *)
Definition dogeToBtc : EdgeSwapRequestPlugin :=
  {| fromWallet := dogeWallet; toWallet := btcWallet;
     fromCurrencyCode := "DOGE"; toCurrencyCode := "BTC";
     nativeAmount := "100"; quoteFor := QFrom |}.

(** Sell a token held on Bitcoin, which is no EVM chain, for ETH. *)
Definition ordiToEth : EdgeSwapRequestPlugin :=
  {| fromWallet := btcWallet; toWallet := ethWallet;
     fromCurrencyCode := "ORDI"; toCurrencyCode := "ETH";
     nativeAmount := "100"; quoteFor := QFrom |}.

(** Sell ETH, the coin of its chain, for BTC. *)
Definition ethToBtc : EdgeSwapRequestPlugin :=
  {| fromWallet := ethWallet; toWallet := btcWallet;
     fromCurrencyCode := "ETH"; toCurrencyCode := "BTC";
     nativeAmount := "5000"; quoteFor := QFrom |}.

(** Every call that [m] adds to the trace satisfies [P], and [m] only
    ever adds to the trace. *)
Definition keeps {A} (P : Event -> Prop) (m : IO A) : Prop :=
  forall s, exists calls, trace (snd (m s)) = trace s ++ calls /\ Forall P calls.

(** A route the provider sent without its list of providers. *)
Definition brokenRouteDoc : Json :=
  JObj [("contract", JNull); ("contractMethod", JNull);
        ("complete", JBool true); ("path", JStr "ETH.ETH -> BTC.BTC");
        ("expectedOutput", JStr "0.05"); ("expectedOutputMaxSlippage", JStr "0.049");
        ("expectedOutputUSD", JStr "1000"); ("expectedOutputMaxSlippageUSD", JStr "990")].

End ThorchainDa.

(** * Properties *)

Unset Implicit Arguments.

(** ** The decimal arithmetic is exact, the division truncates *)

Module BiggystringFacts.

Lemma pow10_pos (n : nat) : 0 < pow10 n.
Proof. unfold pow10. apply Z.pow_pos_nonneg; lia. Qed.

Lemma pow10_add (n m : nat) : pow10 (n + m) = pow10 n * pow10 m.
Proof.
  unfold pow10. rewrite Nat2Z.inj_add, Z.pow_add_r; lia.
Qed.

Lemma den_pow10 (n : nat) : Z.pos (Z.to_pos (pow10 n)) = pow10 n.
Proof. apply Z2Pos.id, pow10_pos. Qed.

(** Unfold a statement on [dval]s into one on mantissas and powers of
    ten. *)
Ltac to_mantissas :=
  unfold Qeq, Qle, Qlt, Qminus, Qplus, Qmult, Qopp, dval, add, sub, mul;
  cbn [Qnum Qden dmant dscale];
  repeat rewrite Pos2Z.inj_mul;
  repeat rewrite den_pow10;
  repeat rewrite pow10_add.

Lemma dval_add (a b : Decimal) : (dval (add a b) == dval a + dval b)%Q.
Proof. to_mantissas. ring. Qed.

Lemma dval_sub (a b : Decimal) : (dval (sub a b) == dval a - dval b)%Q.
Proof. to_mantissas. ring. Qed.

Lemma dval_mul (a b : Decimal) : (dval (mul a b) == dval a * dval b)%Q.
Proof. to_mantissas. ring. Qed.

Lemma gte_false_lt (a b : Decimal) :
  gte a b = false -> dmant a * pow10 (dscale b) < dmant b * pow10 (dscale a).
Proof.
  unfold gte, dcompare.
  destruct (Z.compare_spec (dmant a * pow10 (dscale b)) (dmant b * pow10 (dscale a)));
    intros; try discriminate; assumption.
Qed.

Lemma gte_true_ge (a b : Decimal) :
  gte a b = true -> (dval b <= dval a)%Q.
Proof.
  unfold gte, dcompare.
  destruct (Z.compare_spec (dmant a * pow10 (dscale b)) (dmant b * pow10 (dscale a)));
    intros; try discriminate; to_mantissas; lia.
Qed.

Lemma gt_true_lt (a b : Decimal) :
  gt a b = true -> (dval b < dval a)%Q.
Proof.
  unfold gt, dcompare.
  destruct (Z.compare_spec (dmant a * pow10 (dscale b)) (dmant b * pow10 (dscale a)));
    intros; try discriminate; to_mantissas; lia.
Qed.

(** No decimal string denotes one third. *)
Lemma no_decimal_third (d : Decimal) : ~ (dval d == 1 # 3)%Q.
Proof.
  to_mantissas. rewrite Z.mul_1_l. change (Z.pos 3) with 3. intros H.
  assert (Hm : forall n : nat, pow10 n mod 3 = 1).
  { induction n as [|n IH].
    - reflexivity.
    - replace (S n) with (n + 1)%nat by lia.
      rewrite pow10_add, Z.mul_mod, IH by lia. reflexivity. }
  specialize (Hm (dscale d)).
  assert (H3 : (dmant d * 3) mod 3 = 0) by (apply Z.mod_mul; lia).
  rewrite H in H3. lia.
Qed.

End BiggystringFacts.

(** ** Numbers become strings as JavaScript writes them *)

Module JsNumberFacts.

(** The strings of some doubles: the shortest digits that read back, the
    plain notation from [1e-6] up to [1e21], the exponent outside. *)
Lemma toString_examples :
  JsNumber.toString (JsNumber.parseFloat (mkDec 1 1)) = "0.1"
  /\ JsNumber.toString (JsNumber.parseFloat (mkDec 30000000000000001 16)) = "3"
  /\ JsNumber.toString (JsNumber.parseFloat (mkDec 123456 2)) = "1234.56"
  /\ JsNumber.toString (JsNumber.parseFloat (mkDec (-15) 1)) = "-1.5"
  /\ JsNumber.toString
       (PrimFloat.add (JsNumber.parseFloat (mkDec 1 1)) (JsNumber.parseFloat (mkDec 2 1)))
     = "0.30000000000000004"
  /\ JsNumber.toString (JsNumber.parseFloat (mkDec 1 6)) = "0.000001"
  /\ JsNumber.toString (JsNumber.parseFloat (mkDec 1 7)) = "1e-7"
  /\ JsNumber.toString (JsNumber.parseFloat (mkDec 15 8)) = "1.5e-7"
  /\ JsNumber.toString (JsNumber.parseFloat (ofZ (10 ^ 20))) = "100000000000000000000"
  /\ JsNumber.toString (JsNumber.parseFloat (ofZ (10 ^ 21))) = "1e+21"
  /\ JsNumber.toString (JsNumber.parseFloat (ofZ 9007199254740993))
     = "9007199254740992"
  /\ JsNumber.toString (JsNumber.parseFloat (ofZ 0)) = "0".
Proof. repeat split; vm_compute; reflexivity. Qed.

(** What [biggystring] reads: the plain notation, not the exponent. *)
Lemma ofString_examples :
  ofString "1234.56" = Some (mkDec 123456 2)
  /\ ofString "-1.5" = Some (mkDec (-15) 1)
  /\ ofString "0" = Some (ofZ 0)
  /\ ofString "1e-7" = None
  /\ ofString "1e+21" = None
  /\ ofString "Infinity" = None
  /\ ofString "" = None.
Proof. repeat split; vm_compute; reflexivity. Qed.

End JsNumberFacts.

(** ** Swapuz *)

Module SwapuzFacts.
Import Swapuz BiggystringFacts.

Section Solver.
Variable W : World.

Lemma liftInner_attempts {A} (m : IO A) (s : SolverState) :
  attempts (snd (liftInner m s)) = attempts s.
Proof. unfold liftInner. destruct (m (trace s)); reflexivity. Qed.

(** One turn of the loop: the attempt is noted, the inner quote is
    asked for, and the loop returns, throws or goes on. *)
Lemma whileRetries_turn (req : EdgeSwapRequest) (target : Decimal)
    (n : nat) (cand : Decimal) (s : SolverState) :
  whileRetries W req target (S (S n)) cand s =
  match fetchSwapQuoteInner W (setNativeAmount req cand) (trace s) with
  | (Err e, tr) => (Err e, {| trace := tr; attempts := attempts s ++ [cand] |})
  | (Ok quote, tr) =>
      let s1 := {| trace := tr; attempts := attempts s ++ [cand] |} in
      let realized :=
        nativeToDenomination W (toWallet req) (toNativeAmount quote)
          (toCurrencyCode req) in
      if gte realized target then (Ok quote, s1)
      else match increasedAmount target realized cand with
           | Some a => whileRetries W req target (S n) a s1
           | None => (Err DivisionByZero, s1)
           end
  end.
Proof.
  cbn [whileRetries]. unfold bind at 1. unfold noteAttempt, modify.
  unfold bind at 1. unfold liftInner. cbn [trace attempts].
  destruct (fetchSwapQuoteInner W (setNativeAmount req cand) (trace s))
    as [[quote|e] tr]; [|reflexivity].
  cbn zeta.
  destruct (gte _ target); [reflexivity|].
  destruct (increasedAmount _ _ _); reflexivity.
Qed.

(** The loop started with [retries] calls the inner quote at most
    [retries - 1] times. *)
Lemma whileRetries_attempts (req : EdgeSwapRequest) (target : Decimal)
    (retries : nat) :
  forall cand s,
    (List.length (attempts (snd (whileRetries W req target retries cand s)))
     <= List.length (attempts s) + (retries - 1))%nat.
Proof.
  induction retries as [|retries IH]; intros cand s.
  - cbn. lia.
  - destruct retries as [|n].
    + cbn. lia.
    + rewrite whileRetries_turn. cbn zeta.
      destruct (fetchSwapQuoteInner W (setNativeAmount req cand) (trace s))
        as [[quote|e] tr]; cbn [attempts snd].
      * destruct (gte _ target); cbn [snd attempts].
        -- rewrite length_app. cbn. lia.
        -- destruct (increasedAmount _ _ _) as [a|]; cbn [snd attempts].
           ++ etransitivity; [apply IH|]. cbn [attempts].
              rewrite length_app. cbn. lia.
           ++ rewrite length_app. cbn. lia.
      * rewrite length_app. cbn. lia.
Qed.

Lemma fetchSwapQuote_attempts (req : EdgeSwapRequest) (s : SolverState) :
  (List.length (attempts (snd (fetchSwapQuote W req s)))
   <= List.length (attempts s) + 4)%nat.
Proof.
  unfold fetchSwapQuote.
  destruct (quoteFor req).
  - rewrite liftInner_attempts. lia.
  - apply (whileRetries_attempts _ _ 5).
  - apply (whileRetries_attempts _ _ 5).
Qed.
End Solver.

(** When the realized output never reaches the target, the loop started
    with [retries] asks for exactly [retries - 1] quotes and then throws
    the error naming the pair. *)
Lemma whileRetries_gives_up (W : World) (req : EdgeSwapRequest) (target : Decimal)
    (retries : nat) :
  forall cand s,
    neverReaches W req target retries cand s ->
    fst (whileRetries W req target retries cand s)
    = Err (SwapCurrencyError swapInfo (fromCurrencyCode req) (toCurrencyCode req))
    /\ List.length (attempts (snd (whileRetries W req target retries cand s)))
       = (List.length (attempts s) + (retries - 1))%nat.
Proof.
  induction retries as [|retries IH]; intros cand s Hshort.
  - cbn. split; [reflexivity | lia].
  - destruct retries as [|n].
    + cbn. split; [reflexivity | lia].
    + rewrite whileRetries_turn. cbn zeta.
      cbn [neverReaches] in Hshort.
      destruct (fetchSwapQuoteInner W (setNativeAmount req cand) (trace s))
        as [[quote|e] tr]; [|contradiction].
      destruct Hshort as [Hgte Hnext]. rewrite Hgte.
      destruct (increasedAmount _ _ _) as [a|]; [|contradiction].
      destruct (IH _ _ Hnext) as [Herr Hlen].
      split; [exact Herr|].
      rewrite Hlen. cbn [attempts]. rewrite length_app. cbn. lia.
Qed.

(** C1, as the code has it: whatever the provider answers, the
    amount-convergence loop of [fetchSwapQuote] asks for at most four
    quotes, never for a fifth; when the realized output never reaches the
    target it asks for exactly four quotes and then throws the
    [SwapCurrencyError] naming the pair; so it does against a provider
    whose realized output is always 0 (target 1000), where the network sees
    four fixed-rate queries. *)
Theorem fetchSwapQuote_stops_after_four_attempts :
  (forall (W : World) (req : EdgeSwapRequest) (s : SolverState),
      (List.length (attempts (snd (fetchSwapQuote W req s)))
       <= List.length (attempts s) + 4)%nat)
  /\ (forall (W : World) (req : EdgeSwapRequest) (s : SolverState),
        quoteFor req <> QFrom ->
        neverReaches W (setQuoteFor req QFrom)
          (nativeToDenomination W (fromWallet req) (nativeAmount req)
             (fromCurrencyCode req))
          5 (nativeAmount req) s ->
        fst (fetchSwapQuote W req s)
        = Err (SwapCurrencyError swapInfo (fromCurrencyCode req) (toCurrencyCode req))
        /\ List.length (attempts (snd (fetchSwapQuote W req s)))
           = (List.length (attempts s) + 4)%nat)
  /\ let run := fetchSwapQuote (stubWorld (ofZ 0)) (reverseRequest 1000) start in
     fst run = Err (SwapCurrencyError swapInfo "BTC" "ETH")
     /\ List.length (attempts (snd run)) = 4%nat
     /\ List.length (filter isFixRateQuery (trace (snd run))) = 4%nat.
Proof.
  split; [exact fetchSwapQuote_attempts|]. split.
  - intros W req s Hfor Hshort. unfold fetchSwapQuote.
    destruct (quoteFor req); [contradiction| |];
      exact (whileRetries_gives_up W _ _ 5 _ _ Hshort).
  - repeat split; vm_compute; reflexivity.
Qed.

(** The provider whose realized output is always 0 never reaches the
    target 1000. *)
Example zero_payout_never_reaches :
  neverReaches (stubWorld (ofZ 0)) (setQuoteFor (reverseRequest 1000) QFrom)
    (ofZ 1000) 5 (ofZ 1000) start.
Proof. vm_compute. repeat split. Qed.

(** [div18] of a non-negative dividend by a positive divisor is the
    quotient cut after the eighteenth place. *)
Lemma div18_truncates (a b : Decimal) :
  0 <= dmant a -> 0 < dmant b ->
  exists q,
    div18 a b = Some q
    /\ (dval q * dval b <= dval a)%Q
    /\ (dval a < (dval q + dval ulp18) * dval b)%Q.
Proof.
  intros Ha Hb. unfold div18, div.
  destruct (Z.eqb_spec (dmant b) 0) as [E|_]; [lia|].
  eexists; split; [reflexivity|].
  set (N := dmant a * pow10 (dscale b) * pow10 18).
  set (D := dmant b * pow10 (dscale a)).
  pose proof (pow10_pos (dscale a)) as Pa.
  pose proof (pow10_pos (dscale b)) as Pb.
  pose proof (pow10_pos 18) as P18.
  assert (HD : 0 < D) by (unfold D; nia).
  assert (HN : 0 <= N) by (unfold N; nia).
  rewrite Z.quot_div_nonneg by lia.
  pose proof (Z.mul_div_le N D HD) as Hlo.
  pose proof (Z.mul_succ_div_gt N D HD) as Hhi.
  set (q := N / D) in *.
  unfold ulp18.
  split; to_mantissas; unfold N, D in *; nia.
Qed.



(** Whatever decimal string the division gives for the shortfall of 2
    against 3, the next amount is not three times [1.001 + 1/3]. *)
Lemma no_decimal_shortfall_gives_the_exact_product (shortfall : Decimal) :
  ~ (dval (mul (add (mkDec 1001 3) shortfall) three)
     == specIncreasedAmount three two three)%Q.
Proof.
  intros H. apply (no_decimal_third shortfall).
  rewrite dval_mul, dval_add in H. unfold specIncreasedAmount in H.
  change (dval three) with (3 # 1)%Q in H.
  change (dval two) with (2 # 1)%Q in H.
  change (dval (mkDec 1001 3)) with (1001 # 1000)%Q in H.
  assert (E : (((3 # 1) - (2 # 1)) / (3 # 1) == 1 # 3)%Q) by reflexivity.
  rewrite E in H. lra.
Qed.


Section Modes.
Variable W : World.
Variable request : EdgeSwapRequest.
Variables fromAddress toAddress : string.
Variable codes : Codes.
Variable largeDenomAmount : Decimal.

Local Abbreviation getQuote' := (getQuote W request fromAddress toAddress codes largeDenomAmount).
Local Abbreviation createOrder' := (createOrder W request fromAddress toAddress codes largeDenomAmount).
Local Abbreviation rateRequest' := (rateRequest codes largeDenomAmount).

(** The attempt stops here: [calls] are all the calls it has made, and
    [H] gives the mode of the one call there is. *)
Ltac stops_after calls H :=
  exists calls; split; [reflexivity | repeat constructor; exact H].

Lemma mode_of_isFloat (mode : Mode) :
  (if isFloat mode then ModeFloat else ModeFix) = mode.
Proof. destruct mode; reflexivity. Qed.

Lemma readJson_trace {T} (cleaner : Cleaner T) (resp : Response) (tr : list Event) :
  snd (readJson cleaner resp tr) = tr.
Proof.
  unfold readJson.
  destruct (json resp); [destruct (cleaner _)|]; reflexivity.
Qed.

(** The calls of [createOrder]: the order, then at most the spend, both
    in the mode asked for. *)
Lemma createOrder_calls (mode : Mode) (tr : list Event) :
  exists calls,
    snd (createOrder' mode tr) = tr ++ calls
    /\ Forall (fun e => eventMode e = mode) calls.
Proof.
  unfold createOrder, bind, doFetch.
  set (post := PostOrder _).
  assert (Hpost : eventMode (EvFetch post) = mode) by reflexivity.
  destruct (fetch W tr post) as [resp|why];
    [|stops_after [EvFetch post] Hpost].
  destruct (ok resp); cbn [negb];
    [|stops_after [EvFetch post] Hpost].
  pose proof (readJson_trace (asApiResponse (asCreateOrder W)) resp (tr ++ [EvFetch post])) as Hj.
  destruct (readJson _ resp _) as [[doc|e] tr1]; cbn [snd] in Hj; subst tr1;
    [|stops_after [EvFetch post] Hpost].
  destruct (result doc) as [order|];
    [|stops_after [EvFetch post] Hpost].
  unfold doMakeSpend.
  set (si := spendInfoOf _ _ _ _ _ _ _).
  assert (Hsi : eventMode (EvMakeSpend (fromWallet request) si) = mode)
    by (cbn; apply mode_of_isFloat).
  exists [EvFetch post; EvMakeSpend (fromWallet request) si].
  split.
  - destruct (makeSpend W _ _ si); cbn [snd ret]; rewrite <- app_assoc; reflexivity.
  - repeat constructor; assumption.
Qed.

(** The calls of [getQuote]: the rate query first, all in the mode asked
    for. *)
Lemma getQuote_calls (mode : Mode) (tr : list Event) :
  exists calls,
    snd (getQuote' mode tr) = tr ++ EvFetch (rateRequest' mode) :: calls
    /\ Forall (fun e => eventMode e = mode) (EvFetch (rateRequest' mode) :: calls).
Proof.
  unfold getQuote, bind, doFetch.
  set (rate := rateRequest' mode).
  assert (Hrate : eventMode (EvFetch rate) = mode) by reflexivity.
  destruct (fetch W tr rate) as [resp|why];
    [|stops_after (@nil Event) Hrate].
  destruct (ok resp); cbn [negb];
    [|stops_after (@nil Event) Hrate].
  pose proof (readJson_trace (asApiResponse asGetRate) resp (tr ++ [EvFetch rate])) as Hj.
  destruct (readJson _ resp _) as [[doc|e] tr1]; cbn [snd] in Hj; subst tr1;
    [|stops_after (@nil Event) Hrate].
  destruct (result doc) as [r|];
    [|stops_after (@nil Event) Hrate].
  destruct (gtString W _ largeDenomAmount);
    [stops_after (@nil Event) Hrate|].
  destruct (createOrder_calls mode (tr ++ [EvFetch rate])) as [calls [Hc Hm]].
  exists calls. split.
  - rewrite Hc, <- app_assoc. reflexivity.
  - constructor; assumption.
Qed.
End Modes.

(** C3: a request that reaches the provider is first quoted in the mode
    [fix]: the first call is the fixed-rate query and every call of that
    attempt is in the mode [fix].  When the attempt succeeds its quote is
    the answer and no call in the mode [float] is made.  When it fails, the
    mode [float] is tried; its quote is the answer if it succeeds, and if it
    fails too the error thrown is the one of the fixed-rate attempt. *)
Theorem fetchSwapQuoteInner_fix_then_float
    (W : World) (request : EdgeSwapRequest) (tr : list Event) :
  quoteFor request <> QTo ->
  checkInvalidCodes W INVALID_CURRENCY_CODES
    (currencyPluginId (fromWallet request)) (fromCurrencyCode request)
    (currencyPluginId (toWallet request)) (toCurrencyCode request) = false ->
  let fromAddress := getAddress W (fromWallet request) (fromCurrencyCode request) in
  let toAddress := getAddress W (toWallet request) (toCurrencyCode request) in
  let codes := getCodesWithMainnetTranscription W request MAINNET_CODE_TRANSCRIPTION in
  let amount_ :=
    nativeToDenomination W (fromWallet request) (nativeAmount request)
      (cFromCurrencyCode codes) in
  let attempt := getQuote W request fromAddress toAddress codes amount_ in
  exists fixCalls,
    snd (attempt ModeFix tr) = tr ++ EvFetch (rateRequest codes amount_ ModeFix) :: fixCalls
    /\ Forall (fun e => eventMode e = ModeFix) fixCalls
    /\ match fst (attempt ModeFix tr) with
       | Ok quote =>
           fetchSwapQuoteInner W request tr = (Ok quote, snd (attempt ModeFix tr))
       | Err fixError =>
           exists floatCalls,
             let tr1 := snd (attempt ModeFix tr) in
             snd (attempt ModeFloat tr1) = tr1 ++ floatCalls
             /\ Forall (fun e => eventMode e = ModeFloat) floatCalls
             /\ fetchSwapQuoteInner W request tr
                = (match fst (attempt ModeFloat tr1) with
                   | Ok quote => Ok quote
                   | Err _ => Err fixError
                   end, tr1 ++ floatCalls)
       end.
Proof.
  intros Hto Hcodes fromAddress toAddress codes amount_ attempt.
  destruct (getQuote_calls W request fromAddress toAddress codes amount_ ModeFix tr)
    as [fixCalls [Hfix Hmode]].
  exists fixCalls. split; [exact Hfix|]. split; [inversion Hmode; assumption|].
  assert (Hinner : fetchSwapQuoteInner W request tr
                   = tryThemAll W request fromAddress toAddress codes amount_ tr).
  { unfold fetchSwapQuoteInner. rewrite Hcodes.
    destruct (quoteFor request); try reflexivity. contradiction. }
  rewrite Hinner. unfold tryThemAll, tryCatch. fold attempt.
  destruct (attempt ModeFix tr) as [[quote|fixError] tr1] eqn:E1; cbn [fst snd].
  - reflexivity.
  - destruct (getQuote_calls W request fromAddress toAddress codes amount_ ModeFloat tr1)
      as [floatCalls [Hfloat Hmode']].
    exists (EvFetch (rateRequest codes amount_ ModeFloat) :: floatCalls).
    fold attempt in Hfloat.
    split; [exact Hfloat|]. split; [exact Hmode'|].
    destruct (attempt ModeFloat tr1) as [[quote|floatError] tr2];
      cbn [fst snd] in *; subst tr2; reflexivity.
Qed.

Lemma fetchSwapQuoteInner_fix_then_float_witness :
  exists fixCalls,
    snd (getQuote (stubWorld two) (setQuoteFor (reverseRequest 3) QFrom)
           "addr-w-btc" "addr-w-eth"
           {| cFromCurrencyCode := "BTC"; cToCurrencyCode := "ETH";
              cFromMainnetCode := "BTC"; cToMainnetCode := "ETH" |}
           three ModeFix [])
    = [] ++ EvFetch (GetRate ModeFix three "BTC" "ETH" "BTC" "ETH") :: fixCalls
    /\ Forall (fun e => eventMode e = ModeFix) fixCalls.
Proof.
  destruct (fetchSwapQuoteInner_fix_then_float (stubWorld two)
              (setQuoteFor (reverseRequest 3) QFrom) []
              ltac:(discriminate) eq_refl)
    as [fixCalls [Hcalls [Hmode _]]].
  exists fixCalls. split; [exact Hcalls | exact Hmode].
Defined.

(** C7, amended: when the rate response of an attempt is a success whose
    document gives a minimum that [toString()] writes as a decimal string
    strictly greater than the requested amount, that attempt throws the
    below-limit error carrying the minimum converted to native units of
    the source wallet, and the only call it has made is the rate query:
    the order is never posted in that attempt.  The quote does not end there when the
    attempt is the fixed-rate one: the floating-rate attempt follows, its
    quote is the answer if it succeeds, and the below-limit error is
    thrown only if it fails too. *)
Theorem getQuote_below_minimum
    (W : World) (request : EdgeSwapRequest) (fromAddress toAddress : string)
    (codes : Codes) (largeDenomAmount : Decimal) (mode : Mode)
    (tr : list Event) (resp : Response) (doc : Json)
    (answer : ApiResponse GetRate_t) (rate : GetRate_t) (minimum : Decimal) :
  fetch W tr (rateRequest codes largeDenomAmount mode) = Ok resp ->
  ok resp = true ->
  json resp = Some doc ->
  asApiResponse asGetRate (Some doc) = Some answer ->
  result answer = Some rate ->
  ofString (JsNumber.toString (minAmount rate)) = Some minimum ->
  gt minimum largeDenomAmount = true ->
  let attempt := getQuote W request fromAddress toAddress codes largeDenomAmount in
  let belowLimit :=
    SwapBelowLimitError swapInfo
      (denominationToNative W (fromWallet request)
         (JsNumber.toString (minAmount rate)) (cFromCurrencyCode codes)) in
  let tr1 := tr ++ [EvFetch (rateRequest codes largeDenomAmount mode)] in
  attempt mode tr = (Err belowLimit, tr1)
  /\ (mode = ModeFix ->
      tryThemAll W request fromAddress toAddress codes largeDenomAmount tr
      = (match fst (attempt ModeFloat tr1) with
         | Ok quote => Ok quote
         | Err _ => Err belowLimit
         end, snd (attempt ModeFloat tr1))).
Proof.
  intros Hfetch Hok Hjson Hclean Hresult Hread Hgt attempt belowLimit tr1.
  assert (Hattempt : attempt mode tr = (Err belowLimit, tr1)).
  { unfold attempt, getQuote, bind, doFetch. rewrite Hfetch, Hok. cbn [negb].
    unfold readJson. rewrite Hjson, Hclean. cbn [ret].
    rewrite Hresult. cbv zeta. unfold gtString. rewrite Hread, Hgt. reflexivity. }
  split; [exact Hattempt|].
  intros ->. unfold tryThemAll, tryCatch. fold attempt. rewrite Hattempt.
  destruct (attempt ModeFloat tr1) as [[quote|floatError] tr2]; reflexivity.
Qed.

Lemma getQuote_below_minimum_witness :
  getQuote (stubWorldWith (ofZ 5) two) (setQuoteFor (reverseRequest 3) QFrom)
    "addr-w-btc" "addr-w-eth" btcToEth three ModeFix []
  = (Err (SwapBelowLimitError swapInfo (ofZ 5)),
     [EvFetch (GetRate ModeFix three "BTC" "ETH" "BTC" "ETH")]).
Proof.
  exact (proj1
           (getQuote_below_minimum (stubWorldWith (ofZ 5) two)
              (setQuoteFor (reverseRequest 3) QFrom) "addr-w-btc" "addr-w-eth"
              btcToEth three ModeFix []
              {| ok := true; status := 200; json := Some (stubRate (ofZ 5));
                 text := "" |}
              (stubRate (ofZ 5))
              {| result := Some {| minAmount := JsNumber.parseFloat (ofZ 5) |};
                 apiStatus := JsNumber.parseFloat (ofZ 200) |}
              {| minAmount := JsNumber.parseFloat (ofZ 5) |} (ofZ 5)
              eq_refl eq_refl eq_refl eq_refl eq_refl
              ltac:(vm_compute; reflexivity) eq_refl)).
Defined.

(** C7, as stated, fails: the fixed-rate offer has the minimum 5000, above
    the 1000 asked for, and yet the quote does not fail: the floating-rate
    attempt posts its order and its quote is returned. *)
Lemma below_minimum_quote_can_still_succeed :
  exists quote calls body,
    getQuote (fixMinimumWorld (ofZ 5000) (ofZ 10)) (forwardRequest 1000)
      "addr-w-btc" "addr-w-eth" btcToEth (ofZ 1000) ModeFix []
    = (Err (SwapBelowLimitError swapInfo (ofZ 5000)),
       [EvFetch (rateRequest btcToEth (ofZ 1000) ModeFix)])
    /\ fetchSwapQuoteInner (fixMinimumWorld (ofZ 5000) (ofZ 10))
         (forwardRequest 1000) []
       = (Ok quote, calls)
    /\ In (EvFetch (PostOrder body)) calls.
Proof.
  eexists. eexists. eexists.
  split; [vm_compute; reflexivity|].
  split; [vm_compute; reflexivity|].
  right. right. left. reflexivity.
Qed.

(** The minimum is compared as the double it is: a document that writes
    the minimum 3.0000000000000001 holds the double 3, which is not above
    a requested amount of 3, and the order is posted. *)
Lemma minimum_is_compared_as_a_double :
  exists quote body si,
    getQuote (stubWorldWith (mkDec 30000000000000001 16) two)
      (forwardRequest 3) "addr-w-btc" "addr-w-eth" btcToEth three ModeFix []
    = (Ok quote,
       [EvFetch (rateRequest btcToEth three ModeFix); EvFetch (PostOrder body);
        EvMakeSpend btcWallet si]).
Proof. eexists. eexists. eexists. vm_compute. reflexivity. Qed.

(** An example: against a provider that pays out 0.98 times the input (in
    doubles), a request for 1000 converges at the second attempt: the
    first asks for 1000 and gets 980, the second asks for 1021 and gets
    1000.5799999999999. *)
Theorem solver_converges_at_the_second_attempt :
  exists quote s1,
    fetchSwapQuote (rateWorld (mkDec 98 2)) (reverseRequest 1000) start = (Ok quote, s1)
    /\ toNativeAmount quote = mkDec 10005799999999999 13
    /\ (dval (fromNativeAmount quote) == 1021 # 1)%Q
    /\ List.length (attempts s1) = 2%nat.
Proof.
  eexists. eexists. split; [vm_compute; reflexivity|].
  repeat split; vm_compute; reflexivity.
Qed.

End SwapuzFacts.

(** ** Thorchain DEX aggregator *)

Module ThorchainDaFacts.
Import ThorchainDa.

Section Inner.
Variable W : World.
Variable C : Config.

(** Every refusal of [checkRequest] is the [SwapCurrencyError] of the
    request. *)
Lemma checkRequest_error (request : EdgeSwapRequestPlugin) (e : Error) :
  checkRequest C request = Err e -> e = currencyError request.
Proof.
  unfold checkRequest.
  destruct (_ && _); [intros H; injection H as <-; reflexivity|].
  destruct (checkInvalidCodes _ _ _ _ _); [intros H; injection H as <-; reflexivity|].
  destruct (assoc _ _); [destruct (assoc _ _)|];
    intros H; try discriminate; injection H as <-; reflexivity.
Qed.

(** The refresh never throws: it ends in one of four ways. *)
Lemma refreshExchangeInfo_cases (s : State) :
  let now_ := now W (trace s) in
  refreshExchangeInfo W C s =
  if isStale C now_ s
  then
    match fetchInfo W (trace s) (infoPath C) with
    | Err why => (Ok tt, afterFailedRefresh C s [LogMessageOf (Rejected why)])
    | Ok resp =>
        if ok resp
        then
          match json resp with
          | None => (Ok tt, afterFailedRefresh C s [LogMessageOf JsonRejected])
          | Some doc =>
              match asExchangeInfo C (Some doc) with
              | None => (Ok tt, afterFailedRefresh C s [LogMessageOf CleanerError])
              | Some info =>
                  (Ok tt, {| trace := trace s ++ [EvFetchInfo (infoPath C)];
                             exchangeInfo := Some info;
                             exchangeInfoLastUpdate := now_ |})
              end
          end
        else (Ok tt, afterFailedRefresh C s [])
    end
  else (Ok tt, s).
Proof.
  cbv zeta. unfold refreshExchangeInfo, bind, gets.
  destruct (isStale C _ s); [|reflexivity].
  unfold tryCatch, call, bind.
  destruct (fetchInfo W (trace s) (infoPath C)) as [resp|why]; [|reflexivity].
  destruct (ok resp); [|reflexivity].
  unfold readJson.
  destruct (json resp) as [doc|]; [|reflexivity].
  destruct (asExchangeInfo C (Some doc)); reflexivity.
Qed.

Lemma refreshExchangeInfo_total (s : State) :
  exists s1, refreshExchangeInfo W C s = (Ok tt, s1).
Proof.
  rewrite refreshExchangeInfo_cases. cbv zeta.
  destruct (isStale C _ s); [|eauto].
  destruct (fetchInfo W _ _) as [resp|why]; [|eauto].
  destruct (ok resp); [|eauto].
  destruct (json resp); [|eauto].
  destruct (asExchangeInfo C _); eauto.
Qed.

(** The whole function, read in three steps. *)
Lemma fetchSwapQuoteInner_steps (request : EdgeSwapRequestPlugin) (s : State) :
  fetchSwapQuoteInner W C request s =
  match checkRequest C request with
  | Err e => (Err e, s)
  | Ok codes =>
      match refreshExchangeInfo W C s with
      | (Err e, s1) => (Err e, s1)
      | (Ok _, s1) =>
          bind (queryProvider W C request codes (tuningOf C (exchangeInfo s1)))
               (buildOrder W C request) s1
      end
  end.
Proof.
  unfold fetchSwapQuoteInner, obtainAnswers, liftR.
  unfold bind at 1 2. 
  destruct (checkRequest C request) as [codes|e]; [|reflexivity].
  unfold bind at 1 2.
  destruct (refreshExchangeInfo W C s) as [[[]|e] s1]; [|reflexivity].
  unfold bind, gets. reflexivity.
Qed.
End Inner.

(** C5: a request between two wallets of the same chain for the same
    currency code is refused with the [SwapCurrencyError] of the pair,
    whatever the amount, and the state is left as it was: nothing has been
    sent, logged or spent. *)
Theorem same_asset_is_refused_before_any_call
    (W : World) (C : Config) (request : EdgeSwapRequestPlugin) (s : State) :
  currencyPluginId (fromWallet request) = currencyPluginId (toWallet request) ->
  fromCurrencyCode request = toCurrencyCode request ->
  fetchSwapQuoteInner W C request s
  = (Err (SwapCurrencyError swapInfo (fromCurrencyCode request)
            (toCurrencyCode request)), s).
Proof.
  intros Hchain Hcode.
  rewrite fetchSwapQuoteInner_steps.
  assert (Hcheck : checkRequest C request = Err (currencyError request)).
  { unfold checkRequest.
    rewrite (proj2 (String.eqb_eq _ _) Hchain), (proj2 (String.eqb_eq _ _) Hcode).
    reflexivity. }
  rewrite Hcheck. reflexivity.
Qed.

Lemma same_asset_is_refused_before_any_call_witness :
  fetchSwapQuoteInner (demoWorld timedOut [routeDoc ["UNISWAPV2"; "THORCHAIN"]])
    demoConfig ethToEth initialState
  = (Err (SwapCurrencyError swapInfo "ETH" "ETH"), initialState).
Proof.
  exact (same_asset_is_refused_before_any_call
           (demoWorld timedOut [routeDoc ["UNISWAPV2"; "THORCHAIN"]])
           demoConfig ethToEth initialState eq_refl eq_refl).
Defined.

(** C10: a request with [quoteFor = 'to'] always ends in the
    [SwapCurrencyError] of its pair; no swap order comes out of it. *)
Theorem reverse_quote_is_refused
    (W : World) (C : Config) (request : EdgeSwapRequestPlugin) (s : State) :
  quoteFor request = QTo ->
  exists s1,
    fetchSwapQuoteInner W C request s
    = (Err (SwapCurrencyError swapInfo (fromCurrencyCode request)
              (toCurrencyCode request)), s1).
Proof.
  intros Hto. rewrite fetchSwapQuoteInner_steps.
  destruct (checkRequest C request) as [codes|e] eqn:Hcheck.
  - destruct (refreshExchangeInfo_total W C s) as [s1 Hrefresh].
    rewrite Hrefresh. exists s1.
    unfold bind, queryProvider. rewrite Hto. reflexivity.
  - apply checkRequest_error in Hcheck. subst e. exists s. reflexivity.
Qed.

Lemma reverse_quote_is_refused_witness :
  exists s1,
    fetchSwapQuoteInner (demoWorld timedOut [routeDoc ["UNISWAPV2"; "THORCHAIN"]])
      demoConfig (usdtToBtc QTo) initialState
    = (Err (SwapCurrencyError swapInfo "USDT" "BTC"), s1).
Proof.
  exact (reverse_quote_is_refused
           (demoWorld timedOut [routeDoc ["UNISWAPV2"; "THORCHAIN"]])
           demoConfig (usdtToBtc QTo) initialState eq_refl).
Defined.



Lemma fetchSwapQuoteInner_after_answers
    (W : World) (C : Config) (request : EdgeSwapRequestPlugin) (s s1 : State)
    (answers : Answers) :
  obtainAnswers W C request s = (Ok answers, s1) ->
  fetchSwapQuoteInner W C request s = buildOrder W C request answers s1.
Proof.
  intros H. unfold fetchSwapQuoteInner, bind. rewrite H. reflexivity.
Qed.

(** C4, amended: once the two provider documents are read, an answer
    without routes, and an answer whose first route lists at most one provider and
    has call data of the expected shape, end the quote in the
    [SwapCurrencyError] of the pair.  The call data of the first route is
    cleaned before its providers are counted: when the source chain has an
    active inbound address and that call data is malformed, the quote ends
    in the error of the cleaner, however many providers the route lists.
    A first route with two or more providers and well-formed call data
    passes the check, and the quote goes on to assemble the order. *)
Theorem single_hop_route_is_refused
    (W : World) (C : Config) (request : EdgeSwapRequestPlugin) (s s1 : State)
    (answers : Answers) :
  obtainAnswers W C request s = (Ok answers, s1) ->
  (routes (anThorSwapQuote answers) = [] ->
   fetchSwapQuoteInner W C request s = (Err (currencyError request), s1))
  /\ (forall thorSwap rest,
         routes (anThorSwapQuote answers) = thorSwap :: rest ->
         (List.length (providers thorSwap) <= 1)%nat ->
         asCalldata (calldata thorSwap) <> None ->
         fetchSwapQuoteInner W C request s = (Err (currencyError request), s1))
  /\ (forall thorSwap rest inAddressObject,
         routes (anThorSwapQuote answers) = thorSwap :: rest ->
         findInbound (anInboundAddresses answers) (fromMainnetCode (anCodes answers))
         = Some inAddressObject ->
         asCalldata (calldata thorSwap) = None ->
         fetchSwapQuoteInner W C request s = (Err CleanerError, s1))
  /\ (forall thorSwap rest inAddressObject calldata_,
         routes (anThorSwapQuote answers) = thorSwap :: rest ->
         (2 <= List.length (providers thorSwap))%nat ->
         findInbound (anInboundAddresses answers) (fromMainnetCode (anCodes answers))
         = Some inAddressObject ->
         asCalldata (calldata thorSwap) = Some calldata_ ->
         fetchSwapQuoteInner W C request s
         = assembleOrder W C request (anCodes answers) inAddressObject thorSwap
             calldata_ s1).
Proof.
  intros Hanswers.
  rewrite (fetchSwapQuoteInner_after_answers _ _ _ _ _ _ Hanswers).
  unfold buildOrder. repeat split.
  - intros Hroutes. rewrite Hroutes.
    destruct (findInbound _ _); reflexivity.
  - intros thorSwap rest Hroutes Hone Hshape. rewrite Hroutes.
    destruct (findInbound _ _); [|reflexivity].
    destruct (asCalldata (calldata thorSwap)); [|contradiction].
    destruct (Nat.leb_spec (List.length (providers thorSwap)) 1); [reflexivity|lia].
  - intros thorSwap rest inAddressObject Hroutes Hin Hshape.
    rewrite Hroutes, Hin, Hshape. reflexivity.
  - intros thorSwap rest inAddressObject calldata_ Hroutes Htwo Hin Hshape.
    rewrite Hroutes, Hin, Hshape.
    destruct (Nat.leb_spec (List.length (providers thorSwap)) 1); [lia|reflexivity].
Qed.

Lemma single_hop_route_is_refused_witness :
  fst (fetchSwapQuoteInner (demoWorld timedOut [routeDoc ["THORCHAIN"]]) demoConfig
         (usdtToBtc QFrom) initialState)
  = Err (SwapCurrencyError swapInfo "USDT" "BTC").
Proof.
  destruct (obtainAnswers (demoWorld timedOut [routeDoc ["THORCHAIN"]]) demoConfig
              (usdtToBtc QFrom) initialState) as [r s1] eqn:E.
  vm_compute in E. injection E as Er Es. subst r.
  destruct (single_hop_route_is_refused
              (demoWorld timedOut [routeDoc ["THORCHAIN"]]) demoConfig
              (usdtToBtc QFrom) initialState s1 _
              (eq_trans eq_refl (f_equal (pair _) Es)))
    as [_ [Hone _]].
  rewrite (Hone _ _ eq_refl ltac:(cbn; lia) ltac:(discriminate)). reflexivity.
Defined.

(** C4, as stated, fails: the first route of this answer lists exactly one
    provider, and the quote does not end in the [SwapCurrencyError] of the
    pair but in the error of the cleaner of the call data. *)
Lemma single_hop_route_with_malformed_calldata_is_a_cleaner_error :
  exists thorSwap s1,
    asThorSwapRoute (Some (malformedCalldataRouteDoc ["THORCHAIN"])) = Some thorSwap
    /\ List.length (providers thorSwap) = 1%nat
    /\ fetchSwapQuoteInner
         (demoWorld timedOut [malformedCalldataRouteDoc ["THORCHAIN"]]) demoConfig
         (usdtToBtc QFrom) initialState
       = (Err CleanerError, s1)
    /\ CleanerError <> currencyError (usdtToBtc QFrom).
Proof.
  eexists. eexists.
  split; [vm_compute; reflexivity|].
  split; [reflexivity|].
  split; [vm_compute; reflexivity | discriminate].
Qed.

(** The branch for a token on an EVM chain: whenever it returns, the spend
    carries no coin and goes to the contract address. *)
Lemma planSpend_token
    (W : World) (C : Config) (request : EdgeSwapRequestPlugin) (codes : Codes)
    (inAddressObject : InboundAddress) (thorSwap : ThorSwapRoute) (memo : string)
    (s s1 : State) (plan : Plan) :
  planSpend W C request codes inAddressObject thorSwap memo s = (Ok plan, s1) ->
  EVM_CURRENCY_CODES C (fromMainnetCode codes) = true ->
  fromMainnetCode codes <> fromCurrencyCode request ->
  exists contractAddress,
    contractAddressOf inAddressObject thorSwap = Some contractAddress
    /\ plEthNativeAmount plan = "0"
    /\ plPublicAddress plan = contractAddress.
Proof.
  intros Hplan Hevm Htoken.
  unfold planSpend in Hplan. rewrite Hevm in Hplan.
  destruct (String.eqb_spec (fromMainnetCode codes) (fromCurrencyCode request))
    as [Heq|_]; [contradiction|].
  cbn [negb] in Hplan.
  destruct (contractAddressOf inAddressObject thorSwap) as [contractAddress|];
    [|discriminate].
  exists contractAddress. split; [reflexivity|].
  destruct (sourceTokenContractAddressOf W request codes) as [source|];
    [|discriminate].
  unfold bind at 1 in Hplan.
  match type of Hplan with
  | match ?m s with _ => _ end = _ => destruct (m s) as [[memo'|e] s2]
  end; [|discriminate].
  unfold bind, call in Hplan.
  destruct (getEvmApprovalData W (trace s2) _) as [approval|why];
    [|discriminate].
  injection Hplan as <- _. split; reflexivity.
Qed.

(** C9: an order returned for a token held on an EVM chain has one main
    spend target: its native amount is ['0'] and its destination is not
    the address of the inbound vault but a contract: the router of the
    inbound address when the first provider of the route is [THORCHAIN],
    the contract of the route otherwise; the order's [fromNativeAmount] is
    the native amount of the request. *)
Theorem token_swap_spends_zero_to_the_router
    (W : World) (C : Config) (request : EdgeSwapRequestPlugin) (s s1 s2 : State)
    (answers : Answers) (order : SwapOrder) :
  obtainAnswers W C request s = (Ok answers, s1) ->
  fetchSwapQuoteInner W C request s = (Ok order, s2) ->
  EVM_CURRENCY_CODES C (fromMainnetCode (anCodes answers)) = true ->
  fromMainnetCode (anCodes answers) <> fromCurrencyCode request ->
  exists inAddressObject thorSwap rest contractAddress memo,
    find (fun addrObj =>
            negb (halted addrObj)
            && String.eqb (chain addrObj) (fromMainnetCode (anCodes answers)))
         (anInboundAddresses answers)
    = Some inAddressObject
    /\ routes (anThorSwapQuote answers) = thorSwap :: rest
    /\ match providers thorSwap with
       | first :: _ =>
           if String.eqb first "THORCHAIN" then router inAddressObject
           else contract thorSwap
       | [] => contract thorSwap
       end = Some contractAddress
    /\ siSpendTargets (spendInfo order)
       = [ {| stMemo := memo; stNativeAmount := "0";
              stPublicAddress := contractAddress |} ]
    /\ fromNativeAmount order = nativeAmount request.
Proof.
  intros Hanswers Horder Hevm Htoken.
  rewrite (fetchSwapQuoteInner_after_answers _ _ _ _ _ _ Hanswers) in Horder.
  unfold buildOrder in Horder.
  destruct (findInbound _ _) as [inAddressObject|] eqn:Hin; [|discriminate].
  destruct (routes (anThorSwapQuote answers)) as [|thorSwap rest]; [discriminate|].
  destruct (asCalldata (calldata thorSwap)) as [calldata_|]; [|discriminate].
  destruct (Nat.leb _ 1); [discriminate|].
  unfold assembleOrder in Horder.
  unfold bind at 1 in Horder. unfold logWarn at 1 in Horder.
  unfold bind at 1 in Horder.
  destruct (planSpend W C request (anCodes answers) inAddressObject thorSwap _ _)
    as [[plan|e] s3] eqn:Hplan; [|discriminate].
  destruct (planSpend_token _ _ _ _ _ _ _ _ _ _ Hplan Hevm Htoken)
    as [contractAddress [Hcontract [Hzero Hdest]]].
  exists inAddressObject, thorSwap, rest, contractAddress, (plMemo plan).
  split; [exact Hin|]. split; [reflexivity|].
  split.
  { unfold contractAddressOf, tcDirectOf in Hcontract.
    destruct (providers thorSwap) as [|first others]; [exact Hcontract|].
    destruct (String.eqb first "THORCHAIN"); exact Hcontract. }
  unfold bind at 1 in Horder.
  match type of Horder with
  | match ?m with _ => _ end = _ => destruct m as [[tx|e] s4]
  end; [|discriminate].
  unfold bind, gets in Horder. injection Horder as <- _.
  cbn [spendInfo fromNativeAmount swapSpend siSpendTargets].
  rewrite Hzero, Hdest. split; reflexivity.
Qed.

Lemma token_swap_spends_zero_to_the_router_witness :
  exists order s2,
    fetchSwapQuoteInner (demoWorld timedOut [routeDoc ["THORCHAIN"; "THORCHAIN"]])
      demoConfig (usdtToBtc QFrom) initialState = (Ok order, s2)
    /\ siSpendTargets (spendInfo order)
       = [ {| stMemo := "0xdeposit"; stNativeAmount := "0";
              stPublicAddress := "0xthorrouter" |} ]
    /\ fromNativeAmount order = "1000000".
Proof.
  destruct (obtainAnswers (demoWorld timedOut [routeDoc ["THORCHAIN"; "THORCHAIN"]])
              demoConfig (usdtToBtc QFrom) initialState) as [ra s1] eqn:Ea.
  pose proof Ea as Ha.
  vm_compute in Ea. injection Ea as Era Es1. subst ra.
  destruct (fetchSwapQuoteInner (demoWorld timedOut [routeDoc ["THORCHAIN"; "THORCHAIN"]])
              demoConfig (usdtToBtc QFrom) initialState) as [ro s2] eqn:Eo.
  pose proof Eo as Ho.
  vm_compute in Eo. injection Eo as Ero Es2. subst ro.
  destruct (token_swap_spends_zero_to_the_router
              (demoWorld timedOut [routeDoc ["THORCHAIN"; "THORCHAIN"]])
              demoConfig (usdtToBtc QFrom) initialState s1 s2 _ _
              Ha Ho eq_refl ltac:(discriminate))
    as [inAddressObject [thorSwap [rest [contractAddress [memo H]]]]].
  destruct H as [_ [_ [_ [_ Hfrom]]]].
  eexists. exists s2. split; [reflexivity|]. split; [reflexivity | exact Hfrom].
Defined.

(** X2: a tag that is neither [INVALID] nor a key of [calldataOrder] makes the
    lookup of the parameter order fail with a [TypeError], before anything
    is built. *)
Lemma unlisted_router_type_is_a_type_error
    (W : World) (C : Config) (currencyPluginId contractAddress contractMethod : string)
    (calldata : list (string * Json)) (s : State) (entry : AbiEntry) :
  lookupAbi C currencyPluginId contractAddress = Some entry ->
  String.eqb (abiType entry) "INVALID" = false ->
  assoc (abiType entry) calldataOrder = None ->
  getCalldataData W C currencyPluginId contractAddress contractMethod calldata s
  = (Err TypeError, s).
Proof.
  intros Hentry Hvalid Horder.
  unfold getCalldataData, bind, tryCatch, readAbi.
  rewrite Hentry, Hvalid. cbn [ret]. rewrite Horder. reflexivity.
Qed.

(** C6, as the code has it: when the pair is registered with the tag
    [INVALID], the error thrown for it inside the [try] is replaced by the
    [catch], and the caller sees the very error of a pair that has no
    interface registered ("Could not find ABI for contract ..."); the state
    is left as it was. *)
Theorem invalid_router_type_reports_missing_abi
    (W : World) (C : Config) (currencyPluginId contractAddress contractMethod : string)
    (calldata : list (string * Json)) (s : State) (entry : AbiEntry) :
  lookupAbi C currencyPluginId contractAddress = Some entry ->
  abiType entry = "INVALID" ->
  getCalldataData W C currencyPluginId contractAddress contractMethod calldata s
  = (Err (missingAbi currencyPluginId contractAddress), s)
  /\ forall C' : Config,
       lookupAbi C' currencyPluginId contractAddress = None ->
       getCalldataData W C' currencyPluginId contractAddress contractMethod calldata s
       = getCalldataData W C currencyPluginId contractAddress contractMethod calldata s.
Proof.
  intros Hentry Htag.
  assert (Hhere : getCalldataData W C currencyPluginId contractAddress
                    contractMethod calldata s
                  = (Err (missingAbi currencyPluginId contractAddress), s)).
  { unfold getCalldataData, bind, tryCatch, readAbi.
    rewrite Hentry, Htag. reflexivity. }
  split; [exact Hhere|].
  intros C' Hnone. rewrite Hhere.
  unfold getCalldataData, bind, tryCatch, readAbi.
  rewrite Hnone. reflexivity.
Qed.

Lemma invalid_router_type_reports_missing_abi_witness :
  getCalldataData (demoWorld timedOut []) demoConfig "ethereum" "0xRetired" "swapIn"
    [] initialState
  = (Err (JsError "Could not find ABI for contract ethereum-0xRetired"), initialState).
Proof.
  exact (proj1 (invalid_router_type_reports_missing_abi (demoWorld timedOut [])
                  demoConfig "ethereum" "0xRetired" "swapIn" [] initialState
                  _ eq_refl eq_refl)).
Defined.

Lemma unlisted_router_type_is_a_type_error_witness :
  getCalldataData (demoWorld timedOut []) demoConfig "ethereum" "0xSushi" "swapIn"
    [] initialState
  = (Err TypeError, initialState).
Proof.
  exact (unlisted_router_type_is_a_type_error (demoWorld timedOut [])
           demoConfig "ethereum" "0xSushi" "swapIn" [] initialState
           _ eq_refl eq_refl eq_refl).
Defined.

(** X3: for a registered pair whose tag is a key of [calldataOrder], the one
    call made is the population of the transaction, with the fields of the
    call data picked in the order of the template of that tag; its data is
    the answer, and a transaction without data is an error. *)
Theorem getCalldataData_follows_the_template
    (W : World) (C : Config) (currencyPluginId contractAddress contractMethod : string)
    (calldata : list (string * Json)) (s : State) (entry : AbiEntry)
    (keys : list string) :
  lookupAbi C currencyPluginId contractAddress = Some entry ->
  String.eqb (abiType entry) "INVALID" = false ->
  assoc (abiType entry) calldataOrder = Some keys ->
  let params := map (fun key => field key calldata) keys in
  let e := EvPopulateTransaction contractAddress (abiData entry) contractMethod params in
  getCalldataData W C currencyPluginId contractAddress contractMethod calldata s
  = (match populateTransaction W (trace s) contractAddress (abiData entry)
             contractMethod params with
     | Ok (Some data) => Ok data
     | Ok None => Err (JsError "No data in tx object")
     | Err why => Err (Rejected why)
     end, emit e s).
Proof.
  intros Hentry Hvalid Horder params e.
  unfold getCalldataData, bind, tryCatch, readAbi, call.
  rewrite Hentry, Hvalid. cbn [ret]. rewrite Horder. fold params.
  destruct (populateTransaction W (trace s) contractAddress (abiData entry)
              contractMethod params) as [[data|]|why]; reflexivity.
Qed.

Lemma getCalldataData_follows_the_template_witness :
  getCalldataData (demoWorld timedOut []) demoConfig "ethereum" "0xAggregator" "swapIn"
    [("amount", JStr "7"); ("token", JStr "0xtoken")] initialState
  = (Ok "0xswapin",
     emit (EvPopulateTransaction "0xAggregator" (JArr []) "swapIn"
             [None; None; None; Some (JStr "0xtoken"); Some (JStr "7"); None; None])
          initialState).
Proof.
  exact (getCalldataData_follows_the_template (demoWorld timedOut [])
           demoConfig "ethereum" "0xAggregator" "swapIn"
           [("amount", JStr "7"); ("token", JStr "0xtoken")] initialState
           _ _ eq_refl eq_refl eq_refl).
Defined.

End ThorchainDaFacts.

(** ** Swapuz: the order of the calls, their number, the amounts asked for *)

Module SwapuzProtocol.
Import Swapuz BiggystringFacts SwapuzFacts.

Section Attempt.
Variable W : World.
Variable request : EdgeSwapRequest.
Variables fromAddress toAddress : string.
Variable codes : Codes.
Variable largeDenomAmount : Decimal.

Local Abbreviation rate mode := (EvFetch (rateRequest codes largeDenomAmount mode)).
Local Abbreviation post mode :=
  (EvFetch (PostOrder (orderBody fromAddress toAddress codes largeDenomAmount mode))).
Local Abbreviation toNativeOf order :=
  (denominationToNative W (toWallet request)
           (JsNumber.toString (amountResult order))
     (cToCurrencyCode codes)).
Local Abbreviation spend mode order :=
  (EvMakeSpend (fromWallet request)
     (spendInfoOf request fromAddress toAddress codes mode order (toNativeOf order))).

(** What [createOrder] has done when it ends: it has posted the order and
    stopped there with an error, or it has posted the order and asked the
    wallet for the spend. *)
Lemma createOrder_outcome (mode : Mode) (tr tr1 : list Event)
    (r : Result Error EdgeSwapQuote) :
  createOrder W request fromAddress toAddress codes largeDenomAmount mode tr = (r, tr1) ->
  (isOk r = false /\ tr1 = tr ++ [post mode])
  \/ exists order,
       tr1 = tr ++ [post mode; spend mode order]
       /\ match r with
          | Ok quote =>
              exists tx,
                quote = makeSwapPluginQuote request (nativeAmount request)
                          (toNativeOf order) tx toAddress (pluginId swapInfo)
                          (isFloat mode) (ensureInFuture W (finishPayment order))
                          (uid order)
          | Err e => exists why, e = Rejected why
          end.
Proof.
  unfold createOrder, bind, doFetch.
  destruct (fetch W tr _) as [resp|why];
    [|intros H; injection H as <- <-; left; split; reflexivity].
  destruct (ok resp); cbn [negb];
    [|intros H; injection H as <- <-; left; split; reflexivity].
  pose proof (readJson_trace (asApiResponse (asCreateOrder W)) resp
                (tr ++ [post mode])) as Hj.
  destruct (readJson _ resp _) as [[doc|e] tr2]; cbn [snd] in Hj; subst tr2;
    [|intros H; injection H as <- <-; left; split; reflexivity].
  destruct (result doc) as [order|];
    [|intros H; injection H as <- <-; left; split; reflexivity].
  unfold doMakeSpend.
  destruct (makeSpend W _ _ _) as [tx|why]; cbn [ret];
    intros H; injection H as <- <-; right; exists order;
    (split; [rewrite <- app_assoc; reflexivity|]); eauto.
Qed.

(** What [getQuote] has done when it ends. *)
Lemma getQuote_outcome (mode : Mode) (tr tr1 : list Event)
    (r : Result Error EdgeSwapQuote) :
  getQuote W request fromAddress toAddress codes largeDenomAmount mode tr = (r, tr1) ->
  (isOk r = false /\ tr1 = tr ++ [rate mode])
  \/ (isOk r = false /\ tr1 = tr ++ [rate mode; post mode])
  \/ exists order,
       tr1 = tr ++ [rate mode; post mode; spend mode order]
       /\ match r with
          | Ok quote =>
              exists tx,
                quote = makeSwapPluginQuote request (nativeAmount request)
                          (toNativeOf order) tx toAddress (pluginId swapInfo)
                          (isFloat mode) (ensureInFuture W (finishPayment order))
                          (uid order)
          | Err e => exists why, e = Rejected why
          end.
Proof.
  unfold getQuote, bind, doFetch.
  destruct (fetch W tr _) as [resp|why];
    [|intros H; injection H as <- <-; left; split; reflexivity].
  destruct (ok resp); cbn [negb];
    [|intros H; injection H as <- <-; left; split; reflexivity].
  pose proof (readJson_trace (asApiResponse asGetRate) resp (tr ++ [rate mode])) as Hj.
  destruct (readJson _ resp _) as [[doc|e] tr2]; cbn [snd] in Hj; subst tr2;
    [|intros H; injection H as <- <-; left; split; reflexivity].
  destruct (result doc) as [r0|];
    [|intros H; injection H as <- <-; left; split; reflexivity].
  destruct (gtString W _ largeDenomAmount);
    [intros H; injection H as <- <-; left; split; reflexivity|].
  intros H. apply createOrder_outcome in H.
  destruct H as [[Hr ->]|[order [-> Hq]]].
  - right; left. split; [exact Hr|]. rewrite <- app_assoc. reflexivity.
  - right; right. exists order. split; [|exact Hq].
    rewrite <- app_assoc. reflexivity.
Qed.
End Attempt.

(** X4: a pricing attempt makes its calls in the order rate query, order,
    spend, and stops at the first of them that fails: the order is never
    posted without an accepted rate answer, the wallet is never asked for
    the spend without an order, and the attempt succeeds only after all
    three calls. *)
Theorem getQuote_calls_in_order
    (W : World) (request : EdgeSwapRequest) (fromAddress toAddress : string)
    (codes : Codes) (largeDenomAmount : Decimal) (mode : Mode) (tr : list Event) :
  let run := getQuote W request fromAddress toAddress codes largeDenomAmount mode tr in
  let rate := EvFetch (rateRequest codes largeDenomAmount mode) in
  let post :=
    EvFetch (PostOrder (orderBody fromAddress toAddress codes largeDenomAmount mode)) in
  exists calls,
    snd run = tr ++ calls
    /\ (calls = [rate] \/ calls = [rate; post]
        \/ exists si, calls = [rate; post; EvMakeSpend (fromWallet request) si])
    /\ (isOk (fst run) = true -> List.length calls = 3%nat).
Proof.
  cbv zeta.
  destruct (getQuote W request fromAddress toAddress codes largeDenomAmount mode tr)
    as [r tr1] eqn:E.
  apply getQuote_outcome in E. cbn [fst snd].
  destruct E as [[Hr ->]|[[Hr ->]|[order [-> Hq]]]].
  - eexists. split; [reflexivity|]. split; [left; reflexivity|].
    rewrite Hr. discriminate.
  - eexists. split; [reflexivity|]. split; [right; left; reflexivity|].
    rewrite Hr. discriminate.
  - eexists. split; [reflexivity|]. split; [right; right; eexists; reflexivity|].
    reflexivity.
Qed.



Local Abbreviation orders calls := (List.length (filter isOrderPost calls)).

Lemma getQuote_counts
    (W : World) (request : EdgeSwapRequest) (fromAddress toAddress : string)
    (codes : Codes) (largeDenomAmount : Decimal) (mode : Mode)
    (tr tr1 : list Event) (r : Result Error EdgeSwapQuote) :
  getQuote W request fromAddress toAddress codes largeDenomAmount mode tr = (r, tr1) ->
  exists calls,
    tr1 = tr ++ calls
    /\ (List.length calls <= 3)%nat
    /\ (orders calls <= 1)%nat
    /\ forall quote, r = Ok quote ->
         orders calls = 1%nat
         /\ qRequest quote = request
         /\ fromNativeAmount quote = nativeAmount request.
Proof.
  intros H. apply getQuote_outcome in H.
  destruct H as [[Hr ->]|[[Hr ->]|[order [-> Hq]]]].
  - eexists. split; [reflexivity|]. cbn. repeat split; try lia.
    all: subst r; discriminate.
  - eexists. split; [reflexivity|]. cbn. repeat split; try lia.
    all: subst r; discriminate.
  - eexists. split; [reflexivity|]. cbn. repeat split; try lia.
    all: subst r; destruct Hq as [tx ->]; reflexivity.
Qed.

(** One inner quote: at most six calls, at most two orders; a quote that
    is returned has cost at least one order and is for the request as it
    was passed. *)
Lemma fetchSwapQuoteInner_counts
    (W : World) (request : EdgeSwapRequest) (tr tr1 : list Event)
    (r : Result Error EdgeSwapQuote) :
  fetchSwapQuoteInner W request tr = (r, tr1) ->
  exists calls,
    tr1 = tr ++ calls
    /\ (List.length calls <= 6)%nat
    /\ (orders calls <= 2)%nat
    /\ forall quote, r = Ok quote ->
         (1 <= orders calls)%nat
         /\ qRequest quote = request
         /\ fromNativeAmount quote = nativeAmount request.
Proof.
  assert (Hnone : forall e,
             (Err e, tr) = (r, tr1) ->
             exists calls,
               tr1 = tr ++ calls /\ (List.length calls <= 6)%nat
               /\ (orders calls <= 2)%nat
               /\ forall quote, r = Ok quote ->
                    (1 <= orders calls)%nat /\ qRequest quote = request
                    /\ fromNativeAmount quote = nativeAmount request).
  { intros e H. injection H as <- <-. exists []. rewrite app_nil_r. cbn.
    repeat split; try lia; discriminate. }
  unfold fetchSwapQuoteInner.
  destruct (checkInvalidCodes _ _ _ _ _);
    [destruct (quoteFor request); apply Hnone|].
  assert (Htry : tryThemAll W request
                   (getAddress W (fromWallet request) (fromCurrencyCode request))
                   (getAddress W (toWallet request) (toCurrencyCode request))
                   (getCodesWithMainnetTranscription W request MAINNET_CODE_TRANSCRIPTION)
                   (nativeToDenomination W (fromWallet request) (nativeAmount request)
                      (cFromCurrencyCode
                         (getCodesWithMainnetTranscription W request
                            MAINNET_CODE_TRANSCRIPTION))) tr = (r, tr1) ->
                 exists calls,
                   tr1 = tr ++ calls /\ (List.length calls <= 6)%nat
                   /\ (orders calls <= 2)%nat
                   /\ forall quote, r = Ok quote ->
                        (1 <= orders calls)%nat /\ qRequest quote = request
                        /\ fromNativeAmount quote = nativeAmount request).
  { unfold tryThemAll, tryCatch.
    destruct (getQuote W request _ _ _ _ ModeFix tr) as [[q1|e1] trA] eqn:E1;
      apply getQuote_counts in E1;
      destruct E1 as [c1 [-> [Hlen1 [Hord1 Hq1]]]].
    - intros H. injection H as <- <-. exists c1. split; [reflexivity|].
      split; [lia|]. split; [lia|].
      intros quote Hq. destruct (Hq1 quote Hq) as [Ho [Hreq Hamt]].
      repeat split; try assumption. lia.
    - destruct (getQuote W request _ _ _ _ ModeFloat (tr ++ c1))
        as [[q2|e2] trB] eqn:E2;
        apply getQuote_counts in E2;
        destruct E2 as [c2 [-> [Hlen2 [Hord2 Hq2]]]];
        intros H; injection H as <- <-; exists (c1 ++ c2);
        (split; [rewrite app_assoc; reflexivity|]);
        rewrite filter_app, !length_app;
        (split; [lia|]); (split; [lia|]).
      + intros quote Hq. destruct (Hq2 quote Hq) as [Ho [Hreq Hamt]].
        repeat split; try assumption. lia.
      + discriminate. }
  destruct (quoteFor request); [exact Htry | apply Hnone | exact Htry].
Qed.

Lemma liftInner_run {A} (m : IO A) (s : SolverState) :
  liftInner m s
  = (fst (m (trace s)), {| trace := snd (m (trace s)); attempts := attempts s |}).
Proof. unfold liftInner. destruct (m (trace s)); reflexivity. Qed.

Lemma whileRetries_counts (W : World) (req : EdgeSwapRequest) (target : Decimal)
    (retries : nat) :
  forall cand s,
  exists calls,
    trace (snd (whileRetries W req target retries cand s)) = trace s ++ calls
    /\ (List.length calls <= 6 * (retries - 1))%nat
    /\ (orders calls <= 2 * (retries - 1))%nat.
Proof.
  induction retries as [|retries IH]; intros cand s.
  - exists []. cbn. rewrite app_nil_r. repeat split; lia.
  - destruct retries as [|n].
    + exists []. cbn. rewrite app_nil_r. repeat split; lia.
    + rewrite whileRetries_turn.
      destruct (fetchSwapQuoteInner W (setNativeAmount req cand) (trace s))
        as [r tr1] eqn:E.
      apply fetchSwapQuoteInner_counts in E.
      destruct E as [c1 [-> [Hlen [Hord _]]]].
      destruct r as [quote|e]; cbn zeta;
        [|exists c1; cbn [snd trace]; repeat split; [lia | lia]].
      destruct (gte _ target);
        [exists c1; cbn [snd trace]; repeat split; [lia | lia]|].
      destruct (increasedAmount _ _ _) as [a|];
        [|exists c1; cbn [snd trace]; repeat split; [lia | lia]].
      destruct (IH a {| trace := trace s ++ c1; attempts := attempts s ++ [cand] |})
        as [c2 [Htr [Hlen2 Hord2]]].
      exists (c1 ++ c2). rewrite Htr. cbn [trace].
      rewrite app_assoc, filter_app, !length_app.
      repeat split; lia.
Qed.

(** X6: a quote costs the provider a bounded number of calls.  A
    quote-for-input request makes at most 6 calls to the outside world and
    posts at most 2 orders; a quote-for-output request makes at most 24
    calls and posts at most 8 orders. *)
Theorem fetchSwapQuote_call_bounds
    (W : World) (req : EdgeSwapRequest) (s : SolverState) :
  exists calls,
    trace (snd (fetchSwapQuote W req s)) = trace s ++ calls
    /\ (List.length calls <= match quoteFor req with QFrom => 6 | _ => 24 end)%nat
    /\ (List.length (filter isOrderPost calls)
        <= match quoteFor req with QFrom => 2 | _ => 8 end)%nat.
Proof.
  unfold fetchSwapQuote.
  destruct (quoteFor req).
  - rewrite liftInner_run. cbn [snd trace].
    destruct (fetchSwapQuoteInner W req (trace s)) as [r tr1] eqn:E.
    apply fetchSwapQuoteInner_counts in E.
    destruct E as [calls [-> [Hlen [Hord _]]]].
    exists calls. cbn [snd]. repeat split; assumption.
  - apply (whileRetries_counts W _ _ 5).
  - apply (whileRetries_counts W _ _ 5).
Qed.

Lemma last_of_cons {A} (l : list A) (a d d' : A) :
  last (a :: l) d = last (a :: l) d'.
Proof.
  revert a. induction l as [|b l IH]; intros a; [reflexivity|].
  change (last (b :: l) d = last (b :: l) d'). apply IH.
Qed.

(** A quote returned by the loop is the quote of its last attempt, and
    every attempt made on the way has posted an order. *)
Lemma whileRetries_returns_last (W : World) (req : EdgeSwapRequest)
    (target : Decimal) (retries : nat) :
  forall cand s quote s1,
    whileRetries W req target retries cand s = (Ok quote, s1) ->
    exists later calls,
      attempts s1 = attempts s ++ cand :: later
      /\ fromNativeAmount quote = last (cand :: later) cand
      /\ qRequest quote = setNativeAmount req (last (cand :: later) cand)
      /\ trace s1 = trace s ++ calls
      /\ (List.length (cand :: later) <= orders calls)%nat.
Proof.
  induction retries as [|retries IH]; intros cand s quote s1 Hrun.
  - discriminate.
  - destruct retries as [|n]; [discriminate|].
    rewrite whileRetries_turn in Hrun.
    destruct (fetchSwapQuoteInner W (setNativeAmount req cand) (trace s))
      as [r tr1] eqn:E.
    apply fetchSwapQuoteInner_counts in E.
    destruct E as [c1 [-> [_ [_ Hq]]]].
    destruct r as [quote1|e]; [|discriminate].
    destruct (Hq quote1 eq_refl) as [Hord [Hreq Hamt]].
    cbn zeta in Hrun.
    destruct (gte _ target).
    + injection Hrun as <- <-. exists [], c1. cbn [attempts trace last].
      repeat split; try assumption; try (cbn; lia).
    + destruct (increasedAmount _ _ _) as [a|]; [|discriminate].
      destruct (IH _ _ _ _ Hrun) as [later [c2 [Hatt [Hfrom [Hq2 [Htr Hord2]]]]]].
      cbn [attempts trace] in Hatt, Htr.
      exists (a :: later), (c1 ++ c2).
      rewrite Hatt, Htr, <- !app_assoc, filter_app, length_app.
      change (last (cand :: a :: later) cand) with (last (a :: later) cand).
      rewrite (last_of_cons later a cand a).
      repeat split; try assumption.
      cbn [List.length] in *. lia.
Qed.

(** X7: the quote returned for a quote-for-output request is the quote of
    the last amount tried: the first amount tried is the requested amount
    itself, the quote's source amount is the last one, its request asks
    for the direction 'from', and every amount tried, also the ones given
    up, has posted at least one order at the provider. *)
Theorem fetchSwapQuote_returns_the_last_attempt
    (W : World) (req : EdgeSwapRequest) (s s1 : SolverState)
    (quote : EdgeSwapQuote) :
  quoteFor req <> QFrom ->
  fetchSwapQuote W req s = (Ok quote, s1) ->
  exists later calls,
    attempts s1 = attempts s ++ nativeAmount req :: later
    /\ fromNativeAmount quote = last later (nativeAmount req)
    /\ quoteFor (qRequest quote) = QFrom
    /\ trace s1 = trace s ++ calls
    /\ (1 + List.length later <= List.length (filter isOrderPost calls))%nat.
Proof.
  intros Hfor Hrun. unfold fetchSwapQuote in Hrun.
  assert (H : whileRetries W (setQuoteFor req QFrom)
                (nativeToDenomination W (fromWallet req) (nativeAmount req)
                   (fromCurrencyCode req)) 5 (nativeAmount req) s = (Ok quote, s1))
    by (destruct (quoteFor req); [contradiction | exact Hrun | exact Hrun]).
  destruct (whileRetries_returns_last _ _ _ _ _ _ _ _ H)
    as [later [calls [Hatt [Hfrom [Hq [Htr Hord]]]]]].
  exists later, calls.
  split; [exact Hatt|].
  split; [rewrite Hfrom; destruct later; reflexivity|].
  split; [rewrite Hq; reflexivity|]. split; [exact Htr | exact Hord].
Qed.

Lemma fetchSwapQuote_returns_the_last_attempt_witness :
  exists quote s1 later,
    fetchSwapQuote (rateWorld (mkDec 98 2)) (reverseRequest 1000) start = (Ok quote, s1)
    /\ attempts s1 = ofZ 1000 :: later
    /\ fromNativeAmount quote = last later (ofZ 1000)
    /\ List.length later = 1%nat.
Proof.
  destruct (fetchSwapQuote (rateWorld (mkDec 98 2)) (reverseRequest 1000) start)
    as [r s1] eqn:E.
  pose proof E as Hrun.
  vm_compute in E. injection E as Er Es. subst r.
  destruct (fetchSwapQuote_returns_the_last_attempt (rateWorld (mkDec 98 2))
              (reverseRequest 1000) start s1 _ ltac:(discriminate) Hrun)
    as [later [calls [Hatt [Hfrom _]]]].
  eexists. exists s1, later. split; [reflexivity|].
  split; [exact Hatt|]. split; [exact Hfrom|].
  subst s1. vm_compute in Hatt.
  injection Hatt as <-. reflexivity.
Defined.

Lemma dval_nonneg (d : Decimal) : 0 <= dmant d -> (0 <= dval d)%Q.
Proof. intros H. to_mantissas. lia. Qed.

Lemma div18_nonneg (a b q : Decimal) :
  0 <= dmant a -> 0 < dmant b -> div18 a b = Some q -> 0 <= dmant q.
Proof.
  intros Ha Hb. unfold div18, div.
  destruct (Z.eqb_spec (dmant b) 0) as [E|_]; [lia|].
  intros H. injection H as <-. cbn [dmant].
  pose proof (pow10_pos (dscale a)). pose proof (pow10_pos (dscale b)).
  pose proof (pow10_pos 18).
  apply Z.quot_pos; nia.
Qed.

(** X8: when a quote falls short of a positive target with a realized
    output that is not negative, the next amount the solver asks for is
    the previous one (not negative) raised by at least 0.1% and by at most
    100.1%: it lies between 1.001 and 2.001 times the previous amount. *)
Theorem increasedAmount_bounds (target realized previous : Decimal) :
  0 < dmant target ->
  0 <= dmant realized ->
  0 <= dmant previous ->
  gte realized target = false ->
  exists next,
    increasedAmount target realized previous = Some next
    /\ ((1001 # 1000) * dval previous <= dval next)%Q
    /\ (dval next <= (2001 # 1000) * dval previous)%Q.
Proof.
  intros Ht Hr Hp Hlt.
  assert (Hdiff : 0 <= dmant (sub target realized)).
  { apply gte_false_lt in Hlt. unfold sub. cbn [dmant]. lia. }
  destruct (div18_truncates (sub target realized) target Hdiff Ht)
    as [q [Hq [Hlo _]]].
  pose proof (dval_nonneg _ (div18_nonneg _ _ _ Hdiff Ht Hq)) as Hq0.
  pose proof (dval_nonneg _ Hr) as Hr0.
  pose proof (dval_nonneg _ Hp) as Hp0.
  assert (Ht0 : (0 < dval target)%Q) by (to_mantissas; lia).
  rewrite dval_sub in Hlo.
  assert (Hq1 : (dval q <= 1)%Q) by nra.
  unfold increasedAmount. rewrite Hq. eexists. split; [reflexivity|].
  rewrite dval_mul, dval_add.
  change (dval (mkDec 1001 3)) with (1001 # 1000)%Q.
  split; nra.
Qed.

Lemma increasedAmount_bounds_witness :
  exists next,
    increasedAmount three two (ofZ 1000) = Some next
    /\ ((1001 # 1000) * dval (ofZ 1000) <= dval next)%Q
    /\ (dval next <= (2001 # 1000) * dval (ofZ 1000))%Q.
Proof.
  exact (increasedAmount_bounds three two (ofZ 1000)
           eq_refl ltac:(discriminate) ltac:(discriminate) eq_refl).
Defined.

(** X9: one correction absorbs a shortfall of up to 3%.  When an attempt
    realized at least 97% of a positive target but less than the target,
    the amount the solver asks for next is large enough for a provider
    that prices it at the rate of that attempt (realized over previous
    amount) to reach the target: target * previous <= realized * next. *)
Theorem one_correction_absorbs_a_small_shortfall
    (target realized previous : Decimal) :
  0 < dmant target ->
  0 <= dmant previous ->
  gte realized target = false ->
  ((97 # 100) * dval target <= dval realized)%Q ->
  exists next,
    increasedAmount target realized previous = Some next
    /\ (dval target * dval previous <= dval realized * dval next)%Q.
Proof.
  intros Ht Hp Hlt Hnear.
  assert (Hdiff : 0 <= dmant (sub target realized)).
  { apply gte_false_lt in Hlt. unfold sub. cbn [dmant]. lia. }
  destruct (div18_truncates (sub target realized) target Hdiff Ht)
    as [q [Hq [_ Hhi]]].
  pose proof (dval_nonneg _ (div18_nonneg _ _ _ Hdiff Ht Hq)) as Hq0.
  pose proof (dval_nonneg _ Hp) as Hp0.
  assert (Ht0 : (0 < dval target)%Q) by (to_mantissas; lia).
  assert (Hlt' : (dval realized < dval target)%Q).
  { apply gte_false_lt in Hlt.
    pose proof (pow10_pos (dscale target)). pose proof (pow10_pos (dscale realized)).
    to_mantissas. lia. }
  rewrite dval_sub in Hhi.
  change (dval ulp18) with (1 # 1000000000000000000)%Q in Hhi.
  unfold increasedAmount. rewrite Hq. eexists. split; [reflexivity|].
  rewrite dval_mul, dval_add.
  change (dval (mkDec 1001 3)) with (1001 # 1000)%Q.
  set (T := dval target) in *. set (R := dval realized) in *.
  set (P := dval previous) in *. set (s := dval q) in *.
  assert (Hfactor : (T <= R * ((1001 # 1000) + s))%Q).
  { assert (Hmid : (0 <= (R - (97 # 100) * T) * (T - R))%Q) by nra.
    assert (HT : (T * T <= R * ((1001 # 1000) + s) * T)%Q) by nra.
    nra. }
  nra.
Qed.

Lemma one_correction_absorbs_a_small_shortfall_witness :
  exists next,
    increasedAmount (ofZ 1000) (ofZ 980) (ofZ 1000) = Some next
    /\ (dval (ofZ 1000) * dval (ofZ 1000) <= dval (ofZ 980) * dval next)%Q.
Proof.
  exact (one_correction_absorbs_a_small_shortfall (ofZ 1000) (ofZ 980) (ofZ 1000)
           eq_refl ltac:(discriminate) eq_refl ltac:(vm_compute; discriminate)).
Defined.



(** X11: a rate answer without a usable result is read as an unsupported
    pair.  When the rate query is answered with an object that has a
    numeric [status] but whose [result] is missing or does not have the
    shape of a rate, the attempt throws the [SwapCurrencyError] of the
    pair, not a cleaner error, and no order is posted. *)
Theorem rate_without_usable_result_is_an_unsupported_pair
    (W : World) (request : EdgeSwapRequest) (fromAddress toAddress : string)
    (codes : Codes) (largeDenomAmount : Decimal) (mode : Mode) (tr : list Event)
    (resp : Response) (fs : list (string * Json)) (st : JsNumber.Number) :
  fetch W tr (rateRequest codes largeDenomAmount mode) = Ok resp ->
  ok resp = true ->
  json resp = Some (JObj fs) ->
  Cleaners.asNumber (Cleaners.field "status" fs) = Some st ->
  asGetRate (Cleaners.field "result" fs) = None ->
  getQuote W request fromAddress toAddress codes largeDenomAmount mode tr
  = (Err (SwapCurrencyError swapInfo (cFromCurrencyCode codes)
            (cToCurrencyCode codes)),
     tr ++ [EvFetch (rateRequest codes largeDenomAmount mode)]).
Proof.
  intros Hfetch Hok Hjson Hstatus Hresult.
  unfold getQuote. unfold bind at 1. unfold doFetch. rewrite Hfetch, Hok.
  cbn [negb]. unfold bind at 1. unfold readJson. rewrite Hjson.
  unfold asApiResponse, Cleaners.asMaybe. cbn [Cleaners.asFields].
  rewrite Hresult, Hstatus. reflexivity.
Qed.

Lemma rate_without_usable_result_is_an_unsupported_pair_witness :
  getQuote noRateWorld (reverseRequest 1000) "addr-w-btc" "addr-w-eth" btcToEth
    (ofZ 1000) ModeFix []
  = (Err (SwapCurrencyError swapInfo "BTC" "ETH"),
     [EvFetch (rateRequest btcToEth (ofZ 1000) ModeFix)]).
Proof.
  exact (rate_without_usable_result_is_an_unsupported_pair
           noRateWorld (reverseRequest 1000) "addr-w-btc" "addr-w-eth" btcToEth
           (ofZ 1000) ModeFix []
           {| ok := true; status := 200; json := Some noRateDoc; text := "" |}
           [("result", JNull); ("status", jsonNumber (ofZ 200))]
           (JsNumber.parseFloat (ofZ 200))
           eq_refl eq_refl eq_refl eq_refl eq_refl).
Defined.

End SwapuzProtocol.

(** ** Thorchain DEX aggregator: the cache, the checks, the calls *)

Module ThorchainDaProtocol.
Import ThorchainDa ThorchainDaFacts.

(** A cache that holds a payload no older than the update frequency is
    left alone. *)
Lemma refresh_skips_a_fresh_cache (W : World) (C : Config) (s : State) :
  (exists info, exchangeInfo s = Some info) ->
  now W (trace s) - exchangeInfoLastUpdate s <= EXCHANGE_INFO_UPDATE_FREQ_MS C ->
  refreshExchangeInfo W C s = (Ok tt, s).
Proof.
  intros [info Hinfo] Hage.
  rewrite refreshExchangeInfo_cases. cbv zeta. unfold isStale. rewrite Hinfo.
  destruct (Z.ltb_spec (EXCHANGE_INFO_UPDATE_FREQ_MS C)
              (now W (trace s) - exchangeInfoLastUpdate s)); [lia|reflexivity].
Qed.

(** A cache without payload, or with one older than the update frequency,
    is refreshed: the fetch is sent, and at most a warning follows. *)
Lemma refresh_fetches_for_a_stale_cache (W : World) (C : Config) (s : State) :
  exchangeInfo s = None
  \/ EXCHANGE_INFO_UPDATE_FREQ_MS C < now W (trace s) - exchangeInfoLastUpdate s ->
  exists rest,
    trace (snd (refreshExchangeInfo W C s))
    = trace s ++ EvFetchInfo (infoPath C) :: rest
    /\ (List.length rest <= 1)%nat.
Proof.
  intros Hstale.
  rewrite refreshExchangeInfo_cases. cbv zeta. unfold isStale.
  assert (Hs : ((EXCHANGE_INFO_UPDATE_FREQ_MS C
                 <? now W (trace s) - exchangeInfoLastUpdate s)
                || match exchangeInfo s with None => true | Some _ => false end)
               = true).
  { destruct Hstale as [-> | Hage].
    - apply orb_true_r.
    - apply orb_true_iff. left. apply Z.ltb_lt. exact Hage. }
  rewrite Hs. unfold afterFailedRefresh, emit.
  destruct (fetchInfo W (trace s) (infoPath C)) as [resp|why]; cbn [snd trace].
  - destruct (ok resp); cbn [snd trace].
    + destruct (json resp) as [doc|]; cbn [snd trace].
      * destruct (asExchangeInfo C (Some doc)); cbn [snd trace].
        -- exists []. split; [reflexivity | cbn; lia].
        -- eexists [_]. rewrite <- app_assoc. split; [reflexivity | cbn; lia].
      * eexists [_]. rewrite <- app_assoc. split; [reflexivity | cbn; lia].
    + eexists [_]. rewrite <- app_assoc. split; [reflexivity | cbn; lia].
  - eexists [_]. rewrite <- app_assoc. split; [reflexivity | cbn; lia].
Qed.

(** X12: the info server is asked exactly when the cache is stale.  With
    a payload whose age is at most the update frequency (the bound
    included) the refresh does nothing at all; without a payload, or with
    an older one, it sends the fetch, and at most a warning after it. *)
Theorem refresh_fetches_exactly_when_stale (W : World) (C : Config) (s : State) :
  let age := now W (trace s) - exchangeInfoLastUpdate s in
  ((exists info, exchangeInfo s = Some info) /\ age <= EXCHANGE_INFO_UPDATE_FREQ_MS C ->
   refreshExchangeInfo W C s = (Ok tt, s))
  /\ (exchangeInfo s = None \/ EXCHANGE_INFO_UPDATE_FREQ_MS C < age ->
      exists rest,
        trace (snd (refreshExchangeInfo W C s))
        = trace s ++ EvFetchInfo (infoPath C) :: rest
        /\ (List.length rest <= 1)%nat).
Proof.
  cbv zeta. split.
  - intros [Hinfo Hage]. apply refresh_skips_a_fresh_cache; assumption.
  - intros Hstale. apply refresh_fetches_for_a_stale_cache. exact Hstale.
Qed.

(** X13: a refresh that succeeds replaces the payload and stamps it with
    the time read before the fetch; from then on, as long as the cache is
    as the refresh left it and the clock is at most the update frequency
    past that stamp, a refresh does nothing: no second fetch is sent. *)
Theorem successful_refresh_is_kept
    (W : World) (C : Config) (s : State) (resp : Response) (doc : Json)
    (info : ExchangeInfo) :
  isStale C (now W (trace s)) s = true ->
  fetchInfo W (trace s) (infoPath C) = Ok resp ->
  ok resp = true ->
  json resp = Some doc ->
  asExchangeInfo C (Some doc) = Some info ->
  let s1 := snd (refreshExchangeInfo W C s) in
  fst (refreshExchangeInfo W C s) = Ok tt
  /\ trace s1 = trace s ++ [EvFetchInfo (infoPath C)]
  /\ exchangeInfo s1 = Some info
  /\ exchangeInfoLastUpdate s1 = now W (trace s)
  /\ forall s2,
       exchangeInfo s2 = exchangeInfo s1 ->
       exchangeInfoLastUpdate s2 = exchangeInfoLastUpdate s1 ->
       now W (trace s2) - now W (trace s) <= EXCHANGE_INFO_UPDATE_FREQ_MS C ->
       refreshExchangeInfo W C s2 = (Ok tt, s2).
Proof.
  intros Hstale Hfetch Hok Hjson Hclean. cbv zeta.
  rewrite (refreshExchangeInfo_cases W C s). cbv zeta.
  rewrite Hstale, Hfetch, Hok, Hjson, Hclean. cbn [fst snd trace exchangeInfo
                                                    exchangeInfoLastUpdate].
  repeat split.
  intros s2 Hinfo Hlast Hage.
  apply refresh_skips_a_fresh_cache; [exists info; exact Hinfo|].
  rewrite Hlast. exact Hage.
Qed.

Lemma successful_refresh_is_kept_witness :
  let W := demoWorld answered [] in
  let s1 := snd (refreshExchangeInfo W demoConfig initialState) in
  exchangeInfo s1 = Some cachedInfo
  /\ exchangeInfoLastUpdate s1 = 1700000000000
  /\ refreshExchangeInfo W demoConfig s1 = (Ok tt, s1).
Proof.
  cbv zeta.
  destruct (successful_refresh_is_kept (demoWorld answered []) demoConfig
              initialState _ _ _ eq_refl eq_refl eq_refl eq_refl eq_refl)
    as [_ [_ [Hinfo [Hlast Hkept]]]].
  split; [exact Hinfo|]. split; [exact Hlast|].
  apply Hkept; [reflexivity | reflexivity | vm_compute; discriminate].
Defined.

(** X14: a refresh that fails is not remembered: if the cache was stale
    and the fetch was rejected or answered without success, then the next
    time the cache is looked at, the clock not having gone back, the fetch
    is sent again. *)
Theorem failed_refresh_is_retried
    (W : World) (C : Config) (s s2 : State) :
  isStale C (now W (trace s)) s = true ->
  match fetchInfo W (trace s) (infoPath C) with
  | Err _ => True
  | Ok resp => ok resp = false
  end ->
  exchangeInfo s2 = exchangeInfo (snd (refreshExchangeInfo W C s)) ->
  exchangeInfoLastUpdate s2
  = exchangeInfoLastUpdate (snd (refreshExchangeInfo W C s)) ->
  now W (trace s) <= now W (trace s2) ->
  exists rest,
    trace (snd (refreshExchangeInfo W C s2))
    = trace s2 ++ EvFetchInfo (infoPath C) :: rest.
Proof.
  intros Hstale Hfail Hinfo Hlast Hclock.
  rewrite (refreshExchangeInfo_cases W C s) in Hinfo, Hlast.
  cbv zeta in Hinfo, Hlast. rewrite Hstale in Hinfo, Hlast.
  assert (Hsame : exchangeInfo s2 = exchangeInfo s
                  /\ exchangeInfoLastUpdate s2 = exchangeInfoLastUpdate s).
  { destruct (fetchInfo W (trace s) (infoPath C)) as [resp|why].
    - rewrite Hfail in Hinfo, Hlast. split; assumption.
    - split; assumption. }
  destruct Hsame as [Hi Hl].
  destruct (refresh_fetches_for_a_stale_cache W C s2) as [rest [Hrest _]].
  - unfold isStale in Hstale. rewrite Hi, Hl.
    apply orb_true_iff in Hstale. destruct Hstale as [Hage|Hnone].
    + right. apply Z.ltb_lt in Hage. lia.
    + left. destruct (exchangeInfo s); [discriminate|reflexivity].
  - exists rest. exact Hrest.
Qed.

Lemma failed_refresh_is_retried_witness :
  let W := demoWorld timedOut [] in
  exists rest,
    trace (snd (refreshExchangeInfo W demoConfig
                  (snd (refreshExchangeInfo W demoConfig initialState))))
    = trace (snd (refreshExchangeInfo W demoConfig initialState))
      ++ EvFetchInfo "v1/exchangeInfo/edge" :: rest.
Proof.
  cbv zeta.
  exact (failed_refresh_is_retried (demoWorld timedOut []) demoConfig initialState
           (snd (refreshExchangeInfo (demoWorld timedOut []) demoConfig initialState))
           eq_refl I eq_refl eq_refl ltac:(vm_compute; discriminate)).
Defined.

(** X15: a request that names an invalid currency code, or whose source or
    destination chain has no entry in the mainnet transcription table, is
    refused with the [SwapCurrencyError] of its pair before anything is
    fetched, logged or built: the state is left as it was. *)
Theorem unsupported_request_is_refused_before_any_call
    (W : World) (C : Config) (request : EdgeSwapRequestPlugin) (s : State) :
  checkInvalidCodes C (INVALID_CURRENCY_CODES C)
    (currencyPluginId (fromWallet request)) (fromCurrencyCode request)
    (currencyPluginId (toWallet request)) (toCurrencyCode request) = true
  \/ assoc (currencyPluginId (fromWallet request)) (MAINNET_CODE_TRANSCRIPTION C) = None
  \/ assoc (currencyPluginId (toWallet request)) (MAINNET_CODE_TRANSCRIPTION C) = None ->
  fetchSwapQuoteInner W C request s
  = (Err (SwapCurrencyError swapInfo (fromCurrencyCode request)
            (toCurrencyCode request)), s).
Proof.
  intros Hbad. rewrite fetchSwapQuoteInner_steps.
  assert (Hcheck : checkRequest C request = Err (currencyError request)).
  { unfold checkRequest.
    destruct (_ && _); [reflexivity|].
    destruct (checkInvalidCodes _ _ _ _ _); [reflexivity|].
    destruct Hbad as [Hc|[Hf|Ht]]; [discriminate| |].
    - rewrite Hf. reflexivity.
    - destruct (assoc (currencyPluginId (fromWallet request)) _);
        [rewrite Ht|]; reflexivity. }
  rewrite Hcheck. reflexivity.
Qed.

Lemma unsupported_request_is_refused_before_any_call_witness :
  fetchSwapQuoteInner (demoWorld timedOut [routeDoc ["UNISWAPV2"; "THORCHAIN"]])
    demoConfig dogeToBtc initialState
  = (Err (SwapCurrencyError swapInfo "DOGE" "BTC"), initialState).
Proof.
  exact (unsupported_request_is_refused_before_any_call
           (demoWorld timedOut [routeDoc ["UNISWAPV2"; "THORCHAIN"]])
           demoConfig dogeToBtc initialState (or_intror (or_introl eq_refl))).
Defined.

Lemma readJson_state {T} (cleaner : Cleaners.Cleaner T) (resp : Response) (s : State) :
  snd (readJson cleaner resp s) = s.
Proof.
  unfold readJson.
  destruct (json resp); [destruct (cleaner _)|]; reflexivity.
Qed.

(** X16: the query of the provider always sends its two fetches together.
    Whatever the answers are, also when the first one is rejected, what a
    query in the direction 'from' or 'max' does to the outside world is:
    log the quote URI, fetch the inbound addresses from the thornode
    servers of the tuning, fetch the quote from its thorswap servers; the
    cache is not touched. *)
Theorem queryProvider_sends_both_fetches
    (W : World) (C : Config) (request : EdgeSwapRequestPlugin) (codes : Codes)
    (tuning : Tuning) (s : State) :
  quoteFor request <> QTo ->
  let uri := TokensQuotePath (quoteParamsOf W C request codes tuning) in
  let s1 := snd (queryProvider W C request codes tuning s) in
  trace s1
  = trace s ++ [EvLogWarn [LogUri uri];
                EvFetchWaterfall (tnThornodeServers tuning) InboundAddressesPath;
                EvFetchWaterfall (tnThorswapServers tuning) uri]
  /\ exchangeInfo s1 = exchangeInfo s
  /\ exchangeInfoLastUpdate s1 = exchangeInfoLastUpdate s.
Proof.
  intros Hfor. cbv zeta.
  set (uri := TokensQuotePath (quoteParamsOf W C request codes tuning)).
  set (s3 := emit (EvFetchWaterfall (tnThorswapServers tuning) uri)
               (emit (EvFetchWaterfall (tnThornodeServers tuning) InboundAddressesPath)
                  (emit (EvLogWarn [LogUri uri]) s))).
  assert (Hs3 : snd (queryProvider W C request codes tuning s) = s3).
  { unfold queryProvider. fold uri.
    assert (Hbody : forall body,
               body = (bind (logWarn [LogUri uri]) (fun _ =>
                         bind (fetchBoth W tuning uri) (fun responses =>
                           let (iaResponse, thorSwapResponse) := responses in
                           if negb (ok iaResponse)
                           then throw (JsError (String.append
                                  "Thorchain could not fetch inbound_addresses: "
                                  (stringify W (text iaResponse))))
                           else
                             if negb (ok thorSwapResponse)
                             then throw (JsError (String.append
                                    "Thorchain could not get thorswap quote: "
                                    (stringify W (text thorSwapResponse))))
                             else
                               bind (readJson (asInboundAddresses C) iaResponse)
                                 (fun inboundAddresses =>
                                    bind (readJson asThorSwapQuoteResponse
                                            thorSwapResponse)
                                      (fun thorSwapQuote =>
                                         ret {| anCodes := codes;
                                                anInboundAddresses := inboundAddresses;
                                                anThorSwapQuote := thorSwapQuote |}))))) ->
               snd (body s) = s3).
    { intros body ->. unfold bind at 1. unfold logWarn. unfold bind at 1.
      unfold fetchBoth. cbn zeta. fold s3.
      destruct (fetchWaterfall W (trace (emit (EvLogWarn [LogUri uri]) s)) _ _)
        as [ia|why1];
        destruct (fetchWaterfall W _ (tnThorswapServers tuning) uri) as [ts|why2];
        try reflexivity.
      destruct (negb (ok ia)); [reflexivity|].
      destruct (negb (ok ts)); [reflexivity|].
      unfold bind at 1.
      pose proof (readJson_state (asInboundAddresses C) ia s3) as H1.
      destruct (readJson (asInboundAddresses C) ia s3) as [[l|e] s4];
        cbn [snd] in H1; subst s4; [|reflexivity].
      unfold bind.
      pose proof (readJson_state asThorSwapQuoteResponse ts s3) as H2.
      destruct (readJson asThorSwapQuoteResponse ts s3) as [[q|e] s4];
        cbn [snd] in H2; subst s4; reflexivity. }
    destruct (quoteFor request); [apply Hbody; reflexivity | contradiction
                                 | apply Hbody; reflexivity]. }
  rewrite Hs3. unfold s3, emit. cbn [trace exchangeInfo exchangeInfoLastUpdate].
  rewrite <- !app_assoc. repeat split.
Qed.

Lemma queryProvider_sends_both_fetches_witness :
  List.length
    (trace (snd (queryProvider (demoWorld timedOut []) demoConfig (usdtToBtc QFrom)
                   {| fromMainnetCode := "ETH"; toMainnetCode := "BTC" |}
                   (tuningOf demoConfig None) initialState))) = 3%nat.
Proof.
  rewrite (proj1 (queryProvider_sends_both_fetches (demoWorld timedOut []) demoConfig
                    (usdtToBtc QFrom)
                    {| fromMainnetCode := "ETH"; toMainnetCode := "BTC" |}
                    (tuningOf demoConfig None) initialState ltac:(discriminate))).
  reflexivity.
Defined.

(** The answers a quote holds were asked for with the codes the checks
    gave. *)
Lemma obtainAnswers_codes
    (W : World) (C : Config) (request : EdgeSwapRequestPlugin) (s s1 : State)
    (answers : Answers) :
  obtainAnswers W C request s = (Ok answers, s1) ->
  checkRequest C request = Ok (anCodes answers).
Proof.
  unfold obtainAnswers, liftR. unfold bind at 1.
  destruct (checkRequest C request) as [codes|e]; [|discriminate].
  unfold bind at 1.
  destruct (refreshExchangeInfo W C s) as [[[]|e] s0]; [|discriminate].
  unfold bind at 1. unfold gets.
  unfold queryProvider.
  assert (Hbody : forall tuning s2,
             bind (logWarn [LogUri (TokensQuotePath
                                      (quoteParamsOf W C request codes tuning))])
               (fun _ =>
                  bind (fetchBoth W tuning
                          (TokensQuotePath (quoteParamsOf W C request codes tuning)))
                    (fun responses =>
                       let (iaResponse, thorSwapResponse) := responses in
                       if negb (ok iaResponse)
                       then throw (JsError (String.append
                              "Thorchain could not fetch inbound_addresses: "
                              (stringify W (text iaResponse))))
                       else
                         if negb (ok thorSwapResponse)
                         then throw (JsError (String.append
                                "Thorchain could not get thorswap quote: "
                                (stringify W (text thorSwapResponse))))
                         else
                           bind (readJson (asInboundAddresses C) iaResponse)
                             (fun inboundAddresses =>
                                bind (readJson asThorSwapQuoteResponse thorSwapResponse)
                                  (fun thorSwapQuote =>
                                     ret {| anCodes := codes;
                                            anInboundAddresses := inboundAddresses;
                                            anThorSwapQuote := thorSwapQuote |})))) s2
             = (Ok answers, s1) ->
             (Ok codes : Result Error Codes) = Ok (anCodes answers)).
  { intros tuning s2. unfold bind at 1. unfold logWarn. unfold bind at 1.
    destruct (fetchBoth W tuning _ _) as [[[ia ts]|e] s3]; [|discriminate].
    destruct (negb (ok ia)); [discriminate|].
    destruct (negb (ok ts)); [discriminate|].
    unfold bind at 1.
    destruct (readJson (asInboundAddresses C) ia s3) as [[l|e] s4]; [|discriminate].
    unfold bind.
    destruct (readJson asThorSwapQuoteResponse ts s4) as [[q|e] s5]; [|discriminate].
    intros H. injection H as <- _. reflexivity. }
  destruct (quoteFor request); [apply Hbody | discriminate | apply Hbody].
Qed.

(** The branch on the source chain for the coin of the chain: no call, no
    failure. *)
Lemma planSpend_native
    (W : World) (C : Config) (request : EdgeSwapRequestPlugin) (codes : Codes)
    (inAddressObject : InboundAddress) (thorSwap : ThorSwapRoute) (memo : string)
    (s : State) :
  fromMainnetCode codes = fromCurrencyCode request ->
  planSpend W C request codes inAddressObject thorSwap memo s
  = (Ok {| plMemo := if EVM_CURRENCY_CODES C (fromMainnetCode codes)
                     then String.append "0x" (toHex memo) else memo;
           plEthNativeAmount := nativeAmount request;
           plPublicAddress := address inAddressObject;
           plApproval := None |}, s).
Proof.
  intros Hnative. unfold planSpend.
  rewrite (proj2 (String.eqb_eq _ _) Hnative). cbn [negb].
  destruct (EVM_CURRENCY_CODES C (fromMainnetCode codes)); reflexivity.
Qed.

(** X17: a swap of the coin of its chain, once the answers are read and
    the route has passed the checks, always gives an order, and without
    any further call than the log of the memo: one spend target, for the
    native amount of the request, to the address of the inbound vault,
    with the memo of the route (in hexadecimal on an EVM chain); no
    approval transaction; the gas limit override only on an EVM chain. *)
Theorem native_swap_spends_the_amount_to_the_vault
    (W : World) (C : Config) (request : EdgeSwapRequestPlugin) (s s1 : State)
    (answers : Answers) (inAddressObject : InboundAddress)
    (thorSwap : ThorSwapRoute) (rest : list ThorSwapRoute) (calldata_ : Calldata) :
  obtainAnswers W C request s = (Ok answers, s1) ->
  findInbound (anInboundAddresses answers) (fromMainnetCode (anCodes answers))
  = Some inAddressObject ->
  routes (anThorSwapQuote answers) = thorSwap :: rest ->
  asCalldata (calldata thorSwap) = Some calldata_ ->
  (2 <= List.length (providers thorSwap))%nat ->
  fromMainnetCode (anCodes answers) = fromCurrencyCode request ->
  let memo :=
    match tcMemo calldata_, cdMemo calldata_ with
    | Some m, _ => m
    | None, Some m => m
    | None, None => ""
    end in
  let evm := EVM_CURRENCY_CODES C (fromMainnetCode (anCodes answers)) in
  exists order,
    fetchSwapQuoteInner W C request s
    = (Ok order, emit (EvLogWarn [LogText memo]) s1)
    /\ siSpendTargets (spendInfo order)
       = [ {| stMemo := if evm then String.append "0x" (toHex memo) else memo;
              stNativeAmount := nativeAmount request;
              stPublicAddress := address inAddressObject |} ]
    /\ preTx order = None
    /\ fromNativeAmount order = nativeAmount request
    /\ siGasLimit (spendInfo order)
       = (if evm
          then getGasLimit C (fromMainnetCode (anCodes answers))
                 (fromCurrencyCode request)
          else None).
Proof.
  intros Hanswers Hin Hroutes Hshape Hhops Hnative memo evm.
  rewrite (fetchSwapQuoteInner_after_answers _ _ _ _ _ _ Hanswers).
  unfold buildOrder. rewrite Hin, Hroutes, Hshape.
  destruct (Nat.leb_spec (List.length (providers thorSwap)) 1); [lia|].
  unfold assembleOrder. fold memo.
  unfold bind at 1. unfold logWarn. unfold bind at 1.
  rewrite planSpend_native by exact Hnative.
  unfold bind, ret, gets. cbn [plApproval].
  eexists. split; [reflexivity|].
  cbn [spendInfo swapSpend siSpendTargets siGasLimit preTx fromNativeAmount
       plMemo plEthNativeAmount plPublicAddress].
  fold evm. rewrite (proj2 (String.eqb_eq _ _) Hnative), andb_true_r.
  repeat split.
Qed.

Lemma native_swap_spends_the_amount_to_the_vault_witness :
  exists order s2,
    fetchSwapQuoteInner (demoWorld timedOut [routeDoc ["UNISWAPV2"; "THORCHAIN"]])
      demoConfig ethToBtc initialState = (Ok order, s2)
    /\ siSpendTargets (spendInfo order)
       = [ {| stMemo := String.append "0x" (toHex "=:BTC.BTC:bc1dest");
              stNativeAmount := "5000";
              stPublicAddress := "0xvault" |} ]
    /\ preTx order = None.
Proof.
  destruct (obtainAnswers (demoWorld timedOut [routeDoc ["UNISWAPV2"; "THORCHAIN"]])
              demoConfig ethToBtc initialState) as [ra s1] eqn:Ea.
  pose proof Ea as Ha.
  vm_compute in Ea. injection Ea as Era Es1. subst ra.
  destruct (native_swap_spends_the_amount_to_the_vault
              (demoWorld timedOut [routeDoc ["UNISWAPV2"; "THORCHAIN"]])
              demoConfig ethToBtc initialState s1 _ _ _ _ _
              Ha eq_refl eq_refl eq_refl ltac:(cbn; lia) eq_refl)
    as [order [Hrun [Htargets [Hpre _]]]].
  exists order. eexists. split; [exact Hrun|]. split; [exact Htargets | exact Hpre].
Defined.

(** X18: a token held on a chain that is no EVM chain is never quoted:
    whatever the provider answers, the quote ends in an error. *)
Theorem token_on_a_non_evm_chain_is_never_quoted
    (W : World) (C : Config) (request : EdgeSwapRequestPlugin) (s : State)
    (codes : Codes) :
  checkRequest C request = Ok codes ->
  EVM_CURRENCY_CODES C (fromMainnetCode codes) = false ->
  fromMainnetCode codes <> fromCurrencyCode request ->
  isOk (fst (fetchSwapQuoteInner W C request s)) = false.
Proof.
  intros Hcheck Hevm Htoken.
  unfold fetchSwapQuoteInner. unfold bind at 1.
  destruct (obtainAnswers W C request s) as [[answers|e] s1] eqn:Ha; [|reflexivity].
  apply obtainAnswers_codes in Ha. rewrite Hcheck in Ha. injection Ha as Hcodes.
  unfold buildOrder. rewrite <- Hcodes.
  destruct (findInbound _ _) as [inAddressObject|]; [|reflexivity].
  destruct (routes _) as [|thorSwap rest]; [reflexivity|].
  destruct (asCalldata _) as [calldata_|]; [|reflexivity].
  destruct (Nat.leb _ 1); [reflexivity|].
  unfold assembleOrder. unfold bind at 1. unfold logWarn. unfold bind at 1.
  unfold planSpend. rewrite Hevm.
  destruct (String.eqb_spec (fromMainnetCode codes) (fromCurrencyCode request));
    [contradiction|reflexivity].
Qed.

Lemma token_on_a_non_evm_chain_is_never_quoted_witness :
  isOk (fst (fetchSwapQuoteInner
               (demoWorld timedOut [routeDoc ["UNISWAPV2"; "THORCHAIN"]])
               demoConfig ordiToEth initialState)) = false.
Proof.
  exact (token_on_a_non_evm_chain_is_never_quoted
           (demoWorld timedOut [routeDoc ["UNISWAPV2"; "THORCHAIN"]])
           demoConfig ordiToEth initialState
           {| fromMainnetCode := "BTC"; toMainnetCode := "ETH" |}
           eq_refl eq_refl ltac:(discriminate)).
Defined.

(** The token branch on an EVM chain ends with the allowance check, asked
    for the proxy of the chain, the token contract and the amount of the
    request. *)
Lemma planSpend_token_allowance
    (W : World) (C : Config) (request : EdgeSwapRequestPlugin) (codes : Codes)
    (inAddressObject : InboundAddress) (thorSwap : ThorSwapRoute) (memo : string)
    (s s1 : State) (plan : Plan) :
  planSpend W C request codes inAddressObject thorSwap memo s = (Ok plan, s1) ->
  EVM_CURRENCY_CODES C (fromMainnetCode codes) = true ->
  fromMainnetCode codes <> fromCurrencyCode request ->
  let source :=
    String.append "0x" (tokenId W (fromWallet request) (fromCurrencyCode request)) in
  let a := {| apContractAddress :=
                assoc (currencyPluginId (fromWallet request)) tokenProxyMap;
              apAssetAddress := source;
              apNativeAmount := nativeAmount request |} in
  exists s0 approvalData,
    s1 = emit (EvGetEvmApprovalData a) s0
    /\ getEvmApprovalData W (trace s0) a = Ok approvalData
    /\ plApproval plan = option_map (fun d => (d, source)) approvalData.
Proof.
  intros Hplan Hevm Htoken source a.
  unfold planSpend in Hplan. rewrite Hevm in Hplan.
  unfold sourceTokenContractAddressOf in Hplan.
  destruct (String.eqb_spec (fromMainnetCode codes) (fromCurrencyCode request))
    as [Heq|_]; [contradiction|].
  cbn [negb] in Hplan.
  destruct (contractAddressOf inAddressObject thorSwap) as [contractAddress|];
    [|discriminate].
  unfold bind at 1 in Hplan.
  match type of Hplan with
  | match ?m s with _ => _ end = _ => destruct (m s) as [[memo'|e] s0]
  end; [|discriminate].
  unfold bind, call in Hplan. fold source in Hplan. fold a in Hplan.
  destruct (getEvmApprovalData W (trace s0) a) as [approvalData|why] eqn:Hans;
    [|discriminate].
  injection Hplan as <- <-.
  exists s0, approvalData. repeat split. exact Hans.
Qed.

(** X19: before an order for a token of an EVM chain is returned, the
    allowance of the proxy contract of that chain is checked for the token
    and the amount of the request, and this is the last thing asked of the
    outside world but for the approval itself: when the check gives
    approval data, a spend is made on the source wallet, in the currency
    of the chain, with one target that carries the approval data as memo,
    the native amount ['0'] and the token contract as destination, and
    its transaction is the order's [preTx]; when the check gives none, no
    spend is made and the order has no [preTx]. *)
Theorem token_swap_checks_the_allowance_last
    (W : World) (C : Config) (request : EdgeSwapRequestPlugin) (s s1 s2 : State)
    (answers : Answers) (order : SwapOrder) :
  obtainAnswers W C request s = (Ok answers, s1) ->
  fetchSwapQuoteInner W C request s = (Ok order, s2) ->
  EVM_CURRENCY_CODES C (fromMainnetCode (anCodes answers)) = true ->
  fromMainnetCode (anCodes answers) <> fromCurrencyCode request ->
  let source :=
    String.append "0x" (tokenId W (fromWallet request) (fromCurrencyCode request)) in
  let a := {| apContractAddress :=
                assoc (currencyPluginId (fromWallet request)) tokenProxyMap;
              apAssetAddress := source;
              apNativeAmount := nativeAmount request |} in
  exists earlier,
    (getEvmApprovalData W earlier a = Ok None
     /\ preTx order = None
     /\ trace s2 = earlier ++ [EvGetEvmApprovalData a])
    \/ (exists approvalData tx,
          let si :=
            {| siCurrencyCode := fromMainnetCode (anCodes answers);
               siSpendTargets := [ {| stMemo := approvalData;
                                      stNativeAmount := "0";
                                      stPublicAddress := source |} ];
               siMetadata := Some {| mdName := "Thorchain DEX Aggregator";
                                     mdCategory := "expense:Token Approval" |};
               siSwapData := None; siOutputSort := None; siGasLimit := None |} in
          getEvmApprovalData W earlier a = Ok (Some approvalData)
          /\ makeSpend W (earlier ++ [EvGetEvmApprovalData a]) (fromWallet request) si
             = Ok tx
          /\ preTx order = Some tx
          /\ trace s2
             = earlier ++ [EvGetEvmApprovalData a;
                           EvMakeSpend (fromWallet request) si]).
Proof.
  intros Hanswers Hrun Hevm Htoken source a.
  rewrite (fetchSwapQuoteInner_after_answers _ _ _ _ _ _ Hanswers) in Hrun.
  unfold buildOrder in Hrun.
  destruct (findInbound _ _) as [inAddressObject|]; [|discriminate].
  destruct (routes _) as [|thorSwap rest]; [discriminate|].
  destruct (asCalldata _) as [calldata_|]; [|discriminate].
  destruct (Nat.leb _ 1); [discriminate|].
  unfold assembleOrder in Hrun.
  unfold bind at 1 in Hrun. unfold logWarn in Hrun. unfold bind at 1 in Hrun.
  destruct (planSpend W C request (anCodes answers) inAddressObject thorSwap _ _)
    as [[plan|e] s3] eqn:Hplan; [|discriminate].
  destruct (planSpend_token_allowance _ _ _ _ _ _ _ _ _ _ Hplan Hevm Htoken)
    as [s0 [approvalData [Hs3 [Hans Happroval]]]].
  fold source in Hs3, Hans, Happroval. fold a in Hs3, Hans.
  exists (trace s0).
  rewrite Happroval in Hrun.
  destruct approvalData as [d|]; cbn [option_map] in Hrun.
  - right. unfold bind at 1 in Hrun. unfold bind at 1 in Hrun.
    unfold call in Hrun. subst s3. cbn [trace emit] in Hrun.
    destruct (makeSpend W (trace s0 ++ [EvGetEvmApprovalData a]) (fromWallet request)
                (approvalSpend (anCodes answers) d source)) as [tx|why] eqn:Hspend;
      [|discriminate].
    unfold bind, ret, gets in Hrun. injection Hrun as <- <-.
    exists d, tx. cbn [preTx trace emit].
    repeat split; try assumption.
    rewrite <- app_assoc. reflexivity.
  - left. unfold bind, ret, gets in Hrun. injection Hrun as <- <-.
    subst s3. repeat split; assumption.
Qed.

Lemma token_swap_checks_the_allowance_last_witness :
  exists order s2 earlier tx,
    fetchSwapQuoteInner (demoWorld timedOut [routeDoc ["UNISWAPV2"; "THORCHAIN"]])
      demoConfig (usdtToBtc QFrom) initialState = (Ok order, s2)
    /\ preTx order = Some tx
    /\ trace s2
       = earlier
         ++ [EvGetEvmApprovalData
               {| apContractAddress := assoc "ethereum" tokenProxyMap;
                  apAssetAddress := "0xdac17f958d2ee523a2206206994597c13d831ec7";
                  apNativeAmount := "1000000" |};
             EvMakeSpend ethWallet
               {| siCurrencyCode := "ETH";
                  siSpendTargets :=
                    [ {| stMemo := "0xapprove"; stNativeAmount := "0";
                         stPublicAddress :=
                           "0xdac17f958d2ee523a2206206994597c13d831ec7" |} ];
                  siMetadata := Some {| mdName := "Thorchain DEX Aggregator";
                                        mdCategory := "expense:Token Approval" |};
                  siSwapData := None; siOutputSort := None; siGasLimit := None |}].
Proof.
  destruct (obtainAnswers (demoWorld timedOut [routeDoc ["UNISWAPV2"; "THORCHAIN"]])
              demoConfig (usdtToBtc QFrom) initialState) as [ra s1] eqn:Ea.
  pose proof Ea as Ha.
  vm_compute in Ea. injection Ea as Era Es1. subst ra.
  destruct (fetchSwapQuoteInner
              (demoWorld timedOut [routeDoc ["UNISWAPV2"; "THORCHAIN"]])
              demoConfig (usdtToBtc QFrom) initialState) as [ro s2] eqn:Eo.
  pose proof Eo as Ho.
  vm_compute in Eo. injection Eo as Ero Es2. subst ro.
  destruct (token_swap_checks_the_allowance_last
              (demoWorld timedOut [routeDoc ["UNISWAPV2"; "THORCHAIN"]])
              demoConfig (usdtToBtc QFrom) initialState s1 s2 _ _
              Ha Ho eq_refl ltac:(discriminate))
    as [earlier [[Hnone _]|[d [tx [Hsome [_ [Hpre Htrace]]]]]]].
  - discriminate Hnone.
  - injection Hsome as <-.
    eexists. exists s2, earlier, tx.
    split; [reflexivity|]. split; [exact Hpre | exact Htrace].
Defined.

(** ** What a quote may ask of the wallet *)

Section Keeps.
Variable P : Event -> Prop.

Lemma keeps_ret {A} (a : A) : keeps P (ret a).
Proof. intros s. exists []. cbn. rewrite app_nil_r. auto. Qed.

Lemma keeps_throw {A} (e : Error) : keeps P (throw e : IO A).
Proof. intros s. exists []. cbn. rewrite app_nil_r. auto. Qed.

Lemma keeps_gets {A} (f : State -> A) : keeps P (gets f).
Proof. intros s. exists []. cbn. rewrite app_nil_r. auto. Qed.

Lemma keeps_liftR {A} (r : Result Error A) : keeps P (liftR r).
Proof. intros s. exists []. cbn. rewrite app_nil_r. auto. Qed.

Lemma keeps_setExchangeInfo (info : ExchangeInfo) (at_ : Z) :
  keeps P (setExchangeInfo info at_).
Proof. intros s. exists []. cbn. rewrite app_nil_r. auto. Qed.

Lemma keeps_bind {A B} (m : IO A) (k : A -> IO B) :
  keeps P m -> (forall a, keeps P (k a)) -> keeps P (bind m k).
Proof.
  intros Hm Hk s. unfold bind.
  destruct (Hm s) as [c1 [E1 F1]].
  destruct (m s) as [[a|e] s']; cbn [snd] in E1.
  - destruct (Hk a s') as [c2 [E2 F2]].
    exists (c1 ++ c2). rewrite E2, E1, app_assoc. split; [reflexivity|].
    apply Forall_app. split; assumption.
  - exists c1. split; assumption.
Qed.

Lemma keeps_tryCatch {A} (m : IO A) (h : Error -> IO A) :
  keeps P m -> (forall e, keeps P (h e)) -> keeps P (tryCatch m h).
Proof.
  intros Hm Hh s. unfold tryCatch.
  destruct (Hm s) as [c1 [E1 F1]].
  destruct (m s) as [[a|e] s']; cbn [snd] in E1.
  - exists c1. split; assumption.
  - destruct (Hh e s') as [c2 [E2 F2]].
    exists (c1 ++ c2). rewrite E2, E1, app_assoc. split; [reflexivity|].
    apply Forall_app. split; assumption.
Qed.

Lemma keeps_call {A} (e : Event) (answer : list Event -> Result string A) :
  P e -> keeps P (call e answer).
Proof.
  intros He s. exists [e]. unfold call.
  destruct (answer (trace s)); cbn; auto.
Qed.

Lemma keeps_logWarn (args : list LogArg) :
  P (EvLogWarn args) -> keeps P (logWarn args).
Proof. intros He s. exists [EvLogWarn args]. cbn. auto. Qed.

Lemma keeps_readJson {T} (cleaner : Cleaners.Cleaner T) (resp : Response) :
  keeps P (readJson cleaner resp).
Proof.
  unfold readJson. destruct (json resp) as [doc|]; [|apply keeps_throw].
  destruct (cleaner (Some doc)); [apply keeps_ret | apply keeps_throw].
Qed.

Lemma keeps_fetchBoth (W : World) (tuning : Tuning) (uri : Path) :
  (forall servers p, P (EvFetchWaterfall servers p)) ->
  keeps P (fetchBoth W tuning uri).
Proof.
  intros He s.
  exists [EvFetchWaterfall (tnThornodeServers tuning) InboundAddressesPath;
          EvFetchWaterfall (tnThorswapServers tuning) uri].
  split; [|auto].
  unfold fetchBoth. cbv zeta.
  destruct (fetchWaterfall W (trace s) _ _) as [ia|why];
    destruct (fetchWaterfall W _ _ _); cbn; rewrite <- app_assoc; reflexivity.
Qed.
End Keeps.

(** One step of a proof of [keeps]: through the monad, a call that
    satisfies the predicate by computation, or a case of the code. *)
Ltac keeps_step :=
  match goal with
  | |- keeps _ (bind _ _) => apply keeps_bind
  | |- keeps _ (ret _) => apply keeps_ret
  | |- keeps _ (throw _) => apply keeps_throw
  | |- keeps _ (gets _) => apply keeps_gets
  | |- keeps _ (liftR _) => apply keeps_liftR
  | |- keeps _ (tryCatch _ _) => apply keeps_tryCatch
  | |- keeps _ (call _ _) => apply keeps_call; reflexivity
  | |- keeps _ (logWarn _) => apply keeps_logWarn; reflexivity
  | |- keeps _ (readJson _ _) => apply keeps_readJson
  | |- keeps _ (setExchangeInfo _ _) => apply keeps_setExchangeInfo
  | |- keeps _ (fetchBoth _ _ _) => apply keeps_fetchBoth; reflexivity
  | |- keeps _ (match ?x with _ => _ end) => destruct x
  | |- forall _, _ => intro
  end.

Lemma getCalldataData_spends_nothing
    (W : World) (C : Config) (currencyPluginId contractAddress contractMethod : string)
    (calldata : list (string * Json)) :
  keeps (fun e => spendsNothing e = true)
    (getCalldataData W C currencyPluginId contractAddress contractMethod calldata).
Proof.
  unfold getCalldataData, readAbi. repeat keeps_step.
Qed.

Lemma planSpend_spends_nothing
    (W : World) (C : Config) (request : EdgeSwapRequestPlugin) (codes : Codes)
    (inAddressObject : InboundAddress) (thorSwap : ThorSwapRoute) (memo : string) :
  keeps (fun e => spendsNothing e = true)
    (planSpend W C request codes inAddressObject thorSwap memo).
Proof.
  unfold planSpend. cbv zeta.
  repeat first [apply getCalldataData_spends_nothing | keeps_step].
Qed.

(** X20: whatever the provider, the info server and the wallet answer,
    the only spends a Thorchain quote asks of a wallet move no coin: every
    spend made while the order is being built has the native amount ['0']
    on all its targets (it is the token approval), and the calls made are
    only ever added to those made before. *)
Theorem quote_only_asks_for_spends_of_nothing
    (W : World) (C : Config) (request : EdgeSwapRequestPlugin) (s : State) :
  exists calls,
    trace (snd (fetchSwapQuoteInner W C request s)) = trace s ++ calls
    /\ Forall (fun e => spendsNothing e = true) calls.
Proof.
  revert s. change (keeps (fun e => spendsNothing e = true)
                      (fetchSwapQuoteInner W C request)).
  unfold fetchSwapQuoteInner, obtainAnswers, refreshExchangeInfo, queryProvider,
    buildOrder, assembleOrder.
  cbv zeta.
  repeat first [apply planSpend_spends_nothing | keeps_step].
Qed.

(** ** The answers of the provider *)

Lemma find_none_when_all_fail {A} (f : A -> bool) (l : list A) :
  (forall a, In a l -> f a = false) -> find f l = None.
Proof.
  induction l as [|x l IH]; intros H; [reflexivity|].
  cbn. rewrite (H x (or_introl eq_refl)). apply IH.
  intros a Ha. apply H. right. exact Ha.
Qed.

(** X21: a source chain that Thorchain has halted is refused.  When every
    inbound address of the source chain is halted (or the chain has none),
    the quote ends in the currency error of the pair right after the two
    documents are read: no contract is built and nothing is asked of the
    wallet. *)
Theorem halted_source_chain_is_refused
    (W : World) (C : Config) (request : EdgeSwapRequestPlugin) (s s1 : State)
    (answers : Answers) :
  obtainAnswers W C request s = (Ok answers, s1) ->
  (forall addrObj, In addrObj (anInboundAddresses answers) ->
                   chain addrObj = fromMainnetCode (anCodes answers) ->
                   halted addrObj = true) ->
  fetchSwapQuoteInner W C request s = (Err (currencyError request), s1).
Proof.
  intros Hanswers Hhalted.
  rewrite (fetchSwapQuoteInner_after_answers _ _ _ _ _ _ Hanswers).
  unfold buildOrder, findInbound.
  rewrite find_none_when_all_fail; [reflexivity|].
  intros addrObj Hin.
  destruct (String.eqb_spec (chain addrObj) (fromMainnetCode (anCodes answers)))
    as [Hchain|_]; [|apply andb_false_r].
  rewrite (Hhalted addrObj Hin Hchain). reflexivity.
Qed.

Lemma halted_source_chain_is_refused_witness :
  exists s1,
    fetchSwapQuoteInner
      (withInbound haltedInboundDoc
         (demoWorld timedOut [routeDoc ["UNISWAPV2"; "THORCHAIN"]]))
      demoConfig ethToBtc initialState
    = (Err (currencyError ethToBtc), s1).
Proof.
  destruct (obtainAnswers
              (withInbound haltedInboundDoc
                 (demoWorld timedOut [routeDoc ["UNISWAPV2"; "THORCHAIN"]]))
              demoConfig ethToBtc initialState) as [ra s1] eqn:Ea.
  pose proof Ea as Ha.
  vm_compute in Ea. injection Ea as Era Es1. subst ra.
  exists s1.
  refine (halted_source_chain_is_refused
            (withInbound haltedInboundDoc
               (demoWorld timedOut [routeDoc ["UNISWAPV2"; "THORCHAIN"]]))
            demoConfig ethToBtc initialState s1 _ Ha _).
  intros addrObj [<-|[<-|[]]] Hchain; [discriminate Hchain | reflexivity].
Defined.

Lemma cleanAll_none_when_one_fails {A} (c : Cleaners.Cleaner A) (l : list Json)
    (doc : Json) :
  In doc l -> c (Some doc) = None -> Cleaners.cleanAll c l = None.
Proof.
  intros Hin Hbad. induction l as [|x l IH]; [contradiction|].
  cbn. destruct Hin as [->|Hin].
  - rewrite Hbad. reflexivity.
  - rewrite (IH Hin). destruct (c (Some x)); reflexivity.
Qed.

(** X22: the answer of the provider is cleaned as a whole.  One route
    that does not have the expected shape, at any place in the list, makes
    the cleaner throw, although only the first route of the list is ever
    used. *)
Theorem one_malformed_route_rejects_the_answer
    (resp : Response) (fs : list (string * Json)) (docs : list Json) (doc : Json)
    (s : State) :
  json resp = Some (JObj fs) ->
  Cleaners.field "routes" fs = Some (JArr docs) ->
  In doc docs ->
  asThorSwapRoute (Some doc) = None ->
  readJson asThorSwapQuoteResponse resp s = (Err CleanerError, s).
Proof.
  intros Hjson Hroutes Hin Hbad.
  unfold readJson. rewrite Hjson.
  unfold asThorSwapQuoteResponse. cbn [Cleaners.asFields].
  rewrite Hroutes. cbn [Cleaners.asArray].
  rewrite (cleanAll_none_when_one_fails _ _ _ Hin Hbad). reflexivity.
Qed.

Lemma one_malformed_route_rejects_the_answer_witness :
  readJson asThorSwapQuoteResponse
    {| ok := true; status := 200;
       json := Some (quoteDoc [routeDoc ["UNISWAPV2"; "THORCHAIN"]; brokenRouteDoc]);
       text := "" |}
    initialState
  = (Err CleanerError, initialState).
Proof.
  refine (one_malformed_route_rejects_the_answer
            {| ok := true; status := 200;
               json := Some (quoteDoc [routeDoc ["UNISWAPV2"; "THORCHAIN"];
                                       brokenRouteDoc]);
               text := "" |}
            [("routes", JArr [routeDoc ["UNISWAPV2"; "THORCHAIN"]; brokenRouteDoc])]
            [routeDoc ["UNISWAPV2"; "THORCHAIN"]; brokenRouteDoc] brokenRouteDoc
            initialState eq_refl eq_refl _ eq_refl).
  right. left. reflexivity.
Defined.

End ThorchainDaProtocol.
